(** * evMonde booking core: registrations, payment confirmation, waitlist

    A shallow embedding of the booking and inventory code of the evMonde
    backend:

    - [app/models/{event,ticket,registration,commission,category}.py]
      (the rows),
    - [app/api/registrations.py] (registration routes, [confirm_payment],
      [verify_qr_code], [cancel_registration]),
    - [app/api/webhooks.py] ([stripe_webhook]),
    - [app/services/waitlist_service.py] ([allocate_waitlist_if_possible],
      [expire_offers_and_reallocate]).

    Conventions of the embedding.

    - A [DateTime] is a number of seconds ([Z]); [timedelta(hours=1)] is
      [3600].  Every reading of [datetime.utcnow()] made while one request
      is served is the same instant [now].
    - A [Float] amount is a binary64 floating-point number, as in Python
      and in the [Float] columns: the kernel's [float], whose operations
      round to nearest as IEEE 754 has it.
    - The counters are integers ([Z]) and [db.commit()] is not made to
      check the schema (32-bit [INTEGER] columns, [UNIQUE] on
      [qr_code_data]); the statements that depend on a commit of such
      values carry the conditions [int4], [counters_fit], [sale_fits]
      and [fresh_token].
    - A Python [set] is walked in an order that the program does not
      choose: the sweep takes it as a [SetOrder].
    - The SQLAlchemy session is a pair of databases: the rows as last
      committed and the rows as the request sees them
      ([autoflush=False], [autocommit=False]).  [db.commit()] copies the
      second onto the first; when the request ends ([db.close()] in
      [get_db]) what was not committed is lost.  An exception does not undo
      what the request has already written to its objects.
    - The payment gateway, the mailer and the QR generator are oracles
      passed to each route.
    - In-app notifications and notification preferences live in tables of
      their own ([Inbox]) and are read by none of the routes below; the
      columns that are only copied from the request (phone numbers,
      country codes) and [updated_at] are left out. *)

From Stdlib Require Import ZArith QArith Qminmax List String Bool Lia Floats.
From Stdlib Require Import Sorting.Permutation Sorting.Sorted Sorting.Mergesort.
From Stdlib Require Import Orders.
Import ListNotations.
Local Open Scope string_scope.
Local Open Scope list_scope.
Local Open Scope Z_scope.


Definition time := Z.

(** ** Python helpers *)

(** Truth value of an optional string ([None] and [""] are false). *)
Definition truthy_str (o : option string) : bool :=
  match o with
  | Some s => negb (String.eqb s "")
  | None => false
  end.

(** Truth value of an optional integer ([None] and [0] are false). *)
Definition truthy_id (o : option Z) : bool :=
  match o with
  | Some z => negb (z =? 0)
  | None => false
  end.

(** [max(a, b)] of Python: [b] when [b > a], otherwise [a]. *)
Definition py_max (a b : float) : float := if (a <? b)%float then b else a.

Definition option_eqb {A} (eqb : A -> A -> bool) (x y : option A) : bool :=
  match x, y with
  | Some a, Some b => eqb a b
  | None, None => true
  | _, _ => false
  end.

(** ** Enumerations *)

Module RegistrationType.
Inductive t := USER | GUEST.
Definition eqb (a b : t) : bool :=
  match a, b with
  | USER, USER | GUEST, GUEST => true
  | _, _ => false
  end.
End RegistrationType.

Module RegistrationStatus.
Inductive t := PENDING | CONFIRMED | WAITLIST | OFFERED | CANCELLED | REFUNDED.
Definition eqb (a b : t) : bool :=
  match a, b with
  | PENDING, PENDING | CONFIRMED, CONFIRMED | WAITLIST, WAITLIST
  | OFFERED, OFFERED | CANCELLED, CANCELLED | REFUNDED, REFUNDED => true
  | _, _ => false
  end.
End RegistrationStatus.

Module PaymentStatus.
Inductive t := NOT_REQUIRED | PENDING | PAID | FAILED | REFUNDED.
Definition eqb (a b : t) : bool :=
  match a, b with
  | NOT_REQUIRED, NOT_REQUIRED | PENDING, PENDING | PAID, PAID
  | FAILED, FAILED | REFUNDED, REFUNDED => true
  | _, _ => false
  end.
End PaymentStatus.

Module EventStatus.
Inductive t := DRAFT | PUBLISHED | CANCELLED | COMPLETED.
Definition eqb (a b : t) : bool :=
  match a, b with
  | DRAFT, DRAFT | PUBLISHED, PUBLISHED | CANCELLED, CANCELLED
  | COMPLETED, COMPLETED => true
  | _, _ => false
  end.
End EventStatus.

(** ** Rows *)

Module User.
Record t := mk {
  id : Z;
  email : string;
  first_name : string;
  last_name : string
}.
End User.

Module Event.
Record t := mk {
  id : Z;
  title : string;
  status : EventStatus.t;
  is_free : bool;
  capacity : Z;
  available_seats : Z;
  start_date : time;
  currency : string;
  organizer_id : Z;
  category_id : option Z
}.
Definition set_available_seats (v : Z) (e : t) : t :=
  mk (id e) (title e) (status e) (is_free e) (capacity e) v
     (start_date e) (currency e) (organizer_id e) (category_id e).
End Event.

Module Ticket.
Record t := mk {
  id : Z;
  event_id : Z;
  name : string;
  price : float;
  quantity_available : Z;
  quantity_sold : Z;
  is_active : bool
}.
Definition set_quantity_sold (v : Z) (k : t) : t :=
  mk (id k) (event_id k) (name k) (price k) (quantity_available k) v
     (is_active k).
(** [Ticket.is_sold_out] *)
Definition is_sold_out (k : t) : bool :=
  quantity_available k <=? quantity_sold k.
End Ticket.

Module Category.
Record t := mk {
  id : Z;
  custom_commission_rate : option float
}.
End Category.

Module CommissionSettings.
Record t := mk {
  default_commission_rate : float;
  minimum_commission_amount : float;
  is_active : bool
}.
End CommissionSettings.

Module CommissionTransaction.
Record t := mk {
  registration_id : Z;
  event_id : Z;
  organizer_id : Z;
  ticket_amount : float;
  commission_rate : float;
  commission_amount : float;
  net_amount : float;
  currency : option string;
  stripe_payment_intent_id : option string
}.
End CommissionTransaction.

Module Registration.
Record t := mk {
  id : Z;
  registration_type : RegistrationType.t;
  event_id : Z;
  user_id : option Z;
  ticket_id : option Z;
  guest_first_name : option string;
  guest_last_name : option string;
  guest_email : option string;
  waitlist_joined_at : option time;
  offer_expires_at : option time;
  status : RegistrationStatus.t;
  payment_status : PaymentStatus.t;
  amount_paid : float;
  currency : option string;
  stripe_session_id : option string;
  stripe_payment_intent_id : option string;
  qr_code_url : option string;
  qr_code_data : option string;
  scanned_count : Z;
  first_scan_at : option time;
  last_scan_at : option time;
  email_sent : bool;
  email_sent_at : option time;
  created_at : time
}.

Definition set_id (v : Z) (r : t) : t :=
  mk v (registration_type r) (event_id r) (user_id r) (ticket_id r)
     (guest_first_name r) (guest_last_name r) (guest_email r)
     (waitlist_joined_at r) (offer_expires_at r) (status r)
     (payment_status r) (amount_paid r) (currency r) (stripe_session_id r)
     (stripe_payment_intent_id r) (qr_code_url r) (qr_code_data r)
     (scanned_count r) (first_scan_at r) (last_scan_at r) (email_sent r)
     (email_sent_at r) (created_at r).
Definition set_offer_expires_at (v : option time) (r : t) : t :=
  mk (id r) (registration_type r) (event_id r) (user_id r) (ticket_id r)
     (guest_first_name r) (guest_last_name r) (guest_email r)
     (waitlist_joined_at r) v (status r) (payment_status r)
     (amount_paid r) (currency r) (stripe_session_id r)
     (stripe_payment_intent_id r) (qr_code_url r) (qr_code_data r)
     (scanned_count r) (first_scan_at r) (last_scan_at r) (email_sent r)
     (email_sent_at r) (created_at r).
Definition set_status (v : RegistrationStatus.t) (r : t) : t :=
  mk (id r) (registration_type r) (event_id r) (user_id r) (ticket_id r)
     (guest_first_name r) (guest_last_name r) (guest_email r)
     (waitlist_joined_at r) (offer_expires_at r) v (payment_status r)
     (amount_paid r) (currency r) (stripe_session_id r)
     (stripe_payment_intent_id r) (qr_code_url r) (qr_code_data r)
     (scanned_count r) (first_scan_at r) (last_scan_at r) (email_sent r)
     (email_sent_at r) (created_at r).
Definition set_payment_status (v : PaymentStatus.t) (r : t) : t :=
  mk (id r) (registration_type r) (event_id r) (user_id r) (ticket_id r)
     (guest_first_name r) (guest_last_name r) (guest_email r)
     (waitlist_joined_at r) (offer_expires_at r) (status r) v
     (amount_paid r) (currency r) (stripe_session_id r)
     (stripe_payment_intent_id r) (qr_code_url r) (qr_code_data r)
     (scanned_count r) (first_scan_at r) (last_scan_at r) (email_sent r)
     (email_sent_at r) (created_at r).
Definition set_stripe_session_id (v : option string) (r : t) : t :=
  mk (id r) (registration_type r) (event_id r) (user_id r) (ticket_id r)
     (guest_first_name r) (guest_last_name r) (guest_email r)
     (waitlist_joined_at r) (offer_expires_at r) (status r)
     (payment_status r) (amount_paid r) (currency r) v
     (stripe_payment_intent_id r) (qr_code_url r) (qr_code_data r)
     (scanned_count r) (first_scan_at r) (last_scan_at r) (email_sent r)
     (email_sent_at r) (created_at r).
Definition set_stripe_payment_intent_id (v : option string) (r : t) : t :=
  mk (id r) (registration_type r) (event_id r) (user_id r) (ticket_id r)
     (guest_first_name r) (guest_last_name r) (guest_email r)
     (waitlist_joined_at r) (offer_expires_at r) (status r)
     (payment_status r) (amount_paid r) (currency r) (stripe_session_id r)
     v (qr_code_url r) (qr_code_data r) (scanned_count r)
     (first_scan_at r) (last_scan_at r) (email_sent r) (email_sent_at r)
     (created_at r).
Definition set_qr_code_url (v : option string) (r : t) : t :=
  mk (id r) (registration_type r) (event_id r) (user_id r) (ticket_id r)
     (guest_first_name r) (guest_last_name r) (guest_email r)
     (waitlist_joined_at r) (offer_expires_at r) (status r)
     (payment_status r) (amount_paid r) (currency r) (stripe_session_id r)
     (stripe_payment_intent_id r) v (qr_code_data r) (scanned_count r)
     (first_scan_at r) (last_scan_at r) (email_sent r) (email_sent_at r)
     (created_at r).
Definition set_qr_code_data (v : option string) (r : t) : t :=
  mk (id r) (registration_type r) (event_id r) (user_id r) (ticket_id r)
     (guest_first_name r) (guest_last_name r) (guest_email r)
     (waitlist_joined_at r) (offer_expires_at r) (status r)
     (payment_status r) (amount_paid r) (currency r) (stripe_session_id r)
     (stripe_payment_intent_id r) (qr_code_url r) v (scanned_count r)
     (first_scan_at r) (last_scan_at r) (email_sent r) (email_sent_at r)
     (created_at r).
Definition set_scanned_count (v : Z) (r : t) : t :=
  mk (id r) (registration_type r) (event_id r) (user_id r) (ticket_id r)
     (guest_first_name r) (guest_last_name r) (guest_email r)
     (waitlist_joined_at r) (offer_expires_at r) (status r)
     (payment_status r) (amount_paid r) (currency r) (stripe_session_id r)
     (stripe_payment_intent_id r) (qr_code_url r) (qr_code_data r) v
     (first_scan_at r) (last_scan_at r) (email_sent r) (email_sent_at r)
     (created_at r).
Definition set_first_scan_at (v : option time) (r : t) : t :=
  mk (id r) (registration_type r) (event_id r) (user_id r) (ticket_id r)
     (guest_first_name r) (guest_last_name r) (guest_email r)
     (waitlist_joined_at r) (offer_expires_at r) (status r)
     (payment_status r) (amount_paid r) (currency r) (stripe_session_id r)
     (stripe_payment_intent_id r) (qr_code_url r) (qr_code_data r)
     (scanned_count r) v (last_scan_at r) (email_sent r) (email_sent_at r)
     (created_at r).
Definition set_last_scan_at (v : option time) (r : t) : t :=
  mk (id r) (registration_type r) (event_id r) (user_id r) (ticket_id r)
     (guest_first_name r) (guest_last_name r) (guest_email r)
     (waitlist_joined_at r) (offer_expires_at r) (status r)
     (payment_status r) (amount_paid r) (currency r) (stripe_session_id r)
     (stripe_payment_intent_id r) (qr_code_url r) (qr_code_data r)
     (scanned_count r) (first_scan_at r) v (email_sent r)
     (email_sent_at r) (created_at r).
Definition set_email_sent (v : bool) (r : t) : t :=
  mk (id r) (registration_type r) (event_id r) (user_id r) (ticket_id r)
     (guest_first_name r) (guest_last_name r) (guest_email r)
     (waitlist_joined_at r) (offer_expires_at r) (status r)
     (payment_status r) (amount_paid r) (currency r) (stripe_session_id r)
     (stripe_payment_intent_id r) (qr_code_url r) (qr_code_data r)
     (scanned_count r) (first_scan_at r) (last_scan_at r) v
     (email_sent_at r) (created_at r).
Definition set_email_sent_at (v : option time) (r : t) : t :=
  mk (id r) (registration_type r) (event_id r) (user_id r) (ticket_id r)
     (guest_first_name r) (guest_last_name r) (guest_email r)
     (waitlist_joined_at r) (offer_expires_at r) (status r)
     (payment_status r) (amount_paid r) (currency r) (stripe_session_id r)
     (stripe_payment_intent_id r) (qr_code_url r) (qr_code_data r)
     (scanned_count r) (first_scan_at r) (last_scan_at r) (email_sent r) v
     (created_at r).
End Registration.

(** ** The database *)

Record Db := mkDb {
  users : list User.t;
  events : list Event.t;
  tickets : list Ticket.t;
  categories : list Category.t;
  registrations : list Registration.t;
  registration_seq : Z;  (* next value of the [registrations.id] sequence *)
  commission_settings : list CommissionSettings.t;
  commission_transactions : list CommissionTransaction.t
}.

Definition with_events (f : list Event.t -> list Event.t) (d : Db) : Db :=
  mkDb (users d) (f (events d)) (tickets d) (categories d) (registrations d)
       (registration_seq d) (commission_settings d)
       (commission_transactions d).

Definition with_tickets (f : list Ticket.t -> list Ticket.t) (d : Db) : Db :=
  mkDb (users d) (events d) (f (tickets d)) (categories d) (registrations d)
       (registration_seq d) (commission_settings d)
       (commission_transactions d).

Definition with_registrations
    (f : list Registration.t -> list Registration.t) (d : Db) : Db :=
  mkDb (users d) (events d) (tickets d) (categories d) (f (registrations d))
       (registration_seq d) (commission_settings d)
       (commission_transactions d).

Definition with_commission_transactions
    (f : list CommissionTransaction.t -> list CommissionTransaction.t)
    (d : Db) : Db :=
  mkDb (users d) (events d) (tickets d) (categories d) (registrations d)
       (registration_seq d) (commission_settings d)
       (f (commission_transactions d)).

(** Apply [f] to the rows selected by [p]. *)
Definition update_where {A} (p : A -> bool) (f : A -> A) (l : list A) : list A :=
  map (fun x => if p x then f x else x) l.

Definition find_user (d : Db) (i : Z) : option User.t :=
  find (fun u => User.id u =? i) (users d).

Definition find_event (d : Db) (i : Z) : option Event.t :=
  find (fun e => Event.id e =? i) (events d).

Definition find_ticket (d : Db) (i : Z) : option Ticket.t :=
  find (fun k => Ticket.id k =? i) (tickets d).

Definition find_category (d : Db) (i : Z) : option Category.t :=
  find (fun c => Category.id c =? i) (categories d).

Definition find_registration (d : Db) (i : Z) : option Registration.t :=
  find (fun r => Registration.id r =? i) (registrations d).

Definition update_event (i : Z) (f : Event.t -> Event.t) : Db -> Db :=
  with_events (update_where (fun e => Event.id e =? i) f).

Definition update_ticket (i : Z) (f : Ticket.t -> Ticket.t) : Db -> Db :=
  with_tickets (update_where (fun k => Ticket.id k =? i) f).

Definition update_registration (i : Z) (f : Registration.t -> Registration.t)
    : Db -> Db :=
  with_registrations (update_where (fun r => Registration.id r =? i) f).

(** [db.add(Registration(...))] followed by the flush of the next commit:
    the row receives the next identifier of the sequence. *)
Definition insert_registration (r : Registration.t) (d : Db) : Db :=
  mkDb (users d) (events d) (tickets d) (categories d)
       (registrations d ++ [Registration.set_id (registration_seq d) r])
       (registration_seq d + 1) (commission_settings d)
       (commission_transactions d).

Definition delete_registration (i : Z) : Db -> Db :=
  with_registrations (filter (fun r => negb (Registration.id r =? i))).

Definition add_commission_transaction (c : CommissionTransaction.t) : Db -> Db :=
  with_commission_transactions (fun l => l ++ [c]).

(** ** The unit of work: a state and exception monad over the session *)

Inductive exn :=
| HTTPException (status_code : Z) (detail : string)
| NameError (name : string)
| UnboundLocalError (name : string)
| AttributeError (what : string)
| TypeError (what : string)
| ValidationError (what : string).

Inductive result (A : Type) :=
| Ok (a : A)
| Raise (e : exn).
Arguments Ok {A} a.
Arguments Raise {A} e.

Record Session := mkSession {
  committed : Db;
  working : Db
}.

Definition M (A : Type) : Type := Session -> Session * result A.

Definition ret {A} (a : A) : M A := fun s => (s, Ok a).

Definition bind {A B} (m : M A) (f : A -> M B) : M B :=
  fun s =>
    match m s with
    | (s', Ok a) => f a s'
    | (s', Raise e) => (s', Raise e)
    end.

Definition raise {A} (e : exn) : M A := fun s => (s, Raise e).

(** [try: m except Exception: pass] *)
Definition try_pass (m : M unit) : M unit :=
  fun s =>
    match m s with
    | (s', _) => (s', Ok tt)
    end.

(** The rows as the request sees them. *)
Definition query : M Db := fun s => (s, Ok (working s)).

(** A write to an attribute of a loaded object, or [db.add] / [db.delete]. *)
Definition write (f : Db -> Db) : M unit :=
  fun s => (mkSession (committed s) (f (working s)), Ok tt).

(** [db.commit()] *)
Definition commit : M unit :=
  fun s => (mkSession (working s) (working s), Ok tt).

Declare Scope session_scope.
Delimit Scope session_scope with session.
Notation "x <- m ;; k" := (bind m (fun x => k))
  (at level 61, m at next level, right associativity) : session_scope.
Notation "m ;; k" := (bind m (fun _ => k))
  (at level 61, right associativity) : session_scope.
Notation "'when' c 'then' m ;; k" :=
  (bind (if c then m else ret tt) (fun _ => k))
  (at level 61, c at next level, m at next level, right associativity)
  : session_scope.
Local Open Scope session_scope.

(** One request: open a session on [d], run the route, close the session.
    The database that remains is the one last committed. *)
Definition run {A} (m : M A) (d : Db) : Db * result A :=
  match m (mkSession d d) with
  | (s, r) => (committed s, r)
  end.

(** ** The outside world *)

Module CheckoutSession.
(** A Stripe Checkout session, as far as the routes read it.
    [client_reference_id] is the registration identifier that
    [create_checkout_session] sent ([str(registration_id)]). *)
Record t := mk {
  id : string;
  url : option string;
  payment_status : string;
  client_reference_id : option Z;
  payment_intent : option string
}.
End CheckoutSession.

(** [app/services/stripe_service.py]; [None] stands for the gateway's
    exception, which the service (or the caller) swallows. *)
Record Gateway := mkGateway {
  create_checkout_session : Z -> float -> string -> option CheckoutSession.t;
  retrieve : string -> option CheckoutSession.t;
  create_refund : string -> bool
}.

Record Env := mkEnv {
  now : time;                     (* datetime.utcnow() *)
  gateway : Gateway;
  qr_code : string * string;      (* generate_registration_qr_code() *)
  email_ok : bool                 (* send_registration_confirmation_email(...) *)
}.

Inductive StripeEvent :=
| checkout_session_completed (session : CheckoutSession.t)
| checkout_session_expired (session : CheckoutSession.t)
| charge_refunded (payment_intent : option string)
| other_event (event_type : string).

(** The request received by [/stripe]: the signature header and what
    [verify_webhook_signature(payload, sig_header)] answers for it. *)
Record WebhookRequest := mkWebhookRequest {
  stripe_signature : option string;
  verify_webhook_signature : option StripeEvent
}.

(** ** Request and response schemas *)

Module GuestRegistrationCreate.
Record t := mk {
  first_name : string;
  last_name : string;
  email : string;
  ticket_id : option Z
}.
End GuestRegistrationCreate.

Module UserRegistrationCreate.
Record t := mk { ticket_id : option Z }.
End UserRegistrationCreate.

Inductive RegistrationReply :=
| FreeRegistrationResponse (registration_id : Z) (qr_code_url : option string)
| WaitlistResponse (registration_id : Z) (status : string)
                   (offer_expires_at : option time)
| PaymentResponse (payment_url : string) (session_id : string).

Record ConfirmPaymentResponse := mkConfirmPaymentResponse {
  success : bool;
  message : string;
  cp_registration_id : option Z;
  cp_qr_code_url : option string;
  cp_email_sent : option bool
}.

(** The dictionaries returned by [stripe_webhook], by their ["status"]. *)
Inductive WebhookReply :=
| wh_error (message : string)
| wh_already_processed
| wh_success (registration_id : Z)
| wh_expired
| wh_refunded
| wh_ignored (event_type : string).

(** The [message] of a scan, without its wording. *)
Inductive ScanMessage :=
| msg_invalid_qr_code
| msg_invalid_status (s : RegistrationStatus.t)
| msg_first_scan
| msg_already_scanned (minutes_elapsed : Z)
| msg_fraud_detected (scanned_count : Z).

(** The [registration_status] of a scan: the status itself,
    [SCANNED_n_TIMES] or [FRAUD_DETECTED_n_SCANS]. *)
Inductive ScanStatus :=
| st_registration (s : RegistrationStatus.t)
| st_scanned_times (n : Z)
| st_fraud_detected (n : Z).

Record QRCodeVerifyResponse := mkQRCodeVerifyResponse {
  valid : bool;
  scan_message : ScanMessage;
  participant_name : option string;
  participant_email : option string;
  event_title : option string;
  event_date : option time;
  registration_status : option ScanStatus
}.

(** ** Queries shared by the routes *)

Definition find_published_event (d : Db) (i : Z) : option Event.t :=
  find (fun e => (Event.id e =? i)
                 && EventStatus.eqb (Event.status e) EventStatus.PUBLISHED)
       (events d).

Definition status_in (l : list RegistrationStatus.t) (r : Registration.t) : bool :=
  existsb (RegistrationStatus.eqb (Registration.status r)) l.

Definition guest_match (event_id : Z) (email : string) (r : Registration.t) : bool :=
  (Registration.event_id r =? event_id)
  && option_eqb String.eqb (Registration.guest_email r) (Some email).

Definition user_match (event_id : Z) (user_id : Z) (r : Registration.t) : bool :=
  (Registration.event_id r =? event_id)
  && option_eqb Z.eqb (Registration.user_id r) (Some user_id).

(** [.order_by(Registration.created_at.desc()).first()]; among rows created
    at the same instant the one met first is kept. *)
Fixpoint latest_created (l : list Registration.t) : option Registration.t :=
  match l with
  | [] => None
  | r :: l' =>
    match latest_created l' with
    | Some m =>
      if Registration.created_at r <? Registration.created_at m
      then Some m else Some r
    | None => Some r
    end
  end.

Definition fmt (o : option string) : string :=
  match o with
  | Some s => s
  | None => "None"
  end.

Definition registration_user (d : Db) (r : Registration.t) : option User.t :=
  match Registration.user_id r with
  | Some u => find_user d u
  | None => None
  end.

(** [Registration.get_participant_email] *)
Definition get_participant_email (d : Db) (r : Registration.t) : option string :=
  match Registration.registration_type r, registration_user d r with
  | RegistrationType.USER, Some u => Some (User.email u)
  | _, _ => Registration.guest_email r
  end.

(** [Registration.get_participant_name] *)
Definition get_participant_name (d : Db) (r : Registration.t) : string :=
  match Registration.registration_type r, registration_user d r with
  | RegistrationType.USER, Some u =>
    User.first_name u ++ " " ++ User.last_name u
  | _, _ =>
    fmt (Registration.guest_first_name r) ++ " "
      ++ fmt (Registration.guest_last_name r)
  end.

(** [Registration(...)] with the column defaults; the identifier is given
    by the sequence when the row is inserted. *)
Definition new_registration (typ : RegistrationType.t) (event_id : Z)
    (user_id ticket_id : option Z) (guest : option GuestRegistrationCreate.t)
    (status : RegistrationStatus.t) (payment_status : PaymentStatus.t)
    (amount_paid : float) (currency : string) (waitlist_joined_at : option time)
    (created_at : time) : Registration.t :=
  Registration.mk 0 typ event_id user_id ticket_id
    (option_map GuestRegistrationCreate.first_name guest)
    (option_map GuestRegistrationCreate.last_name guest)
    (option_map GuestRegistrationCreate.email guest)
    waitlist_joined_at None status payment_status amount_paid (Some currency)
    None None None None 0 None None false None created_at.

Definition add_registration (r : Registration.t) : M Z :=
  d <- query ;;
  write (insert_registration r) ;;
  ret (registration_seq d).

(** ** [app/api/registrations.py]: the registration routes *)

(** [validate_and_get_ticket].  A [ticket_id] that is [None] matches no
    row ([Ticket.id == None]). *)
Definition validate_and_get_ticket (event_id : Z) (ticket_id : option Z)
    : M Ticket.t :=
  d <- query ;;
  match match ticket_id with Some i => find_ticket d i | None => None end with
  | None => raise (HTTPException 404 "Type de ticket introuvable")
  | Some ticket =>
    if negb (Ticket.event_id ticket =? event_id) then
      raise (HTTPException 400 "Ce type de ticket n'appartient pas a cet evenement")
    else if negb (Ticket.is_active ticket) then
      raise (HTTPException 400 "Ce type de ticket n'est plus disponible")
    else if Ticket.is_sold_out ticket then
      raise (HTTPException 400 "Sold out")
    else ret ticket
  end.

Definition optional_ticket (event_id : Z) (ticket_id : option Z)
    : M (option Ticket.t) :=
  match ticket_id with
  | Some i => k <- validate_and_get_ticket event_id (Some i) ;; ret (Some k)
  | None => ret None
  end.

Definition ticket_price_or_zero (ticket : option Ticket.t) : float :=
  match ticket with
  | Some k => Ticket.price k
  | None => 0%float
  end.

(** The retry of a client whose registration is still [PENDING]: the open
    Checkout session is fetched again and its link returned. *)
Definition reuse_checkout_session (gw : Gateway) (existing : Registration.t)
    : option RegistrationReply :=
  if truthy_str (Registration.stripe_session_id existing) then
    match Registration.stripe_session_id existing with
    | Some sid =>
      match retrieve gw sid with
      | Some session =>
        match CheckoutSession.url session with
        | Some u =>
          if truthy_str (Some u)
          then Some (PaymentResponse u (CheckoutSession.id session))
          else None
        | None => None
        end
      | None => None
      end
    | None => None
    end
  else None.

(** [register_guest_to_event]: a guest, a free event.

    The module never imports [settings]; the only bindings of that name in
    [registrations.py] are local imports inside other functions.  Building
    [qr_code_url] (line 281) therefore raises [NameError], before the row
    is created: what follows in the source (insert, decrement, commit,
    mail) is never reached. *)
Definition register_guest_to_event (env : Env) (event_id : Z)
    (guest_data : GuestRegistrationCreate.t) : M RegistrationReply :=
  d <- query ;;
  match find_published_event d event_id with
  | None => raise (HTTPException 404 "Evenement non trouve ou pas encore publie")
  | Some event =>
    if negb (Event.is_free event) then
      raise (HTTPException 400 "Cet evenement est payant")
    else
      ticket <- optional_ticket event_id
                  (GuestRegistrationCreate.ticket_id guest_data) ;;
      if Event.available_seats event <=? 0 then
        wait_reg <- add_registration
          (new_registration RegistrationType.GUEST event_id None
             (option_map Ticket.id ticket) (Some guest_data)
             RegistrationStatus.WAITLIST PaymentStatus.NOT_REQUIRED
             (ticket_price_or_zero ticket) (Event.currency event)
             (Some (now env)) (now env)) ;;
        commit ;;
        ret (WaitlistResponse wait_reg "waitlist" None)
      else if existsb
          (fun r => guest_match event_id (GuestRegistrationCreate.email guest_data) r
                    && status_in [RegistrationStatus.CONFIRMED] r)
          (registrations d)
      then raise (HTTPException 400 "Cet email est deja inscrit a cet evenement")
      else raise (NameError "settings")
  end.

(** [register_user_to_event]: an account, a free event.

    Here [settings] is a local name of the function (it is imported inside
    the [PENDING] branch, line 465), and that branch always leaves the
    function; line 492 reads the name unbound: [UnboundLocalError]. *)
Definition register_user_to_event (env : Env) (event_id : Z)
    (registration_data : UserRegistrationCreate.t) (current_user : User.t)
    : M RegistrationReply :=
  d <- query ;;
  match find_published_event d event_id with
  | None => raise (HTTPException 404 "Evenement non trouve ou pas encore publie")
  | Some event =>
    if negb (Event.is_free event) then
      raise (HTTPException 400 "Cet evenement est payant")
    else
      ticket <- optional_ticket event_id
                  (UserRegistrationCreate.ticket_id registration_data) ;;
      if Event.available_seats event <=? 0 then
        wait_reg <- add_registration
          (new_registration RegistrationType.USER event_id
             (Some (User.id current_user)) (option_map Ticket.id ticket) None
             RegistrationStatus.WAITLIST PaymentStatus.NOT_REQUIRED
             (ticket_price_or_zero ticket) (Event.currency event)
             (Some (now env)) (now env)) ;;
        commit ;;
        ret (WaitlistResponse wait_reg "waitlist" None)
      else
        match latest_created
                (filter (fun r => user_match event_id (User.id current_user) r
                                  && status_in [RegistrationStatus.CONFIRMED;
                                                RegistrationStatus.PENDING] r)
                        (registrations d)) with
        | Some existing =>
          if RegistrationStatus.eqb (Registration.status existing)
               RegistrationStatus.CONFIRMED
          then raise (HTTPException 400 "Vous etes deja inscrit a cet evenement")
          else
            match reuse_checkout_session (gateway env) existing with
            | Some reply => ret reply
            | None =>
              raise (HTTPException 400
                "Une inscription est deja en attente de paiement pour cet evenement")
            end
        | None => raise (UnboundLocalError "settings")
        end
  end.

(** The tail shared by the two paid routes (steps 7 to 9 of the guest
    route, 6 to 8 of the account route): insert the [PENDING] row, commit,
    ask the gateway for a Checkout session, store its identifier.  The seat
    counters are not touched. *)
Definition create_pending_registration (env : Env) (event : Event.t)
    (ticket : Ticket.t) (row : Registration.t) : M RegistrationReply :=
  new_id <- add_registration row ;;
  commit ;;
  match create_checkout_session (gateway env) new_id (Ticket.price ticket)
          (Event.currency event) with
  | None =>
    write (delete_registration new_id) ;;
    commit ;;
    raise (HTTPException 500 "Erreur lors de la creation de la session de paiement")
  | Some session =>
    write (update_registration new_id
             (Registration.set_stripe_session_id
                (Some (CheckoutSession.id session)))) ;;
    commit ;;
    match CheckoutSession.url session with
    | Some u => ret (PaymentResponse u (CheckoutSession.id session))
    | None => raise (ValidationError "payment_url")
    end
  end.

(** [register_guest_to_paid_event] *)
Definition register_guest_to_paid_event (env : Env) (event_id : Z)
    (guest_data : GuestRegistrationCreate.t) : M RegistrationReply :=
  d <- query ;;
  match find_published_event d event_id with
  | None => raise (HTTPException 404 "Evenement non trouve ou pas encore publie")
  | Some event =>
    if Event.is_free event then
      raise (HTTPException 400 "Cet evenement est gratuit")
    else
      match GuestRegistrationCreate.ticket_id guest_data with
      | None => raise (HTTPException 400 "Veuillez selectionner un type de ticket")
      | Some tid =>
        ticket <- validate_and_get_ticket event_id (Some tid) ;;
        if Event.available_seats event <=? 0 then
          wait_reg <- add_registration
            (new_registration RegistrationType.GUEST event_id None
               (Some (Ticket.id ticket)) (Some guest_data)
               RegistrationStatus.WAITLIST PaymentStatus.PENDING
               (Ticket.price ticket) (Event.currency event)
               (Some (now env)) (now env)) ;;
          commit ;;
          ret (WaitlistResponse wait_reg "waitlist" None)
        else
          match latest_created
                  (filter (fun r => guest_match event_id
                                      (GuestRegistrationCreate.email guest_data) r
                                    && status_in [RegistrationStatus.CONFIRMED;
                                                  RegistrationStatus.PENDING] r)
                          (registrations d)) with
          | Some existing =>
            if RegistrationStatus.eqb (Registration.status existing)
                 RegistrationStatus.CONFIRMED
            then raise (HTTPException 400 "Cet email est deja inscrit a cet evenement")
            else
              match reuse_checkout_session (gateway env) existing with
              | Some reply => ret reply
              | None =>
                raise (HTTPException 400
                  "Une inscription est deja en attente de paiement pour cet evenement")
              end
          | None =>
            create_pending_registration env event ticket
              (new_registration RegistrationType.GUEST event_id None
                 (Some (Ticket.id ticket)) (Some guest_data)
                 RegistrationStatus.PENDING PaymentStatus.PENDING
                 (Ticket.price ticket) (Event.currency event) None (now env))
          end
      end
  end.

(** [register_user_to_paid_event] *)
Definition register_user_to_paid_event (env : Env) (event_id : Z)
    (registration_data : UserRegistrationCreate.t) (current_user : User.t)
    : M RegistrationReply :=
  d <- query ;;
  match find_published_event d event_id with
  | None => raise (HTTPException 404 "Evenement non trouve ou pas encore publie")
  | Some event =>
    if Event.is_free event then
      raise (HTTPException 400 "Cet evenement est gratuit")
    else
      ticket <- validate_and_get_ticket event_id
                  (UserRegistrationCreate.ticket_id registration_data) ;;
      if Event.available_seats event <=? 0 then
        wait_reg <- add_registration
          (new_registration RegistrationType.USER event_id
             (Some (User.id current_user)) (Some (Ticket.id ticket)) None
             RegistrationStatus.WAITLIST PaymentStatus.PENDING
             (Ticket.price ticket) (Event.currency event)
             (Some (now env)) (now env)) ;;
        commit ;;
        ret (WaitlistResponse wait_reg "waitlist" None)
      else if existsb
          (fun r => user_match event_id (User.id current_user) r
                    && status_in [RegistrationStatus.CONFIRMED] r)
          (registrations d)
      then raise (HTTPException 400 "Vous etes deja inscrit a cet evenement")
      else
        create_pending_registration env event ticket
          (new_registration RegistrationType.USER event_id
             (Some (User.id current_user)) (Some (Ticket.id ticket)) None
             RegistrationStatus.PENDING PaymentStatus.PENDING
             (Ticket.price ticket) (Event.currency event) None (now env))
  end.

(** ** Commission *)

Definition commission_rate_for (d : Db) (cs : CommissionSettings.t)
    (category_id : option Z) : float :=
  if truthy_id category_id then
    match match category_id with Some c => find_category d c | None => None end with
    | Some category =>
      match Category.custom_commission_rate category with
      | Some custom => custom
      | None => CommissionSettings.default_commission_rate cs
      end
    | None => CommissionSettings.default_commission_rate cs
    end
  else CommissionSettings.default_commission_rate cs.

Definition commission_amount_for (cs : CommissionSettings.t)
    (amount_paid commission_rate : float) : float :=
  let commission_amount := ((amount_paid * commission_rate) / 100)%float in
  if (0 <? CommissionSettings.minimum_commission_amount cs)%float
  then py_max commission_amount (CommissionSettings.minimum_commission_amount cs)
  else commission_amount.

(** The row built by the block "CALCUL ET ENREGISTREMENT DE LA COMMISSION"
    for a registration, from a given rate. *)
Definition commission_transaction_for (cs : CommissionSettings.t)
    (registration : Registration.t) (ev : Event.t) (commission_rate : float)
    : CommissionTransaction.t :=
  let commission_amount :=
    commission_amount_for cs (Registration.amount_paid registration)
      commission_rate in
  let net_amount :=
    (Registration.amount_paid registration - commission_amount)%float in
  CommissionTransaction.mk (Registration.id registration) (Event.id ev)
    (Event.organizer_id ev) (Registration.amount_paid registration)
    commission_rate commission_amount net_amount
    (Registration.currency registration)
    (Registration.stripe_payment_intent_id registration).

Definition has_commission (d : Db) (registration_id : Z) : bool :=
  match find (fun c => CommissionTransaction.registration_id c =? registration_id)
             (commission_transactions d) with
  | Some _ => true
  | None => false
  end.

(** The block "CALCUL ET ENREGISTREMENT DE LA COMMISSION", written twice in
    the source: [confirm_payment] guards the category lookup with
    [if event and event.category_id] ([guarded = true]), [stripe_webhook]
    reads [event.category_id] at once.  Both read [event.id] when they
    build the row, after they have looked for an existing one. *)
Definition post_commission (guarded : bool) (registration_id : Z)
    (event : option Event.t) : M unit :=
  d <- query ;;
  match find_registration d registration_id, hd_error (commission_settings d) with
  | Some registration, Some cs =>
    if CommissionSettings.is_active cs
       && (0 <? Registration.amount_paid registration)%float
    then
      match event with
      | Some ev =>
        if has_commission d (Registration.id registration) then ret tt
        else
          write (add_commission_transaction
                   (commission_transaction_for cs registration ev
                      (commission_rate_for d cs (Event.category_id ev))))
      | None =>
        if guarded then
          if has_commission d (Registration.id registration) then ret tt
          else raise (AttributeError "id")
        else raise (AttributeError "category_id")
      end
    else ret tt
  | _, _ => ret tt
  end.

(** The writes common to both confirmations: status, payment status,
    session and payment-intent identifiers. *)
Definition mark_paid (session : CheckoutSession.t) (r : Registration.t)
    : Registration.t :=
  let r1 :=
    Registration.set_stripe_session_id (Some (CheckoutSession.id session))
      (Registration.set_payment_status PaymentStatus.PAID
         (Registration.set_status RegistrationStatus.CONFIRMED r)) in
  if truthy_str (CheckoutSession.payment_intent session)
  then Registration.set_stripe_payment_intent_id
         (CheckoutSession.payment_intent session) r1
  else r1.

(** [if registration.ticket_id:] ... [if ticket: ticket.quantity_sold += 1] *)
Definition sell_ticket (ticket_id : option Z) (d : Db) : Db :=
  if truthy_id ticket_id then
    match ticket_id with
    | Some tid =>
      update_ticket tid
        (fun k => Ticket.set_quantity_sold (Ticket.quantity_sold k + 1) k) d
    | None => d
    end
  else d.

(** [if event: event.available_seats = ...]: [confirm_payment] writes
    [max(0, available_seats - 1)] ([clamped = true]), [stripe_webhook]
    writes [available_seats - 1]. *)
Definition take_seat (clamped : bool) (event_id : Z) : Db -> Db :=
  update_event event_id
    (fun e => Event.set_available_seats
                (if clamped then Z.max 0 (Event.available_seats e - 1)
                 else Event.available_seats e - 1) e).

(** [event.available_seats = (event.available_seats or 0) + 1] *)
Definition free_seat (event_id : Z) : Db -> Db :=
  update_event event_id
    (fun e => Event.set_available_seats (Event.available_seats e + 1) e).

(** The mail after a confirmation.  Whatever goes wrong inside is caught
    and printed; without an event nothing is sent. *)
Definition send_confirmation (env : Env) (registration_id : Z)
    (event : option Event.t) : M bool :=
  match event with
  | Some _ =>
    if email_ok env then
      write (update_registration registration_id
               (fun r => Registration.set_email_sent_at (Some (now env))
                           (Registration.set_email_sent true r))) ;;
      commit ;;
      ret true
    else ret false
  | None => ret false
  end.

Definition backend_url (BACKEND_URL path : string) : string :=
  BACKEND_URL ++ "/" ++ path.

(** The block "QR code" of [confirm_payment]: a token and its link, unless
    the registration already has a token. *)
Definition with_qr_code (BACKEND_URL : string) (env : Env)
    (registration : Registration.t) (r : Registration.t) : Registration.t :=
  if negb (truthy_str (Registration.qr_code_data registration)) then
    Registration.set_qr_code_url
      (Some (backend_url BACKEND_URL (snd (qr_code env))))
      (Registration.set_qr_code_data (Some (fst (qr_code env))) r)
  else r.

(** [confirm_payment]: the fallback called by the client after the
    redirection.  [settings] is imported at the top of the function, so the
    QR link can be built. *)
Definition confirm_payment (BACKEND_URL : string) (env : Env)
    (session_id : string) : M ConfirmPaymentResponse :=
  match retrieve (gateway env) session_id with
  | None =>
    ret (mkConfirmPaymentResponse false
           "Impossible de recuperer la session Stripe" None None None)
  | Some session =>
    if negb (String.eqb (CheckoutSession.payment_status session) "paid") then
      ret (mkConfirmPaymentResponse false
             "Paiement non confirme par Stripe" None None None)
    else
      match CheckoutSession.client_reference_id session with
      | None =>
        ret (mkConfirmPaymentResponse false
               "Registration ID manquant dans la session Stripe" None None None)
      | Some registration_id =>
        d <- query ;;
        match find_registration d registration_id with
        | None =>
          ret (mkConfirmPaymentResponse false "Inscription introuvable"
                 None None None)
        | Some registration =>
          if RegistrationStatus.eqb (Registration.status registration)
               RegistrationStatus.CONFIRMED
          then
            ret (mkConfirmPaymentResponse true "Inscription deja confirmee"
                   (Some (Registration.id registration))
                   (Registration.qr_code_url registration)
                   (Some (Registration.email_sent registration)))
          else
            write (update_registration registration_id (mark_paid session)) ;;
            write (update_registration registration_id
                     (with_qr_code BACKEND_URL env registration)) ;;
            let event := find_event d (Registration.event_id registration) in
            write (take_seat true (Registration.event_id registration)) ;;
            write (sell_ticket (Registration.ticket_id registration)) ;;
            post_commission true registration_id event ;;
            commit ;;
            email_sent <- send_confirmation env registration_id event ;;
            d' <- query ;;
            ret (mkConfirmPaymentResponse true
                   "Paiement confirme et inscription validee"
                   (Some registration_id)
                   (match find_registration d' registration_id with
                    | Some r => Registration.qr_code_url r
                    | None => None
                    end)
                   (Some email_sent))
        end
      end
  end.

(** ** [app/api/webhooks.py] *)

(** "CAS 1": [checkout.session.completed].

    [webhooks.py] has no binding for [settings] at all.  When the
    registration has no QR token yet, line 193 raises [NameError] after the
    token has been written to the object and before anything is committed. *)
Definition webhook_completed (env : Env) (session : CheckoutSession.t)
    : M WebhookReply :=
  match CheckoutSession.client_reference_id session with
  | None => ret (wh_error "Registration ID manquant")
  | Some registration_id =>
    d <- query ;;
    match find_registration d registration_id with
    | None => ret (wh_error "Inscription introuvable")
    | Some registration =>
      if RegistrationStatus.eqb (Registration.status registration)
           RegistrationStatus.CONFIRMED
      then ret wh_already_processed
      else
        write (update_registration registration_id (mark_paid session)) ;;
        when negb (truthy_str (Registration.qr_code_data registration)) then
          (write (update_registration registration_id
                    (Registration.set_qr_code_data (Some (fst (qr_code env))))) ;;
           raise (NameError "settings")) ;;
        let event := find_event d (Registration.event_id registration) in
        write (take_seat false (Registration.event_id registration)) ;;
        write (sell_ticket (Registration.ticket_id registration)) ;;
        post_commission false registration_id event ;;
        commit ;;
        _ <- send_confirmation env registration_id event ;;
        ret (wh_success registration_id)
    end
  end.

(** "CAS 2": [checkout.session.expired] *)
Definition webhook_expired (session : CheckoutSession.t) : M WebhookReply :=
  match CheckoutSession.client_reference_id session with
  | None => ret wh_expired
  | Some registration_id =>
    d <- query ;;
    match find_registration d registration_id with
    | None => ret wh_expired
    | Some _ =>
      write (update_registration registration_id
               (fun r => Registration.set_payment_status PaymentStatus.FAILED
                           (Registration.set_status RegistrationStatus.CANCELLED r))) ;;
      commit ;;
      ret wh_expired
    end
  end.

(** ** [app/services/waitlist_service.py] *)

(** [a] comes strictly before [b] under
    [ORDER BY waitlist_joined_at ASC] (PostgreSQL puts [NULL] last). *)
Definition joined_before (a b : Registration.t) : bool :=
  match Registration.waitlist_joined_at a, Registration.waitlist_joined_at b with
  | Some x, Some y => x <? y
  | Some _, None => true
  | None, _ => false
  end.

(** [.order_by(Registration.waitlist_joined_at.asc()).first()]; among rows
    that joined at the same instant the one met first is kept. *)
Fixpoint first_joined (l : list Registration.t) : option Registration.t :=
  match l with
  | [] => None
  | r :: l' =>
    match first_joined l' with
    | Some m => if joined_before m r then Some m else Some r
    | None => Some r
    end
  end.

Definition on_waitlist (event_id : Z) (r : Registration.t) : bool :=
  (Registration.event_id r =? event_id)
  && RegistrationStatus.eqb (Registration.status r) RegistrationStatus.WAITLIST.

(** [allocate_waitlist_if_possible].

    In the branch of a free event the function reads [settings.BACKEND_URL]
    (line 134), but [settings] is a local name of the function, bound only
    by the import of line 192 in the branch of a paid event:
    [UnboundLocalError], after the QR token has been written to the
    candidate and before the status changes or anything is committed. *)
Definition allocate_waitlist_if_possible (env : Env) (event_id : Z) : M unit :=
  d <- query ;;
  match find_event d event_id with
  | None => ret tt
  | Some event =>
    if Event.available_seats event <=? 0 then ret tt
    else
      match first_joined (filter (on_waitlist event_id) (registrations d)) with
      | None => ret tt
      | Some candidate =>
        if Event.is_free event then
          write (update_registration (Registration.id candidate)
                   (Registration.set_qr_code_data (Some (fst (qr_code env))))) ;;
          raise (UnboundLocalError "settings")
        else
          write (update_registration (Registration.id candidate)
                   (fun r => Registration.set_offer_expires_at
                               (Some (now env + 3600))
                               (Registration.set_status
                                  RegistrationStatus.OFFERED r))) ;;
          write (take_seat true event_id) ;;
          commit ;;
          try_pass
            (d' <- query ;;
             let ticket :=
               if truthy_id (Registration.ticket_id candidate) then
                 match Registration.ticket_id candidate with
                 | Some tid => find_ticket d' tid
                 | None => None
                 end
               else None in
             let ticket_price :=
               match ticket with
               | Some k => Ticket.price k
               | None => Registration.amount_paid candidate
               end in
             match create_checkout_session (gateway env)
                     (Registration.id candidate) ticket_price
                     (Event.currency event) with
             | Some session =>
               write (update_registration (Registration.id candidate)
                        (Registration.set_stripe_session_id
                           (Some (CheckoutSession.id session)))) ;;
               commit
             | None => ret tt
             end)
      end
  end.

Definition is_expired_offer (now : time) (r : Registration.t) : bool :=
  RegistrationStatus.eqb (Registration.status r) RegistrationStatus.OFFERED
  && match Registration.offer_expires_at r with
     | Some t => t <? now
     | None => false
     end.

(** [ORDER BY offer_expires_at ASC] *)
Module ExpiryOrder <: TotalLeBool.
Definition t := Registration.t.
Definition leb (x y : t) : bool :=
  match Registration.offer_expires_at x, Registration.offer_expires_at y with
  | Some a, Some b => a <=? b
  | None, Some _ => false
  | _, None => true
  end.
Theorem leb_total : forall x y, leb x y = true \/ leb y x = true.
Proof.
  intros x y; unfold leb.
  destruct (Registration.offer_expires_at x), (Registration.offer_expires_at y);
    auto.
  destruct (Z.leb_spec t0 t1); [now left | right; apply Z.leb_le; lia].
Qed.
End ExpiryOrder.

Module ExpirySort := Sort ExpiryOrder.

Fixpoint for_each {A} (f : A -> M unit) (l : list A) : M unit :=
  match l with
  | [] => ret tt
  | x :: l' => f x ;; for_each f l'
  end.

(** [reg.status = WAITLIST; reg.offer_expires_at = None;]
    [reg.stripe_session_id = None] *)
Definition back_to_waitlist (r : Registration.t) : Registration.t :=
  Registration.set_stripe_session_id None
    (Registration.set_offer_expires_at None
       (Registration.set_status RegistrationStatus.WAITLIST r)).

(** The body of the first loop of [expire_offers_and_reallocate]. *)
Definition release_expired_offer (reg : Registration.t) : M unit :=
  d <- query ;;
  match find_event d (Registration.event_id reg) with
  | None => ret tt
  | Some event =>
    write (update_registration (Registration.id reg) back_to_waitlist) ;;
    write (free_seat (Event.id event))
  end.

Definition expired_offers (now : time) (d : Db) : list Registration.t :=
  ExpirySort.sort (filter (is_expired_offer now) (registrations d)).

(** A Python [set] of integers is walked in an order that the language
    does not fix: [walk l] is the order in which the set built by adding
    the elements of [l] is walked, some arrangement of these elements, each
    once. *)
Record SetOrder := mkSetOrder {
  walk : list Z -> list Z;
  walk_permutation : forall l, Permutation (nodup Z.eq_dec l) (walk l)
}.

(** First half of [expire_offers_and_reallocate]: the query, the loop over
    the expired offers and the commit.  The value is [touched_event_ids],
    in the order in which the second half will walk it. *)
Definition expire_offers (env : Env) (order : SetOrder) : M (list Z) :=
  d <- query ;;
  let expired := expired_offers (now env) d in
  for_each release_expired_offer expired ;;
  when (match expired with [] => false | _ => true end) then commit ;;
  ret (walk order
         (filter (fun i => match find_event d i with
                           | Some _ => true
                           | None => false
                           end)
                 (map Registration.event_id expired))).

(** Second half: one allocation pass for each touched event, each under its
    own [try]/[except].  [alloc_env i] is the outside world as the pass for
    event [i] meets it. *)
Definition reallocate (alloc_env : Z -> Env) (touched_event_ids : list Z)
    : M unit :=
  for_each (fun ev_id =>
              try_pass (allocate_waitlist_if_possible (alloc_env ev_id) ev_id))
           touched_event_ids.

Definition expire_offers_and_reallocate (env : Env) (order : SetOrder)
    (alloc_env : Z -> Env) : M unit :=
  touched_event_ids <- expire_offers env order ;;
  reallocate alloc_env touched_event_ids.

(** [process_waitlist_offers] of [waitlist_scheduler.py]: one sweep pass in
    a session of its own. *)
Definition process_waitlist_offers (env : Env) (order : SetOrder)
    (alloc_env : Z -> Env) (d : Db) : Db :=
  fst (run (expire_offers_and_reallocate env order alloc_env) d).

(** ** [stripe_webhook], continued *)

(** [if registration.ticket_id:] ... [if ticket:]
    [ticket.quantity_sold = max(0, ticket.quantity_sold - 1)] *)
Definition release_ticket (ticket_id : option Z) (d : Db) : Db :=
  if truthy_id ticket_id then
    match ticket_id with
    | Some tid =>
      update_ticket tid
        (fun k => Ticket.set_quantity_sold
                    (Z.max 0 (Ticket.quantity_sold k - 1)) k) d
    | None => d
    end
  else d.

(** "CAS 3": [charge.refunded] *)
Definition webhook_refunded (env : Env) (payment_intent : option string)
    : M WebhookReply :=
  if truthy_str payment_intent then
    d <- query ;;
    match find (fun r => option_eqb String.eqb
                           (Registration.stripe_payment_intent_id r)
                           payment_intent)
               (registrations d) with
    | None => ret wh_refunded
    | Some registration =>
      let already_refunded :=
        PaymentStatus.eqb (Registration.payment_status registration)
          PaymentStatus.REFUNDED in
      write (update_registration (Registration.id registration)
               (fun r => Registration.set_payment_status PaymentStatus.REFUNDED
                           (Registration.set_status
                              RegistrationStatus.REFUNDED r))) ;;
      let event := find_event d (Registration.event_id registration) in
      let release :=
        match event with
        | Some _ => negb already_refunded
        | None => false
        end in
      when release then
        (write (free_seat (Registration.event_id registration)) ;;
         write (release_ticket (Registration.ticket_id registration))) ;;
      commit ;;
      when release then
        try_pass (allocate_waitlist_if_possible env
                    (Registration.event_id registration)) ;;
      ret wh_refunded
    end
  else ret wh_refunded.

(** [stripe_webhook] *)
Definition stripe_webhook (env : Env) (request : WebhookRequest)
    : M WebhookReply :=
  if negb (truthy_str (stripe_signature request)) then
    raise (HTTPException 400 "Signature Stripe manquante")
  else
    match verify_webhook_signature request with
    | None => raise (HTTPException 400 "Signature Stripe invalide")
    | Some (checkout_session_completed session) => webhook_completed env session
    | Some (checkout_session_expired session) => webhook_expired session
    | Some (charge_refunded payment_intent) => webhook_refunded env payment_intent
    | Some (other_event event_type) => ret (wh_ignored event_type)
    end.

(** ** [verify_qr_code]: the public scan *)

Definition scan_response (d : Db) (registration : Registration.t)
    (is_valid : bool) (msg : ScanMessage) (with_email : bool)
    (st : ScanStatus) : M QRCodeVerifyResponse :=
  match find_event d (Registration.event_id registration) with
  | None => raise (AttributeError "title")
  | Some event =>
    ret (mkQRCodeVerifyResponse is_valid msg
           (Some (get_participant_name d registration))
           (if with_email then get_participant_email d registration else None)
           (Some (Event.title event)) (Some (Event.start_date event))
           (Some st))
  end.

Definition verify_qr_code (env : Env) (qr_code_data : string)
    : M QRCodeVerifyResponse :=
  d <- query ;;
  match find (fun r => option_eqb String.eqb (Registration.qr_code_data r)
                         (Some qr_code_data))
             (registrations d) with
  | None =>
    ret (mkQRCodeVerifyResponse false msg_invalid_qr_code None None None None None)
  | Some registration =>
    if negb (RegistrationStatus.eqb (Registration.status registration)
               RegistrationStatus.CONFIRMED)
    then
      ret (mkQRCodeVerifyResponse false
             (msg_invalid_status (Registration.status registration))
             None None None None None)
    else if Registration.scanned_count registration =? 0 then
      write (update_registration (Registration.id registration)
               (fun r => Registration.set_last_scan_at (Some (now env))
                           (Registration.set_first_scan_at (Some (now env))
                              (Registration.set_scanned_count 1 r)))) ;;
      commit ;;
      scan_response d registration true msg_first_scan true
        (st_registration (Registration.status registration))
    else if Registration.scanned_count registration =? 1 then
      write (update_registration (Registration.id registration)
               (fun r => Registration.set_last_scan_at (Some (now env))
                           (Registration.set_scanned_count
                              (Registration.scanned_count r + 1) r))) ;;
      commit ;;
      match Registration.first_scan_at registration with
      | None => raise (TypeError "datetime - NoneType")
      | Some first_scan =>
        let minutes_elapsed := Z.quot (now env - first_scan) 60 in
        scan_response d registration false
          (msg_already_scanned minutes_elapsed) true
          (st_scanned_times (Registration.scanned_count registration + 1))
      end
    else
      write (update_registration (Registration.id registration)
               (fun r => Registration.set_last_scan_at (Some (now env))
                           (Registration.set_scanned_count
                              (Registration.scanned_count r + 1) r))) ;;
      commit ;;
      scan_response d registration false
        (msg_fraud_detected (Registration.scanned_count registration + 1))
        false
        (st_fraud_detected (Registration.scanned_count registration + 1))
  end.

(** ** [cancel_registration] *)

Definition cancel_registration (env : Env) (registration_id : Z)
    (current_user : User.t) : M unit :=
  d <- query ;;
  match find_registration d registration_id with
  | None => raise (HTTPException 404 "Inscription non trouvee")
  | Some registration =>
    if negb (option_eqb Z.eqb (Registration.user_id registration)
               (Some (User.id current_user)))
    then raise (HTTPException 403
                  "Vous n'etes pas autorise a annuler cette inscription")
    else if RegistrationStatus.eqb (Registration.status registration)
              RegistrationStatus.CANCELLED
    then raise (HTTPException 400 "Cette inscription est deja annulee")
    else
      match find_event d (Registration.event_id registration) with
      | None => raise (HTTPException 400 "Impossible d'annuler: evenement introuvable")
      | Some event =>
        if Event.start_date event - now env <? 86400 then
          raise (HTTPException 400
                   "Annulation impossible a moins de 24h du debut de l'evenement")
        else
          (if PaymentStatus.eqb (Registration.payment_status registration)
                PaymentStatus.PAID
              && truthy_str (Registration.stripe_payment_intent_id registration)
           then
             if match Registration.stripe_payment_intent_id registration with
                | Some pi => create_refund (gateway env) pi
                | None => false
                end
             then
               write (update_registration registration_id
                        (fun r => Registration.set_payment_status
                                    PaymentStatus.REFUNDED
                                    (Registration.set_status
                                       RegistrationStatus.REFUNDED r)))
             else raise (HTTPException 500 "Erreur lors du remboursement Stripe")
           else
             write (update_registration registration_id
                      (Registration.set_status RegistrationStatus.CANCELLED))) ;;
          write (free_seat (Event.id event)) ;;
          write (release_ticket (Registration.ticket_id registration)) ;;
          commit ;;
          try_pass (allocate_waitlist_if_possible env (Event.id event))
      end
  end.

(** ** [get_my_registrations] *)

(** [ORDER BY created_at DESC]; rows created at the same instant come in
    the order the merge sort leaves them. *)
Module RecentFirst <: TotalLeBool.
Definition t := Registration.t.
Definition leb (x y : t) : bool :=
  Registration.created_at y <=? Registration.created_at x.
Theorem leb_total' : forall x y, leb x y = true \/ leb y x = true.
Proof.
  intros x y; unfold leb.
  destruct (Z.leb_spec (Registration.created_at y) (Registration.created_at x));
    [now left | right; apply Z.leb_le; lia].
Qed.
Definition leb_total := leb_total'.
End RecentFirst.

Module RecentSort := Sort RecentFirst.

(** One entry of the answer: the row with its event and its ticket
    ([reg.event], [reg.ticket]). *)
Record RegistrationResponse := mkRegistrationResponse {
  row : Registration.t;
  row_event : option Event.t;
  row_ticket : option Ticket.t
}.

Definition reg_dict (d : Db) (reg : Registration.t) : RegistrationResponse :=
  mkRegistrationResponse reg
    (find_event d (Registration.event_id reg))
    (match Registration.ticket_id reg with
     | Some tid => find_ticket d tid
     | None => None
     end).

(** [_prio], on the status of an entry. *)
Definition _prio (x : RegistrationResponse) : Z :=
  match Registration.status (row x) with
  | RegistrationStatus.CONFIRMED => 2
  | RegistrationStatus.PENDING => 1
  | RegistrationStatus.OFFERED => 1
  | RegistrationStatus.WAITLIST => 0
  | _ => 0
  end.

(** A Python [dict] with integer keys: the keys in the order of their
    first insertion; an assignment to a key that is present replaces the
    value in place. *)
Fixpoint dict_get {V} (k : Z) (m : list (Z * V)) : option V :=
  match m with
  | [] => None
  | (k', v) :: m' => if k' =? k then Some v else dict_get k m'
  end.

Fixpoint dict_set {V} (k : Z) (v : V) (m : list (Z * V)) : list (Z * V) :=
  match m with
  | [] => [(k, v)]
  | (k', v') :: m' =>
    if k' =? k then (k', v) :: m' else (k', v') :: dict_set k v m'
  end.

(** The body of the loop over the rows.  [event_id] is a column that is
    never [NULL], so the [continue] on [ev_id is None] is not taken. *)
Definition keep_best (d : Db) (by_event_id : list (Z * RegistrationResponse))
    (reg : Registration.t) : list (Z * RegistrationResponse) :=
  let ev_id := Registration.event_id reg in
  match dict_get ev_id by_event_id with
  | None => dict_set ev_id (reg_dict d reg) by_event_id
  | Some existing =>
    if _prio existing <? _prio (reg_dict d reg)
    then dict_set ev_id (reg_dict d reg) by_event_id
    else by_event_id
  end.

Definition is_mine (current_user : User.t) (r : Registration.t) : bool :=
  option_eqb Z.eqb (Registration.user_id r) (Some (User.id current_user))
  && status_in [RegistrationStatus.CONFIRMED; RegistrationStatus.PENDING;
                RegistrationStatus.WAITLIST; RegistrationStatus.OFFERED] r.

Definition get_my_registrations (current_user : User.t) (d : Db)
    : list RegistrationResponse :=
  let registrations :=
    RecentSort.sort (filter (is_mine current_user) (registrations d)) in
  let by_event_id := fold_left (keep_best d) registrations [] in
  map snd by_event_id.

(** ** In-app notifications and their preferences *)

Module Notification.
Record t := mk {
  id : Z;
  user_id : Z;
  notification_type : string;
  reference_id : option Z;
  title : string;
  body : option string;
  data : option string;
  is_read : bool;
  read_at : option time;
  created_at : time
}.
End Notification.

Module NotificationPreferences.
Record t := mk {
  id : Z;
  user_id : Z;
  new_registration : bool;
  event_reminder : bool;
  payout_update : bool;
  new_message : bool;
  weekly_report : bool;
  created_at : time;
  updated_at : time
}.
End NotificationPreferences.

(** The tables [notifications] and [notification_preferences], with their
    identifier sequences.  The two helpers below commit what they add at
    once; their callers call them after their own commit. *)
Record Inbox := mkInbox {
  notifications : list Notification.t;
  notification_seq : Z;
  notification_preferences : list NotificationPreferences.t;
  notification_preferences_seq : Z
}.

(** [_get_or_create_notification_preferences]; [now] is the clock of the
    database ([server_default=func.now()]). *)
Definition _get_or_create_notification_preferences (now : time) (user_id : Z)
    (b : Inbox) : Inbox * NotificationPreferences.t :=
  match find (fun p => NotificationPreferences.user_id p =? user_id)
             (notification_preferences b) with
  | Some prefs => (b, prefs)
  | None =>
    let prefs :=
      NotificationPreferences.mk (notification_preferences_seq b) user_id
        true true true true true now now in
    (mkInbox (notifications b) (notification_seq b)
       (notification_preferences b ++ [prefs])
       (notification_preferences_seq b + 1),
     prefs)
  end.

(** The filter of [_create_inapp_notification_if_missing];
    [reference_id == None] is [IS NULL]. *)
Definition same_reference (user_id : Z) (notification_type : string)
    (reference_id : option Z) (n : Notification.t) : bool :=
  (Notification.user_id n =? user_id)
  && String.eqb (Notification.notification_type n) notification_type
  && option_eqb Z.eqb (Notification.reference_id n) reference_id.

(** [_create_inapp_notification_if_missing] *)
Definition _create_inapp_notification_if_missing (now : time) (user_id : Z)
    (notification_type title body : string) (reference_id : option Z)
    (data : option string) (b : Inbox) : Inbox :=
  match find (same_reference user_id notification_type reference_id)
             (notifications b) with
  | Some _ => b
  | None =>
    mkInbox
      (notifications b
       ++ [Notification.mk (notification_seq b) user_id notification_type
             reference_id title (Some body) data false None now])
      (notification_seq b + 1)
      (notification_preferences b) (notification_preferences_seq b)
  end.

(** ** A small world used by the examples below *)

Module Sample.
Definition alice : User.t := User.mk 7 "alice@example.com" "Alice" "Martin".
Definition bob : User.t := User.mk 8 "bob@example.com" "Bob" "Durand".

(** A paid event with a single seat, still free. *)
Definition concert : Event.t :=
  Event.mk 1 "Concert" EventStatus.PUBLISHED false 1 1 1000000 "EUR" 3 (Some 2).

(** A free event with a single seat, taken. *)
Definition meetup : Event.t :=
  Event.mk 2 "Meetup" EventStatus.PUBLISHED true 1 0 1000000 "EUR" 3 None.

Definition standard : Ticket.t := Ticket.mk 10 1 "Standard" 50 5 0 true.

Definition music : Category.t := Category.mk 2 (Some 8%float).

Definition commission : CommissionSettings.t :=
  CommissionSettings.mk 5 1 true.

Definition db0 : Db :=
  mkDb [alice; bob] [concert; meetup] [standard] [music] [] 1 [commission] [].

(** The gateway: every Checkout session can be created; sessions [cs_1]
    and [cs_2] belong to registrations 1 and 2 and have been paid; every
    refund succeeds. *)
Definition paid_session : CheckoutSession.t :=
  CheckoutSession.mk "cs_1" (Some "https://checkout.example/cs_1") "paid"
    (Some 1) (Some "pi_1").

Definition paid_session_2 : CheckoutSession.t :=
  CheckoutSession.mk "cs_2" (Some "https://checkout.example/cs_2") "paid"
    (Some 2) (Some "pi_2").

Definition gw : Gateway :=
  mkGateway
    (fun registration_id _ _ =>
       if registration_id =? 1 then
         Some (CheckoutSession.mk "cs_1" (Some "https://checkout.example/cs_1")
                 "unpaid" (Some 1) None)
       else
         Some (CheckoutSession.mk "cs_2" (Some "https://checkout.example/cs_2")
                 "unpaid" (Some registration_id) None))
    (fun session_id =>
       if String.eqb session_id "cs_1" then Some paid_session
       else if String.eqb session_id "cs_2" then Some paid_session_2
       else None)
    (fun _ => true).

Definition env_qr (now : time) (token : string) : Env :=
  mkEnv now gw (token, ("uploads/qrcodes/" ++ token ++ ".png")%string) false.

Definition env (now : time) : Env := env_qr now "3f2a".

Definition completed : WebhookRequest :=
  mkWebhookRequest (Some "t=1,v1=ab")
    (Some (checkout_session_completed paid_session)).

Definition expired_session : CheckoutSession.t :=
  CheckoutSession.mk "cs_1" None "unpaid" (Some 1) None.

Definition expired : WebhookRequest :=
  mkWebhookRequest (Some "t=1,v1=ab")
    (Some (checkout_session_expired expired_session)).

Definition BACKEND_URL : string := "http://localhost:8000".

(** Alice holds a ticket for the concert: paid, confirmed, never scanned. *)
Definition ticket_holder : Registration.t :=
  Registration.mk 1 RegistrationType.USER 1 (Some 7) (Some 10) None None None
    None None RegistrationStatus.CONFIRMED PaymentStatus.PAID 50 (Some "EUR")
    (Some "cs_1") (Some "pi_1")
    (Some "http://localhost:8000/uploads/qrcodes/3f2a.png") (Some "3f2a")
    0 None None false None 0.

Definition with_rows (l : list Registration.t) (next : Z) : Db :=
  mkDb [alice; bob] [concert; meetup] [standard] [music] l next [commission] [].

Definition db_confirmed : Db := with_rows [ticket_holder] 2.

(** The same registration after a cancellation: the token stays. *)
Definition cancelled_row : Registration.t :=
  Registration.set_status RegistrationStatus.CANCELLED ticket_holder.

Definition db_cancelled : Db := with_rows [cancelled_row] 2.


(** Alice has asked for a seat at the concert and has not paid yet: the
    state that [register_user_to_paid_event] leaves behind. *)
Definition pending_row : Registration.t :=
  Registration.mk 1 RegistrationType.USER 1 (Some 7) (Some 10) None None None
    None None RegistrationStatus.PENDING PaymentStatus.PENDING 50 (Some "EUR")
    (Some "cs_1") None None None 0 None None false None 0.

Definition db_pending : Db := with_rows [pending_row] 2.

Definition alice_request : UserRegistrationCreate.t :=
  UserRegistrationCreate.mk (Some 10).

(** Three guests and then Alice ask for the free meetup, which is full:
    all four are put on the waitlist.  Alice then withdraws. *)
Definition guest (n : string) : GuestRegistrationCreate.t :=
  GuestRegistrationCreate.mk "Guest" n (n ++ "@example.com")%string None.

Definition free_waitlist_story : Db :=
  let d1 := fst (run (register_guest_to_event (env 100) 2 (guest "one")) db0) in
  let d2 := fst (run (register_guest_to_event (env 200) 2 (guest "two")) d1) in
  let d3 := fst (run (register_guest_to_event (env 300) 2 (guest "three")) d2) in
  let d4 := fst (run (register_user_to_event (env 400) 2
                        (UserRegistrationCreate.mk None) alice) d3) in
  fst (run (cancel_registration (env 500) 4 alice) d4).

(** The same queue on the paid concert. *)
Definition waiting_paid (i : Z) (user : Z) (joined : time) : Registration.t :=
  Registration.mk i RegistrationType.USER 1 (Some user) (Some 10) None None
    None (Some joined) None RegistrationStatus.WAITLIST PaymentStatus.PENDING
    50 (Some "EUR") None None None None 0 None None false None joined.

Definition db_paid_waitlist : Db :=
  with_rows [waiting_paid 1 8 200; waiting_paid 2 7 100; waiting_paid 3 9 300] 4.

(** Alice buys the only seat of the concert (confirmed by the fallback) and
    is refunded; Bob buys the seat.  The concert is full again. *)
Definition late_callback_story : Db :=
  let d1 := fst (run (register_user_to_paid_event (env 0) 1 alice_request
                        alice) db0) in
  let d2 := fst (run (confirm_payment BACKEND_URL (env 60) "cs_1") d1) in
  let d3 := fst (run (cancel_registration (env 120) 1 alice) d2) in
  let d4 := fst (run (register_user_to_paid_event (env 180) 1 alice_request
                        bob) d3) in
  fst (run (confirm_payment BACKEND_URL (env_qr 240 "77c1") "cs_2") d4).

(** The concert is full; Alice was offered the last seat at time 0 and has
    until 3600 to pay; Bob waits behind her. *)
Definition offered_row : Registration.t :=
  Registration.mk 1 RegistrationType.USER 1 (Some 7) (Some 10) None None None
    (Some 100) (Some 3600) RegistrationStatus.OFFERED PaymentStatus.PENDING 50
    (Some "EUR") (Some "cs_9") None None None 0 None None false None 100.

Definition db_expired_offer : Db :=
  mkDb [alice; bob] [Event.set_available_seats 0 concert; meetup] [standard]
       [music] [offered_row; waiting_paid 2 8 200] 3 [commission] [].

(** The meetup with one seat free again. *)
Definition db_free_seat : Db :=
  mkDb [alice; bob] [concert; Event.set_available_seats 1 meetup] [standard]
       [music] [] 1 [commission] [].

(** A guest has asked for a seat at the concert and has not paid yet; the
    same guest asks again. *)
Definition guest_request : GuestRegistrationCreate.t :=
  GuestRegistrationCreate.mk "Guest" "one" "one@example.com" (Some 10).

Definition guest_pending_row : Registration.t :=
  Registration.mk 1 RegistrationType.GUEST 1 None (Some 10) (Some "Guest")
    (Some "one") (Some "one@example.com") None None
    RegistrationStatus.PENDING PaymentStatus.PENDING 50 (Some "EUR")
    (Some "cs_1") None None None 0 None None false None 0.

Definition db_guest_pending : Db := with_rows [guest_pending_row] 2.

(** A gateway that is down: no session can be created or fetched, no
    refund made. *)
Definition gw_down : Gateway :=
  mkGateway (fun _ _ _ => None) (fun _ => None) (fun _ => false).

Definition env_down (now : time) : Env :=
  mkEnv now gw_down ("3f2a", "uploads/qrcodes/3f2a.png") false.

(** The concert is full with Alice's ticket; Bob's registration for it is
    still [PENDING]. *)
Definition bob_pending_row : Registration.t :=
  Registration.mk 2 RegistrationType.USER 1 (Some 8) (Some 10) None None None
    None None RegistrationStatus.PENDING PaymentStatus.PENDING 50 (Some "EUR")
    (Some "cs_2") None None None 0 None None false None 30.

Definition db_full_pending : Db :=
  mkDb [alice; bob] [Event.set_available_seats 0 concert; meetup] [standard]
       [music] [ticket_holder; bob_pending_row] 3 [commission] [].

(** The platform takes no commission: no settings row. *)
Definition db_no_commission : Db :=
  mkDb [alice; bob] [concert; meetup] [standard] [music] [pending_row] 2 [] [].

(** The gateway reports a refund of Alice's payment. *)
Definition refund_notice : WebhookRequest :=
  mkWebhookRequest (Some "t=1,v1=ab") (Some (charge_refunded (Some "pi_1"))).

Definition db_refunded : Db :=
  fst (run (stripe_webhook (env 0) refund_notice) db_confirmed).

(** Alice asked twice for the concert: her first request is still
    [PENDING], the second one, made later, is paid and [CONFIRMED]. *)
Definition ticket_holder_2 : Registration.t :=
  Registration.mk 2 RegistrationType.USER 1 (Some 7) (Some 10) None None None
    None None RegistrationStatus.CONFIRMED PaymentStatus.PAID 50 (Some "EUR")
    (Some "cs_2") (Some "pi_2")
    (Some "http://localhost:8000/uploads/qrcodes/77c1.png") (Some "77c1")
    0 None None false None 30.

Definition db_two_requests : Db := with_rows [pending_row; ticket_holder_2] 3.

(** A reduced ticket at 19.99 (the double nearest to it) and Alice's
    request for one, not paid yet. *)
#[warnings="-inexact-float"]
Definition reduced : Ticket.t := Ticket.mk 11 1 "Reduced" 19.99 5 0 true.

Definition odd_row : Registration.t :=
  Registration.mk 1 RegistrationType.USER 1 (Some 7) (Some 11) None None None
    None None RegistrationStatus.PENDING PaymentStatus.PENDING
    (Ticket.price reduced) (Some "EUR") (Some "cs_1") None None None 0 None
    None false None 0.

Definition db_odd_amount : Db :=
  mkDb [alice; bob] [concert; meetup] [standard; reduced] [music] [odd_row] 2
       [commission] [].


(** The set of touched events walked in the order of insertion. *)
Definition as_inserted : SetOrder :=
  mkSetOrder (nodup Z.eq_dec) (fun l => Permutation_refl _).
End Sample.

(** ** Vocabulary of the statements *)

(** The registration that a scan of [token] finds:
    [filter(Registration.qr_code_data == token).first()]. *)
Definition by_token (token : string) (d : Db) : option Registration.t :=
  find (fun r => option_eqb String.eqb (Registration.qr_code_data r) (Some token))
       (registrations d).

(** [registrations.id] is a primary key: the row [r] is the one found under
    its identifier. *)
Definition is_row (d : Db) (r : Registration.t) : Prop :=
  find_registration d (Registration.id r) = Some r.

(** A ticket that [validate_and_get_ticket] accepts for the event. *)
Definition acceptable_ticket (d : Db) (event_id ticket_id : Z) (k : Ticket.t)
    : Prop :=
  find_ticket d ticket_id = Some k
  /\ Ticket.event_id k = event_id
  /\ Ticket.is_active k = true
  /\ Ticket.quantity_sold k < Ticket.quantity_available k.

(** What the request may say about the ticket on a free event: nothing, or
    a ticket that [validate_and_get_ticket] accepts. *)
Definition acceptable_choice (d : Db) (event_id : Z) (ticket_id : option Z)
    : Prop :=
  match ticket_id with
  | Some tid => exists k, acceptable_ticket d event_id tid k
  | None => True
  end.


(** Identifiers handed out so far are below the next value of the
    sequence. *)
Definition seq_fresh (d : Db) : Prop :=
  forall r, In r (registrations d) -> Registration.id r < registration_seq d.

(** The route answers with a payment link and the database gains one row,
    [PENDING], carrying the Checkout session; the [events] and [tickets]
    tables, hence [available_seats] and [quantity_sold], are as before. *)
Definition pending_without_reservation (route : M RegistrationReply) (d : Db)
    (same_participant : Registration.t -> bool) : Prop :=
  exists (d' : Db) (p : Registration.t) (payment_url session_id : string),
    run route d = (d', Ok (PaymentResponse payment_url session_id))
    /\ registrations d' = registrations d ++ [p]
    /\ Registration.id p = registration_seq d
    /\ Registration.status p = RegistrationStatus.PENDING
    /\ Registration.payment_status p = PaymentStatus.PENDING
    /\ Registration.stripe_session_id p = Some session_id
    /\ same_participant p = true
    /\ events d' = events d
    /\ tickets d' = tickets d.

(** C2 as the specification words it, for one request: when the route has
    answered, the event has one seat less and the ticket one sale more
    than before the request. *)
Definition reserved_at_creation (route : M RegistrationReply) (d : Db)
    (event_id ticket_id : Z) : Prop :=
  forall e k e' k',
    find_event d event_id = Some e ->
    find_ticket d ticket_id = Some k ->
    find_event (fst (run route d)) event_id = Some e' ->
    find_ticket (fst (run route d)) ticket_id = Some k' ->
    Event.available_seats e' = Event.available_seats e - 1
    /\ Ticket.quantity_sold k' = Ticket.quantity_sold k + 1.

(** What [post_commission] appends for a registration whose event is
    [ev]. *)
Definition commission_due (d : Db) (registration : Registration.t)
    (ev : Event.t) : list CommissionTransaction.t :=
  match hd_error (commission_settings d) with
  | Some cs =>
    if CommissionSettings.is_active cs
       && (0 <? Registration.amount_paid registration)%float
       && negb (has_commission d (Registration.id registration))
    then [commission_transaction_for cs registration ev
            (commission_rate_for d cs (Event.category_id ev))]
    else []
  | None => []
  end.

Definition same_except_commissions (d d' : Db) : Prop :=
  users d' = users d /\ events d' = events d /\ tickets d' = tickets d
  /\ categories d' = categories d /\ registrations d' = registrations d
  /\ registration_seq d' = registration_seq d
  /\ commission_settings d' = commission_settings d.

(** The registration as a confirmation leaves it, before the mail. *)
Definition confirmed_row (BACKEND_URL : string) (env : Env)
    (session : CheckoutSession.t) (registration : Registration.t)
    : Registration.t :=
  with_qr_code BACKEND_URL env registration (mark_paid session registration).





(** The number that a finite double stands for. *)
Definition number_of (x : float) : option Q :=
  match Prim2SF x with
  | S754_zero _ => Some 0%Q
  | S754_finite s m e =>
    let v :=
      if 0 <=? e then inject_Z (Z.pos m * 2 ^ e)
      else Qmake (Z.pos m) (Z.to_pos (2 ^ (- e))) in
    Some (if s then Qopp v else v)
  | S754_infinity _ => None
  | S754_nan => None
  end.




(** The range of a 32-bit [INTEGER] column. *)
Definition int4 (z : Z) : Prop := -2147483648 <= z <= 2147483647.

(** The token that the generator returns is held by no row: the [UNIQUE]
    constraint on [qr_code_data] lets the commit through. *)
Definition fresh_token (env : Env) (d : Db) : Prop :=
  forall r, In r (registrations d) ->
            Registration.qr_code_data r <> Some (fst (qr_code env)).

(** The sale that a confirmation adds to the ticket of the registration
    fits the column [quantity_sold]. *)
Definition sale_fits (d : Db) (registration : Registration.t) : Prop :=
  forall k, In k (tickets d) ->
            Registration.ticket_id registration = Some (Ticket.id k) ->
            int4 (Ticket.quantity_sold k + 1).

(** What one iteration of the first loop of the sweep does to the rows. *)
Definition release_db (d : Db) (reg : Registration.t) : Db :=
  match find_event d (Registration.event_id reg) with
  | None => d
  | Some event =>
    free_seat (Event.id event)
      (update_registration (Registration.id reg) back_to_waitlist d)
  end.

Definition event_exists (d : Db) (event_id : Z) : bool :=
  match find_event d event_id with
  | Some _ => true
  | None => false
  end.

(** The loop over [l] has reached the registration [i]. *)
Definition swept (d : Db) (l : list Registration.t) (i : Z) : bool :=
  existsb (fun reg => (Registration.id reg =? i)
                      && event_exists d (Registration.event_id reg)) l.

Definition expired_on (now : time) (d : Db) (event_id : Z) : Z :=
  Z.of_nat (List.length (filter (fun x => Registration.event_id x =? event_id)
                           (filter (is_expired_offer now) (registrations d)))).

(** The sums that the first loop of the sweep writes to [available_seats]
    fit the column: its commit, which no [try] covers, goes through. *)
Definition counters_fit (now : time) (d : Db) : Prop :=
  forall e, In e (events d) ->
            int4 (Event.available_seats e + expired_on now d (Event.id e)).

(** C6 as the specification words it: when the pass is over the
    registration is in [WAITLIST], its deadline and its payment session are
    cleared, and its event has exactly one seat more than before. *)
Definition swept_to_waitlist (d d' : Db) (r : Registration.t) : Prop :=
  exists x event event',
    find_registration d' (Registration.id r) = Some x
    /\ Registration.status x = RegistrationStatus.WAITLIST
    /\ Registration.offer_expires_at x = None
    /\ Registration.stripe_session_id x = None
    /\ find_event d (Registration.event_id r) = Some event
    /\ find_event d' (Registration.event_id r) = Some event'
    /\ Event.available_seats event' = Event.available_seats event + 1.

(** What a sweep pass leaves of an offer that had expired: the registration
    waits again, deadline and payment session cleared, or it holds an offer
    that one of the allocation passes has just made. *)
Definition waiting_or_offered_anew (alloc_env : Z -> Env)
    (x : Registration.t) : Prop :=
  (Registration.status x = RegistrationStatus.WAITLIST
   /\ Registration.offer_expires_at x = None
   /\ Registration.stripe_session_id x = None)
  \/ (Registration.status x = RegistrationStatus.OFFERED
      /\ exists ev,
           Registration.offer_expires_at x = Some (now (alloc_env ev) + 3600)).

(** Every row with identifier [i] satisfies [inv]. *)
Definition rows_under (i : Z) (inv : Registration.t -> Prop) (d : Db) : Prop :=
  forall x, In x (registrations d) -> Registration.id x = i -> inv x.

(** No row with identifier [i] is an offer that has expired at [now']. *)
Definition not_expired_at (now' : time) (i : Z) (d : Db) : Prop :=
  forall x, In x (registrations d) -> Registration.id x = i ->
            is_expired_offer now' x = false.

(** The route refuses the request with the HTTP status [code] and leaves
    the database as it found it. *)
Definition refuses {A} (route : M A) (d : Db) (code : Z) : Prop :=
  exists detail, run route d = (d, Raise (HTTPException code detail)).

(** The registrations, events and tickets are as before the request and
    one identifier of the sequence has been used. *)
Definition only_sequence_advanced (d d' : Db) : Prop :=
  registrations d' = registrations d
  /\ events d' = events d
  /\ tickets d' = tickets d
  /\ commission_transactions d' = commission_transactions d
  /\ registration_seq d' = registration_seq d + 1.

(** The answers of successive scans of one token, one for each moment of
    [envs], each scan in a request of its own. *)
Fixpoint scans (envs : list Env) (token : string) (d : Db)
    : list (result QRCodeVerifyResponse) :=
  match envs with
  | [] => []
  | env :: rest =>
    let (d', r) := run (verify_qr_code env token) d in
    r :: scans rest token d'
  end.

(** The scan lets the holder in. *)
Definition admits (r : result QRCodeVerifyResponse) : bool :=
  match r with
  | Ok response => valid response
  | Raise _ => false
  end.

(** The token is unknown, or belongs to a registration that is not
    [CONFIRMED] or has been scanned already. *)
Definition spent (token : string) (d : Db) : Prop :=
  match by_token token d with
  | None => True
  | Some registration =>
    Registration.status registration <> RegistrationStatus.CONFIRMED
    \/ 1 <= Registration.scanned_count registration
  end.

(** A registration without what the scans record about it. *)
Definition without_scans (r : Registration.t) : Registration.t :=
  Registration.set_last_scan_at None
    (Registration.set_first_scan_at None
       (Registration.set_scanned_count 0 r)).

(** Each registration has at most one commission row. *)
Definition one_commission_each (d : Db) : Prop :=
  NoDup (map CommissionTransaction.registration_id
           (commission_transactions d)).

(** The unique constraint [uq_notification_ref]: no two notifications for
    the same user, type and reference. *)
Definition notification_ref (n : Notification.t) : Z * string * option Z :=
  (Notification.user_id n, Notification.notification_type n,
   Notification.reference_id n).

Definition uq_notification_ref (b : Inbox) : Prop :=
  NoDup (map notification_ref (notifications b)).

(** [notification_preferences.user_id] is unique. *)
Definition one_preferences_row_each (b : Inbox) : Prop :=
  NoDup (map NotificationPreferences.user_id (notification_preferences b)).

(** The registrations that [get_my_registrations] chooses among: those of
    the user that are neither [CANCELLED] nor [REFUNDED]. *)
Definition my_active (current_user : User.t) (d : Db) (r : Registration.t)
    : Prop :=
  In r (registrations d) /\ is_mine current_user r = true.

(** What the loop of [get_my_registrations] keeps true of the dictionary,
    [seen] being the rows it has gone through. *)
Definition best_so_far (d : Db) (seen : Registration.t -> Prop)
    (m : list (Z * RegistrationResponse)) : Prop :=
  NoDup (map fst m)
  /\ (forall k v, In (k, v) m ->
        exists r, seen r /\ v = reg_dict d r /\ Registration.event_id r = k)
  /\ (forall r, seen r ->
        exists v, dict_get (Registration.event_id r) m = Some v
                  /\ _prio (reg_dict d r) <= _prio v
                  /\ (_prio (reg_dict d r) = _prio v ->
                      Registration.created_at r
                      <= Registration.created_at (row v))).

(** What [cancel_registration] writes on the registration: [REFUNDED] when
    the payment was made and is refunded, [CANCELLED] otherwise. *)
Definition cancelled_as (registration : Registration.t)
    : Registration.t -> Registration.t :=
  fun r =>
    if PaymentStatus.eqb (Registration.payment_status registration)
         PaymentStatus.PAID
       && truthy_str (Registration.stripe_payment_intent_id registration)
    then Registration.set_payment_status PaymentStatus.REFUNDED
           (Registration.set_status RegistrationStatus.REFUNDED r)
    else Registration.set_status RegistrationStatus.CANCELLED r.

(** * Properties *)

(** ** Equations of the session monad and of the tables *)

Lemma RegistrationStatus_eqb_eq a b :
  RegistrationStatus.eqb a b = true <-> a = b.
Proof. destruct a, b; simpl; split; congruence. Qed.

Lemma RegistrationStatus_eqb_neq a b :
  RegistrationStatus.eqb a b = false <-> a <> b.
Proof. destruct a, b; simpl; split; congruence. Qed.

Lemma find_update_where {A} (key : A -> Z) (i : Z) (f : A -> A) (l : list A) :
  (forall x, key (f x) = key x) ->
  find (fun x => key x =? i) (update_where (fun x => key x =? i) f l)
  = option_map f (find (fun x => key x =? i) l).
Proof.
  intros Hkey. induction l as [|x l IH]; simpl; [reflexivity|].
  destruct (key x =? i) eqn:E; simpl.
  - rewrite Hkey, E. reflexivity.
  - rewrite E. exact IH.
Qed.

Lemma find_registration_update (d : Db) (i : Z) (f : Registration.t -> Registration.t) :
  (forall r, Registration.id (f r) = Registration.id r) ->
  find_registration (update_registration i f d) i
  = option_map f (find_registration d i).
Proof.
  intros Hid. unfold find_registration, update_registration. simpl.
  now apply find_update_where.
Qed.

Lemma find_event_update (d : Db) (i : Z) (f : Event.t -> Event.t) :
  (forall e, Event.id (f e) = Event.id e) ->
  find_event (update_event i f d) i = option_map f (find_event d i).
Proof.
  intros Hid. unfold find_event, update_event. simpl.
  now apply find_update_where.
Qed.

Lemma find_ticket_update (d : Db) (i : Z) (f : Ticket.t -> Ticket.t) :
  (forall k, Ticket.id (f k) = Ticket.id k) ->
  find_ticket (update_ticket i f d) i = option_map f (find_ticket d i).
Proof.
  intros Hid. unfold find_ticket, update_ticket. simpl.
  now apply find_update_where.
Qed.

(** Unfold one request down to the tables. *)
Ltac session :=
  cbn [run bind ret raise query write commit try_pass working committed
       fst snd].

(** ** The scan of a QR code *)

(** C10.  A scan whose token belongs to a registration that is not
    [CONFIRMED] answers [valid = false] and leaves the whole database,
    hence [scanned_count], [first_scan_at], [last_scan_at] and every other
    stored field of the registration, as it was. *)
Theorem C10_scan_of_unconfirmed_registration
    (env : Env) (token : string) (d : Db) (registration : Registration.t) :
  by_token token d = Some registration ->
  Registration.status registration <> RegistrationStatus.CONFIRMED ->
  run (verify_qr_code env token) d
  = (d, Ok (mkQRCodeVerifyResponse false
              (msg_invalid_status (Registration.status registration))
              None None None None None)).
Proof.
  intros Hfind Hst.
  unfold run, verify_qr_code, bind, query; cbn [working].
  unfold by_token in Hfind. rewrite Hfind.
  apply RegistrationStatus_eqb_neq in Hst. rewrite Hst. reflexivity.
Qed.

Lemma C10_scan_of_unconfirmed_registration_witness :
  by_token "3f2a" Sample.db_cancelled = Some Sample.cancelled_row
  /\ Registration.status Sample.cancelled_row <> RegistrationStatus.CONFIRMED
  /\ run (verify_qr_code (Sample.env 500) "3f2a") Sample.db_cancelled
     = (Sample.db_cancelled,
        Ok (mkQRCodeVerifyResponse false
              (msg_invalid_status RegistrationStatus.CANCELLED)
              None None None None None)).
Proof.
  split; [reflexivity|]. split; [discriminate|].
  apply (C10_scan_of_unconfirmed_registration (Sample.env 500) "3f2a"
           Sample.db_cancelled Sample.cancelled_row);
    [reflexivity | discriminate].
Defined.

(** C8.  The scan of a [CONFIRMED] registration is classified by
    [scanned_count]: at 0 it is valid, [first_scan_at] is set and the count
    becomes 1; at 1 it is refused and the minutes elapsed since
    [first_scan_at] are reported; from 2 on it is refused as fraud and the
    participant's email is withheld.  In every case the count grows by one
    and [last_scan_at] is set to the time of the scan. *)
Theorem C8_scan_classification
    (env : Env) (token : string) (d : Db) (registration : Registration.t)
    (event : Event.t) :
  by_token token d = Some registration ->
  is_row d registration ->
  Registration.status registration = RegistrationStatus.CONFIRMED ->
  find_event d (Registration.event_id registration) = Some event ->
  (Registration.scanned_count registration = 1 ->
   Registration.first_scan_at registration <> None) ->
  exists (response : QRCodeVerifyResponse) (d' : Db) (after : Registration.t),
    run (verify_qr_code env token) d = (d', Ok response)
    /\ find_registration d' (Registration.id registration) = Some after
    /\ Registration.scanned_count after
       = Registration.scanned_count registration + 1
    /\ Registration.last_scan_at after = Some (now env)
    /\ (Registration.scanned_count registration = 0 ->
        valid response = true
        /\ scan_message response = msg_first_scan
        /\ Registration.scanned_count after = 1
        /\ Registration.first_scan_at after = Some (now env))
    /\ (forall first_scan,
        Registration.scanned_count registration = 1 ->
        Registration.first_scan_at registration = Some first_scan ->
        valid response = false
        /\ scan_message response
           = msg_already_scanned (Z.quot (now env - first_scan) 60)
        /\ Registration.first_scan_at after = Some first_scan)
    /\ (2 <= Registration.scanned_count registration ->
        valid response = false
        /\ scan_message response
           = msg_fraud_detected (Registration.scanned_count registration + 1)
        /\ participant_email response = None).
Proof.
  intros Hfind Hrow Hst Hev Hwf.
  unfold run, verify_qr_code, bind, query; cbn [working].
  unfold by_token in Hfind. rewrite Hfind.
  apply RegistrationStatus_eqb_eq in Hst. rewrite Hst. cbn [negb].
  destruct (Registration.scanned_count registration =? 0) eqn:E0;
    [apply Z.eqb_eq in E0 | apply Z.eqb_neq in E0].
  - session. unfold scan_response. rewrite Hev. session.
    eexists _, _, _. split; [reflexivity|].
    rewrite find_registration_update by reflexivity. rewrite Hrow. simpl.
    split; [reflexivity|]. rewrite E0.
    repeat split; try reflexivity; intros; lia.
  - destruct (Registration.scanned_count registration =? 1) eqn:E1;
      [apply Z.eqb_eq in E1 | apply Z.eqb_neq in E1].
    + session.
      destruct (Registration.first_scan_at registration) as [t|] eqn:Ef;
        [|now destruct (Hwf E1)].
      unfold scan_response. rewrite Hev. session.
      eexists _, _, _. split; [reflexivity|].
      rewrite find_registration_update by reflexivity. rewrite Hrow. simpl.
      split; [reflexivity|].
      repeat split; try reflexivity; intros; try lia; simpl; congruence.
    + session. unfold scan_response. rewrite Hev. session.
      eexists _, _, _. split; [reflexivity|].
      rewrite find_registration_update by reflexivity. rewrite Hrow. simpl.
      split; [reflexivity|].
      repeat split; try reflexivity; intros; try lia; congruence.
Qed.

Lemma C8_scan_classification_witness :
  exists (response : QRCodeVerifyResponse) (d' : Db) (after : Registration.t),
    run (verify_qr_code (Sample.env 500) "3f2a") Sample.db_confirmed
    = (d', Ok response)
    /\ find_registration d' 1 = Some after
    /\ valid response = true
    /\ Registration.scanned_count after = 1
    /\ Registration.first_scan_at after = Some 500
    /\ Registration.last_scan_at after = Some 500.
Proof.
  destruct (C8_scan_classification (Sample.env 500) "3f2a" Sample.db_confirmed
              Sample.ticket_holder Sample.concert)
    as (response & d' & after & Hrun & Hrow & _ & Hlast & Hfirst & _);
    [reflexivity | reflexivity | reflexivity | reflexivity
    | intros H; discriminate H |].
  destruct (Hfirst eq_refl) as (Hv & _ & Hc & Hf).
  exists response, d', after. repeat split; assumption.
Defined.

(** Three scans of a fresh ticket, five and then seven minutes apart:
    admitted, refused with the delay, refused as fraud without the email. *)
Example three_scans :
  let scan t d := run (verify_qr_code (Sample.env t) "3f2a") d in
  let r1 := scan 1000 Sample.db_confirmed in
  let r2 := scan 1300 (fst r1) in
  let r3 := scan 1720 (fst r2) in
  match snd r1, snd r2, snd r3 with
  | Ok a, Ok b, Ok c =>
    valid a = true /\ scan_message a = msg_first_scan
    /\ valid b = false /\ scan_message b = msg_already_scanned 5
    /\ valid c = false /\ scan_message c = msg_fraud_detected 3
    /\ participant_email b = Some "alice@example.com"
    /\ participant_email c = None
  | _, _, _ => False
  end.
Proof. vm_compute. repeat split. Qed.

(** ** Registration on a full event *)

Lemma validate_and_get_ticket_ok (s : Session) (event_id ticket_id : Z) (k : Ticket.t) :
  acceptable_ticket (working s) event_id ticket_id k ->
  validate_and_get_ticket event_id (Some ticket_id) s = (s, Ok k).
Proof.
  intros (Hf & He & Ha & Hq).
  unfold validate_and_get_ticket, bind, query. rewrite Hf.
  rewrite He, Z.eqb_refl, Ha. cbn [negb]. unfold Ticket.is_sold_out.
  destruct (Z.leb_spec (Ticket.quantity_available k) (Ticket.quantity_sold k));
    [lia | reflexivity].
Qed.

Lemma optional_ticket_ok (s : Session) (event_id : Z) (ticket_id : option Z) :
  acceptable_choice (working s) event_id ticket_id ->
  exists ticket, optional_ticket event_id ticket_id s = (s, Ok ticket).
Proof.
  destruct ticket_id as [tid|]; simpl.
  - intros [k Hk]. exists (Some k). unfold bind.
    now rewrite (validate_and_get_ticket_ok s event_id tid k Hk).
  - intros _. now exists None.
Qed.




(** ** Tables and writes *)

Lemma update_where_none {A} (p : A -> bool) (f : A -> A) (l : list A) :
  (forall x, In x l -> p x = false) -> update_where p f l = l.
Proof.
  induction l as [|x l IH]; simpl; intros H; [reflexivity|].
  rewrite (H x (or_introl eq_refl)). f_equal. apply IH. auto.
Qed.

Lemma filter_none {A} (p : A -> bool) (l : list A) :
  (forall x, In x l -> p x = false) -> filter p l = [].
Proof.
  induction l as [|x l IH]; simpl; intros H; [reflexivity|].
  rewrite (H x (or_introl eq_refl)). apply IH. auto.
Qed.

Lemma update_where_app {A} (p : A -> bool) (f : A -> A) (l1 l2 : list A) :
  update_where p f (l1 ++ l2) = update_where p f l1 ++ update_where p f l2.
Proof. apply map_app. Qed.

Lemma create_pending_registration_run (env : Env) (event : Event.t)
    (ticket : Ticket.t) (row : Registration.t) (d : Db)
    (session : CheckoutSession.t) (u : string) :
  seq_fresh d ->
  create_checkout_session (gateway env) (registration_seq d)
    (Ticket.price ticket) (Event.currency event) = Some session ->
  CheckoutSession.url session = Some u ->
  exists d',
    create_pending_registration env event ticket row (mkSession d d)
    = (mkSession d' d', Ok (PaymentResponse u (CheckoutSession.id session)))
    /\ registrations d'
       = registrations d
         ++ [Registration.set_stripe_session_id
               (Some (CheckoutSession.id session))
               (Registration.set_id (registration_seq d) row)]
    /\ events d' = events d
    /\ tickets d' = tickets d.
Proof.
  intros Hfresh Hgw Hurl.
  unfold create_pending_registration, add_registration. session.
  rewrite Hgw. session. rewrite Hurl.
  eexists. split; [reflexivity|]. simpl.
  split; [|split; reflexivity].
  rewrite update_where_app. f_equal.
  - apply update_where_none. intros r Hr.
    apply Z.eqb_neq. specialize (Hfresh r Hr). lia.
  - simpl. now rewrite Z.eqb_refl.
Qed.


(** Tables that a write leaves alone. *)
Lemma registrations_update_event i f d :
  registrations (update_event i f d) = registrations d.
Proof. reflexivity. Qed.
Lemma registrations_update_ticket i f d :
  registrations (update_ticket i f d) = registrations d.
Proof. reflexivity. Qed.
Lemma events_update_registration i f d :
  events (update_registration i f d) = events d.
Proof. reflexivity. Qed.
Lemma events_update_ticket i f d :
  events (update_ticket i f d) = events d.
Proof. reflexivity. Qed.
Lemma tickets_update_registration i f d :
  tickets (update_registration i f d) = tickets d.
Proof. reflexivity. Qed.
Lemma tickets_update_event i f d :
  tickets (update_event i f d) = tickets d.
Proof. reflexivity. Qed.

Lemma sell_ticket_frame tid d :
  users (sell_ticket tid d) = users d
  /\ events (sell_ticket tid d) = events d
  /\ categories (sell_ticket tid d) = categories d
  /\ registrations (sell_ticket tid d) = registrations d
  /\ registration_seq (sell_ticket tid d) = registration_seq d
  /\ commission_settings (sell_ticket tid d) = commission_settings d
  /\ commission_transactions (sell_ticket tid d) = commission_transactions d.
Proof.
  unfold sell_ticket. destruct (truthy_id tid); [destruct tid|]; repeat split.
Qed.

Lemma post_commission_run guarded rid ev s registration :
  find_registration (working s) rid = Some registration ->
  exists w',
    post_commission guarded rid (Some ev) s = (mkSession (committed s) w', Ok tt)
    /\ same_except_commissions (working s) w'
    /\ commission_transactions w'
       = commission_transactions (working s)
         ++ commission_due (working s) registration ev.
Proof.
  intros Hr. unfold post_commission, commission_due, bind, query.
  rewrite Hr.
  destruct s as [c w]; cbn [working committed] in *.
  destruct (hd_error (commission_settings w)) as [cs|].
  - destruct (CommissionSettings.is_active cs
              && (0 <? Registration.amount_paid registration)%float); cbn [andb].
    + destruct (has_commission w (Registration.id registration)); cbn [negb].
      * exists w. unfold ret, same_except_commissions.
        rewrite app_nil_r. repeat split.
      * eexists. unfold write. cbn [working committed].
        split; [reflexivity|]. unfold same_except_commissions. repeat split.
    + exists w. unfold ret, same_except_commissions.
      rewrite app_nil_r. repeat split.
  - exists w. unfold ret, same_except_commissions.
    rewrite app_nil_r. repeat split.
Qed.

Lemma commission_due_ext d1 d2 registration ev :
  commission_settings d2 = commission_settings d1 ->
  commission_transactions d2 = commission_transactions d1 ->
  categories d2 = categories d1 ->
  commission_due d2 registration ev = commission_due d1 registration ev.
Proof.
  intros H1 H2 H3.
  unfold commission_due, has_commission, commission_rate_for, find_category.
  now rewrite H1, H2, H3.
Qed.

Lemma mark_paid_id session r :
  Registration.id (mark_paid session r) = Registration.id r.
Proof. unfold mark_paid. now destruct (truthy_str _). Qed.

Lemma with_qr_code_id B env registration r :
  Registration.id (with_qr_code B env registration r) = Registration.id r.
Proof. unfold with_qr_code. now destruct (negb _). Qed.

Lemma confirmed_row_facts B env session registration :
  let r := confirmed_row B env session registration in
  Registration.id r = Registration.id registration
  /\ Registration.status r = RegistrationStatus.CONFIRMED
  /\ Registration.payment_status r = PaymentStatus.PAID
  /\ Registration.amount_paid r = Registration.amount_paid registration
  /\ Registration.event_id r = Registration.event_id registration.
Proof.
  unfold confirmed_row, with_qr_code, mark_paid.
  destruct (negb _), (truthy_str (CheckoutSession.payment_intent session));
    repeat split.
Qed.

Lemma confirm_payment_confirms (B : string) (env : Env) (sid : string) (d : Db)
    (session : CheckoutSession.t) (registration : Registration.t)
    (event : Event.t) :
  retrieve (gateway env) sid = Some session ->
  CheckoutSession.payment_status session = "paid" ->
  CheckoutSession.client_reference_id session = Some (Registration.id registration) ->
  is_row d registration ->
  Registration.status registration <> RegistrationStatus.CONFIRMED ->
  find_event d (Registration.event_id registration) = Some event ->
  exists (d' : Db) (response : ConfirmPaymentResponse) (r' : Registration.t),
    run (confirm_payment B env sid) d = (d', Ok response)
    /\ success response = true
    /\ events d' = events (take_seat true (Registration.event_id registration) d)
    /\ tickets d' = tickets (sell_ticket (Registration.ticket_id registration) d)
    /\ commission_transactions d'
       = commission_transactions d
         ++ commission_due d (confirmed_row B env session registration) event
    /\ find_registration d' (Registration.id registration) = Some r'
    /\ Registration.status r' = RegistrationStatus.CONFIRMED
    /\ Registration.payment_status r' = PaymentStatus.PAID.
Proof.
  intros Hget Hpaid Href Hrow Hst Hev.
  apply RegistrationStatus_eqb_neq in Hst.
  unfold run, confirm_payment. rewrite Hget, Hpaid, Href.
  rewrite String.eqb_refl. cbn [negb].
  unfold bind at 1. unfold query at 1. cbn [working].
  red in Hrow. rewrite Hrow, Hst, Hev.
  set (rid := Registration.id registration).
  do 4 (unfold bind at 1; unfold write at 1; cbn [working committed]).
  set (d4 := sell_ticket _ _).
  assert (Hr4 : find_registration d4 rid
                = Some (confirmed_row B env session registration)).
  { unfold d4.
    destruct (sell_ticket_frame (Registration.ticket_id registration)
                (take_seat true (Registration.event_id registration)
                   (update_registration rid (with_qr_code B env registration)
                      (update_registration rid (mark_paid session) d))))
      as (_ & _ & _ & Hregs & _).
    unfold find_registration at 1. rewrite Hregs.
    change (find_registration
              (update_registration rid (with_qr_code B env registration)
                 (update_registration rid (mark_paid session) d)) rid
            = Some (confirmed_row B env session registration)).
    rewrite !find_registration_update
      by (intros; first [apply with_qr_code_id | apply mark_paid_id]).
    unfold rid. now rewrite Hrow. }
  destruct (post_commission_run true rid event (mkSession d d4) _ Hr4)
    as (w' & Hpost & Hsame & Hcomm).
  unfold bind at 1. rewrite Hpost. cbn [working committed] in *.
  destruct Hsame as (Hu & He & Ht & Hc & Hrg & Hsq & Hcs).
  assert (Hd4 : events d4 = events (take_seat true (Registration.event_id registration) d)
                /\ tickets d4 = tickets (sell_ticket (Registration.ticket_id registration) d)
                /\ commission_settings d4 = commission_settings d
                /\ commission_transactions d4 = commission_transactions d
                /\ categories d4 = categories d).
  { unfold d4, sell_ticket.
    destruct (truthy_id _); [destruct (Registration.ticket_id registration)|];
      repeat split. }
  destruct Hd4 as (He4 & Ht4 & Hcs4 & Hct4 & Hcat4).
  rewrite (commission_due_ext d d4 _ _ Hcs4 Hct4 Hcat4), Hct4 in Hcomm.
  assert (Hr' : find_registration w' rid
                = Some (confirmed_row B env session registration)).
  { unfold find_registration. rewrite Hrg. exact Hr4. }
  destruct (confirmed_row_facts B env session registration)
    as (Hid & Hs & Hp & _).
  unfold bind at 1. unfold commit at 1. cbn [working committed].
  unfold bind at 1. unfold send_confirmation.
  destruct (email_ok env); session.
  - eexists _, _, _. split; [reflexivity|]. cbn [success].
    split; [reflexivity|]. rewrite events_update_registration,
      tickets_update_registration.
    split; [congruence|]. split; [congruence|]. split; [exact Hcomm|].
    rewrite find_registration_update by reflexivity. rewrite Hr'.
    split; [reflexivity|]. split; [exact Hs | exact Hp].
  - eexists _, _, _. split; [reflexivity|]. cbn [success].
    split; [reflexivity|]. split; [congruence|]. split; [congruence|].
    split; [exact Hcomm|]. split; [exact Hr'|]. split; [exact Hs | exact Hp].
Qed.
(** ** Registration on a paid event with seats left *)

(** The seat is taken when the payment is confirmed: [confirm_payment]
    on a registration that is not yet [CONFIRMED] writes
    [max(0, available_seats - 1)] and sells the ticket. *)
Lemma seat_taken_at_confirmation (B : string) (env : Env) (sid : string)
    (d : Db) (session : CheckoutSession.t) (registration : Registration.t)
    (event : Event.t) :
  retrieve (gateway env) sid = Some session ->
  CheckoutSession.payment_status session = "paid" ->
  CheckoutSession.client_reference_id session = Some (Registration.id registration) ->
  is_row d registration ->
  Registration.status registration <> RegistrationStatus.CONFIRMED ->
  find_event d (Registration.event_id registration) = Some event ->
  find_event (fst (run (confirm_payment B env sid) d))
    (Registration.event_id registration)
  = Some (Event.set_available_seats
            (Z.max 0 (Event.available_seats event - 1)) event)
  /\ tickets (fst (run (confirm_payment B env sid) d))
     = tickets (sell_ticket (Registration.ticket_id registration) d).
Proof.
  intros Hget Hpaid Href Hrow Hst Hev.
  destruct (confirm_payment_confirms B env sid d session registration event
              Hget Hpaid Href Hrow Hst Hev)
    as (d' & response & r' & Hrun & _ & Hevents & Htickets & _).
  rewrite Hrun. cbn [fst]. split; [|exact Htickets].
  unfold find_event at 1. rewrite Hevents.
  change (find_event (take_seat true (Registration.event_id registration) d)
            (Registration.event_id registration) = Some
            (Event.set_available_seats
               (Z.max 0 (Event.available_seats event - 1)) event)).
  unfold take_seat. rewrite find_event_update by reflexivity.
  now rewrite Hev.
Qed.

(** C2, amended.  A registration request on a paid event with
    [available_seats > 0] that passes the ticket check and the duplicate
    guard, and for which the gateway opens a session, creates the
    registration in [PENDING] and leaves [available_seats] and
    [quantity_sold] as they were: nothing is reserved before the payment
    session is requested.  The counters move at payment confirmation
    ([seat_taken_at_confirmation]). *)
Theorem C2_pending_registration_reserves_nothing (env : Env) (d : Db) (event_id ticket_id : Z)
    (event : Event.t) (ticket : Ticket.t) (session : CheckoutSession.t)
    (payment_url : string)
    (guest_data : GuestRegistrationCreate.t)
    (registration_data : UserRegistrationCreate.t) (current_user : User.t) :
  seq_fresh d ->
  find_published_event d event_id = Some event ->
  Event.is_free event = false ->
  0 < Event.available_seats event ->
  acceptable_ticket d event_id ticket_id ticket ->
  create_checkout_session (gateway env) (registration_seq d)
    (Ticket.price ticket) (Event.currency event) = Some session ->
  CheckoutSession.url session = Some payment_url ->
  (GuestRegistrationCreate.ticket_id guest_data = Some ticket_id ->
   (forall r, In r (registrations d) ->
      guest_match event_id (GuestRegistrationCreate.email guest_data) r = true ->
      status_in [RegistrationStatus.CONFIRMED; RegistrationStatus.PENDING] r
      = false) ->
   pending_without_reservation
     (register_guest_to_paid_event env event_id guest_data) d
     (guest_match event_id (GuestRegistrationCreate.email guest_data)))
  /\ (UserRegistrationCreate.ticket_id registration_data = Some ticket_id ->
      (forall r, In r (registrations d) ->
         user_match event_id (User.id current_user) r = true ->
         status_in [RegistrationStatus.CONFIRMED] r = false) ->
      pending_without_reservation
        (register_user_to_paid_event env event_id registration_data
           current_user) d
        (user_match event_id (User.id current_user))).
Proof.
  intros Hfresh Hev Hpaid Hseats Hk Hgw Hurl.
  assert (Hopen : (Event.available_seats event <=? 0) = false)
    by (apply Z.leb_gt; lia).
  split.
  - intros Htid Hnone.
    unfold pending_without_reservation, run, register_guest_to_paid_event.
    unfold bind at 1. unfold query at 1. cbn [working].
    rewrite Hev, Hpaid, Htid. unfold bind at 1.
    rewrite (validate_and_get_ticket_ok (mkSession d d) event_id ticket_id ticket Hk).
    rewrite Hopen.
    replace (filter _ (registrations d)) with (@nil Registration.t).
    + cbn [latest_created].
      destruct (create_pending_registration_run env event ticket
                  (new_registration RegistrationType.GUEST event_id None
                     (Some (Ticket.id ticket)) (Some guest_data)
                     RegistrationStatus.PENDING PaymentStatus.PENDING
                     (Ticket.price ticket) (Event.currency event) None (now env))
                  d session payment_url Hfresh Hgw Hurl)
        as (d' & Hrun & Hrows & Hevents & Htickets).
      rewrite Hrun. cbn [committed].
      eexists d', _, _, _. split; [reflexivity|]. split; [exact Hrows|].
      repeat split; try reflexivity; try assumption.
      unfold guest_match; simpl. now rewrite Z.eqb_refl, String.eqb_refl.
    + symmetry. apply filter_none. intros r Hr.
      destruct (guest_match event_id (GuestRegistrationCreate.email guest_data) r) eqn:E;
        [|reflexivity].
      now rewrite (Hnone r Hr E).
  - intros Htid Hnone.
    unfold pending_without_reservation, run, register_user_to_paid_event.
    unfold bind at 1. unfold query at 1. cbn [working].
    rewrite Hev, Hpaid, Htid. unfold bind at 1.
    rewrite (validate_and_get_ticket_ok (mkSession d d) event_id ticket_id ticket Hk).
    rewrite Hopen.
    replace (existsb _ (registrations d)) with false.
    + destruct (create_pending_registration_run env event ticket
                  (new_registration RegistrationType.USER event_id
                     (Some (User.id current_user)) (Some (Ticket.id ticket)) None
                     RegistrationStatus.PENDING PaymentStatus.PENDING
                     (Ticket.price ticket) (Event.currency event) None (now env))
                  d session payment_url Hfresh Hgw Hurl)
        as (d' & Hrun & Hrows & Hevents & Htickets).
      rewrite Hrun. cbn [committed].
      eexists d', _, _, _. split; [reflexivity|]. split; [exact Hrows|].
      repeat split; try reflexivity; try assumption.
      unfold user_match; simpl. now rewrite !Z.eqb_refl.
    + symmetry. apply not_true_is_false. intros H.
      apply existsb_exists in H. destruct H as (r & Hr & H).
      apply andb_true_iff in H. destruct H as [Hm Hs].
      rewrite (Hnone r Hr Hm) in Hs. discriminate.
Qed.

Lemma C2_pending_registration_reserves_nothing_witness :
  pending_without_reservation
    (register_user_to_paid_event (Sample.env 0) 1 Sample.alice_request
       Sample.alice)
    Sample.db0 (user_match 1 7).
Proof.
  refine (proj2 (C2_pending_registration_reserves_nothing (Sample.env 0)
                   Sample.db0 1 10 Sample.concert Sample.standard
                   (CheckoutSession.mk "cs_1"
                      (Some "https://checkout.example/cs_1") "unpaid"
                      (Some 1) None)
                   "https://checkout.example/cs_1"
                   (GuestRegistrationCreate.mk "Alice" "Martin"
                      "alice@example.com" (Some 10))
                   Sample.alice_request Sample.alice
                   _ _ _ _ _ _ _) _ _).
  - intros r [].
  - reflexivity.
  - reflexivity.
  - simpl; lia.
  - unfold acceptable_ticket; simpl. repeat split; lia.
  - reflexivity.
  - reflexivity.
  - reflexivity.
  - intros r [].
Defined.

(** C2 as worded fails on the sample: Alice's request is answered with a
    payment link, her registration is [PENDING], and the concert still has
    its seat and the ticket no sale. *)
Lemma C2_counterexample :
  snd (run (register_user_to_paid_event (Sample.env 0) 1
              Sample.alice_request Sample.alice) Sample.db0)
  = Ok (PaymentResponse "https://checkout.example/cs_1" "cs_1")
  /\ fst (run (register_user_to_paid_event (Sample.env 0) 1
                 Sample.alice_request Sample.alice) Sample.db0)
     = Sample.db_pending
  /\ ~ reserved_at_creation
         (register_user_to_paid_event (Sample.env 0) 1 Sample.alice_request
            Sample.alice)
         Sample.db0 1 10.
Proof.
  split; [reflexivity|]. split; [reflexivity|].
  intros H.
  destruct (H Sample.concert Sample.standard Sample.concert Sample.standard
              eq_refl eq_refl eq_refl eq_refl) as [Hseats _].
  simpl in Hseats. lia.
Qed.

Lemma seat_taken_at_confirmation_example :
  find_event
    (fst (run (confirm_payment Sample.BACKEND_URL (Sample.env 60) "cs_1")
              Sample.db_pending)) 1
  = Some (Event.set_available_seats 0 Sample.concert).
Proof.
  apply (seat_taken_at_confirmation Sample.BACKEND_URL (Sample.env 60) "cs_1"
           Sample.db_pending Sample.paid_session Sample.pending_row
           Sample.concert); try reflexivity.
  discriminate.
Qed.

(** ** Expiry of the payment session *)




(** ** Commission *)









(** The same payment, value by value: neither equality holds between the
    numbers stored, although both hold between the doubles once every
    operation is rounded. *)
Example rounding_of_the_reduced_ticket :
  match commission_transactions
          (fst (run (confirm_payment Sample.BACKEND_URL (Sample.env 60) "cs_1")
                    Sample.db_odd_amount)) with
  | [tx] =>
    match number_of (CommissionTransaction.ticket_amount tx),
          number_of (CommissionTransaction.commission_rate tx),
          number_of (CommissionTransaction.commission_amount tx),
          number_of (CommissionTransaction.net_amount tx) with
    | Some amount, Some rate, Some commission, Some net =>
      Qeq_bool commission (amount * rate / 100) = false
      /\ Qeq_bool net (amount - commission) = false
      /\ CommissionTransaction.commission_amount tx
         = (CommissionTransaction.ticket_amount tx
            * CommissionTransaction.commission_rate tx / 100)%float
      /\ CommissionTransaction.net_amount tx
         = (CommissionTransaction.ticket_amount tx
            - CommissionTransaction.commission_amount tx)%float
    | _, _, _, _ => False
    end
  | _ => False
  end.
Proof. vm_compute. repeat split. Qed.

(** On the sample: 50 EUR at the 8 % of the category is 4 EUR, above the
    minimum of 1 EUR; 46 EUR go to the organizer.  These amounts are
    doubles and the three operations are exact on them. *)
Example commission_of_the_concert :
  match commission_transactions
          (fst (run (confirm_payment Sample.BACKEND_URL (Sample.env 60) "cs_1")
                    Sample.db_pending)) with
  | [tx] =>
    CommissionTransaction.commission_rate tx = 8%float
    /\ CommissionTransaction.commission_amount tx = 4%float
    /\ CommissionTransaction.net_amount tx = 46%float
  | _ => False
  end.
Proof. vm_compute. repeat split. Qed.

(** ** Idempotence of the confirmation *)

(** The guard of [confirm_payment]: a registration that is already
    [CONFIRMED] is reported as a success and nothing is written. *)
Lemma confirm_payment_already_confirmed (B : string) (env : Env) (sid : string)
    (d : Db) (session : CheckoutSession.t) (registration : Registration.t) :
  retrieve (gateway env) sid = Some session ->
  CheckoutSession.payment_status session = "paid" ->
  CheckoutSession.client_reference_id session
  = Some (Registration.id registration) ->
  is_row d registration ->
  Registration.status registration = RegistrationStatus.CONFIRMED ->
  run (confirm_payment B env sid) d
  = (d, Ok (mkConfirmPaymentResponse true "Inscription deja confirmee"
              (Some (Registration.id registration))
              (Registration.qr_code_url registration)
              (Some (Registration.email_sent registration)))).
Proof.
  intros Hget Hpaid Href Hrow Hst.
  unfold run, confirm_payment. rewrite Hget, Hpaid, Href.
  rewrite String.eqb_refl. cbn [negb].
  unfold bind, query. cbn [working]. red in Hrow. rewrite Hrow.
  apply RegistrationStatus_eqb_eq in Hst. now rewrite Hst.
Qed.

(** The guard of [stripe_webhook]: the same registration is answered
    [already_processed] and nothing is written. *)
Lemma stripe_webhook_already_processed (env : Env) (request : WebhookRequest)
    (d : Db) (session : CheckoutSession.t) (registration : Registration.t) :
  truthy_str (stripe_signature request) = true ->
  verify_webhook_signature request = Some (checkout_session_completed session) ->
  CheckoutSession.client_reference_id session
  = Some (Registration.id registration) ->
  is_row d registration ->
  Registration.status registration = RegistrationStatus.CONFIRMED ->
  run (stripe_webhook env request) d = (d, Ok wh_already_processed).
Proof.
  intros Hsig Hverify Href Hrow Hst.
  unfold run, stripe_webhook. rewrite Hsig, Hverify. cbn [negb].
  unfold webhook_completed. rewrite Href.
  unfold bind, query. cbn [working]. red in Hrow. rewrite Hrow.
  apply RegistrationStatus_eqb_eq in Hst. now rewrite Hst.
Qed.

(** Two identical calls of the fallback: the first confirms, the second
    finds the registration [CONFIRMED] and changes nothing, so the
    commission rows are those left by the first call. *)
Lemma confirm_payment_twice (B : string) (env : Env) (sid : string) (d : Db)
    (session : CheckoutSession.t) (registration : Registration.t)
    (event : Event.t) :
  retrieve (gateway env) sid = Some session ->
  CheckoutSession.payment_status session = "paid" ->
  CheckoutSession.client_reference_id session
  = Some (Registration.id registration) ->
  is_row d registration ->
  Registration.status registration <> RegistrationStatus.CONFIRMED ->
  find_event d (Registration.event_id registration) = Some event ->
  let d1 := fst (run (confirm_payment B env sid) d) in
  fst (run (confirm_payment B env sid) d1) = d1
  /\ commission_transactions d1
     = commission_transactions d
       ++ commission_due d (confirmed_row B env session registration) event.
Proof.
  intros Hget Hpaid Href Hrow Hst Hev.
  destruct (confirm_payment_confirms B env sid d session registration event
              Hget Hpaid Href Hrow Hst Hev)
    as (d' & response & r' & Hrun & _ & _ & _ & Hcomm & Hr' & Hs & _).
  rewrite Hrun. cbn [fst]. split; [|exact Hcomm].
  assert (Hid : Registration.id r' = Registration.id registration).
  { unfold find_registration in Hr'. apply find_some in Hr'.
    now apply Z.eqb_eq. }
  rewrite (confirm_payment_already_confirmed B env sid d' session r'
             Hget Hpaid); [reflexivity | congruence | | exact Hs].
  red. now rewrite Hid.
Qed.

(** Without a QR token the webhook never gets past line 193: [NameError],
    and the database is the one it found. *)
Lemma stripe_webhook_without_qr_code (env : Env) (request : WebhookRequest)
    (d : Db) (session : CheckoutSession.t) (registration : Registration.t) :
  truthy_str (stripe_signature request) = true ->
  verify_webhook_signature request = Some (checkout_session_completed session) ->
  CheckoutSession.client_reference_id session
  = Some (Registration.id registration) ->
  is_row d registration ->
  Registration.status registration <> RegistrationStatus.CONFIRMED ->
  truthy_str (Registration.qr_code_data registration) = false ->
  run (stripe_webhook env request) d = (d, Raise (NameError "settings")).
Proof.
  intros Hsig Hverify Href Hrow Hst Hqr.
  apply RegistrationStatus_eqb_neq in Hst.
  unfold run, stripe_webhook. rewrite Hsig, Hverify. cbn [negb].
  unfold webhook_completed. rewrite Href.
  unfold bind at 1. unfold query at 1. cbn [working].
  red in Hrow. rewrite Hrow, Hst, Hqr. reflexivity.
Qed.

(** C3, at the failing input.  Alice's registration is [PENDING] and has no
    QR token, as every registration created by the paid routes.  The
    gateway sends [checkout.session.completed] for it twice: both calls
    raise [NameError], the registration is still [PENDING] and no
    commission row exists. *)
Theorem C3_duplicate_callback_on_pending_registration :
  let first :=
    run (stripe_webhook (Sample.env 60) Sample.completed) Sample.db_pending in
  let second :=
    run (stripe_webhook (Sample.env 61) Sample.completed) (fst first) in
  first = (Sample.db_pending, Raise (NameError "settings"))
  /\ second = (Sample.db_pending, Raise (NameError "settings"))
  /\ option_map Registration.status (find_registration (fst second) 1)
     = Some RegistrationStatus.PENDING
  /\ commission_transactions (fst second) = [].
Proof. vm_compute. repeat split. Qed.

(** ** The seat counter *)

(** C1, at the failing input.  The concert has one seat, free.  Alice asks
    for it on the paid route (her registration is [PENDING], the counter
    is not touched), then cancels: [cancel_registration] adds a seat, and
    the event shows two seats available for a capacity of one.

    Second run: Alice buys the seat and is refunded, Bob buys it, the
    concert is full.  The gateway then delivers [checkout.session.completed]
    for Alice's session once more: her registration is not [CONFIRMED], so
    the webhook confirms it again and subtracts a seat, without the
    [max(0, ...)] of [confirm_payment]: the counter is -1. *)
Theorem C1_available_seats_leaves_its_bounds :
  let seats d :=
    map (fun e => (Event.id e, Event.capacity e, Event.available_seats e))
        (events d) in
  let d1 :=
    fst (run (register_user_to_paid_event (Sample.env 0) 1
                Sample.alice_request Sample.alice) Sample.db0) in
  let d2 := fst (run (cancel_registration (Sample.env 10) 1 Sample.alice) d1) in
  let d3 :=
    fst (run (stripe_webhook (Sample.env 300) Sample.completed)
             Sample.late_callback_story) in
  seats Sample.db0 = [(1, 1, 1); (2, 1, 0)]
  /\ seats d2 = [(1, 1, 2); (2, 1, 0)]
  /\ seats Sample.late_callback_story = [(1, 1, 0); (2, 1, 0)]
  /\ map (fun r => (Registration.id r, Registration.status r))
         (registrations Sample.late_callback_story)
     = [(1, RegistrationStatus.REFUNDED); (2, RegistrationStatus.CONFIRMED)]
  /\ seats d3 = [(1, 1, -1); (2, 1, 0)].
Proof. vm_compute. repeat split. Qed.

(** ** The waitlist allocator *)

(** [first_joined] returns a row of the list before which no row of the
    list comes. *)
Lemma joined_before_irrefl (x : Registration.t) : joined_before x x = false.
Proof.
  unfold joined_before.
  destruct (Registration.waitlist_joined_at x);
    [apply Z.ltb_irrefl | reflexivity].
Qed.

Lemma joined_before_trans_neg (r m x : Registration.t) :
  joined_before r m = false -> joined_before m x = false ->
  joined_before r x = false.
Proof.
  unfold joined_before.
  destruct (Registration.waitlist_joined_at r),
           (Registration.waitlist_joined_at m),
           (Registration.waitlist_joined_at x);
    try discriminate; try reflexivity.
  rewrite !Z.ltb_ge. lia.
Qed.

Lemma joined_before_asym (m x : Registration.t) :
  joined_before m x = true -> joined_before x m = false.
Proof.
  unfold joined_before.
  destruct (Registration.waitlist_joined_at m),
           (Registration.waitlist_joined_at x);
    try discriminate; try reflexivity.
  rewrite Z.ltb_lt, Z.ltb_ge. lia.
Qed.

Lemma first_joined_oldest (l : list Registration.t) (m : Registration.t) :
  first_joined l = Some m ->
  In m l /\ forall r, In r l -> joined_before r m = false.
Proof.
  revert m. induction l as [|x l IH]; simpl; intros m H; [discriminate|].
  destruct (first_joined l) as [m'|] eqn:E.
  - destruct (IH m' eq_refl) as [Hin Hmin].
    destruct (joined_before m' x) eqn:Hb; injection H as Hm; subst m.
    + split; [now right|]. intros r [Hr|Hr]; [subst r|now apply Hmin].
      now apply joined_before_asym.
    + split; [now left|]. intros r [Hr|Hr]; [subst r|].
      * apply joined_before_irrefl.
      * apply joined_before_trans_neg with m'; [now apply Hmin | exact Hb].
  - injection H as Hm; subst m. split; [now left|].
    destruct l as [|y l].
    + intros r [Hr|[]]. subst r. apply joined_before_irrefl.
    + simpl in E. destruct (first_joined l); [destruct (joined_before _ _)|];
        discriminate.
Qed.

(** No seat, or nobody waiting: the allocator returns and writes nothing. *)
Lemma allocate_waitlist_noop (env : Env) (event_id : Z) (d : Db) :
  (forall event, find_event d event_id = Some event ->
     Event.available_seats event <= 0
     \/ filter (on_waitlist event_id) (registrations d) = []) ->
  run (allocate_waitlist_if_possible env event_id) d = (d, Ok tt).
Proof.
  intros H. unfold run, allocate_waitlist_if_possible, bind, query.
  cbn [working].
  destruct (find_event d event_id) as [event|]; [|reflexivity].
  destruct (Z.leb_spec (Event.available_seats event) 0); [reflexivity|].
  destruct (H event eq_refl) as [Hs|Hw]; [lia|]. now rewrite Hw.
Qed.

(** On a paid event with a seat, the allocator offers it to the row that
    [first_joined] picks among the [WAITLIST] rows of the event: that row
    becomes [OFFERED] for one hour, every row with another identifier is
    left as it is, and the event has one seat less. *)
Lemma allocate_waitlist_offers_oldest (env : Env) (event_id : Z) (d : Db)
    (event : Event.t) (candidate : Registration.t) :
  find_event d event_id = Some event ->
  0 < Event.available_seats event ->
  Event.is_free event = false ->
  first_joined (filter (on_waitlist event_id) (registrations d)) = Some candidate ->
  is_row d candidate ->
  exists (d' : Db) (offered : Registration.t),
    run (allocate_waitlist_if_possible env event_id) d = (d', Ok tt)
    /\ find_registration d' (Registration.id candidate) = Some offered
    /\ Registration.status offered = RegistrationStatus.OFFERED
    /\ Registration.offer_expires_at offered = Some (now env + 3600)
    /\ Registration.waitlist_joined_at offered
       = Registration.waitlist_joined_at candidate
    /\ (forall r, In r (registrations d) ->
          Registration.id r <> Registration.id candidate ->
          In r (registrations d'))
    /\ find_event d' event_id
       = Some (Event.set_available_seats (Event.available_seats event - 1) event).
Proof.
  intros Hev Hseats Hpaid Hcand Hrow.
  unfold run, allocate_waitlist_if_possible.
  unfold bind at 1. unfold query at 1. cbn [working].
  rewrite Hev. destruct (Z.leb_spec (Event.available_seats event) 0); [lia|].
  rewrite Hcand, Hpaid.
  session. unfold try_pass. unfold bind at 1. unfold query at 1.
  cbn [working].
  set (cid := Registration.id candidate).
  set (f := fun r => Registration.set_offer_expires_at (Some (now env + 3600))
                       (Registration.set_status RegistrationStatus.OFFERED r)).
  set (d1 := take_seat true event_id (update_registration cid f d)).
  assert (Hkeep : forall r, In r (registrations d) ->
            Registration.id r <> cid -> In r (registrations d1)).
  { intros r Hr Hne. unfold d1, take_seat. rewrite registrations_update_event.
    unfold update_registration, with_registrations, update_where; simpl.
    apply in_map_iff. exists r. split; [|exact Hr].
    apply Z.eqb_neq in Hne. now rewrite Hne. }
  assert (Hf : find_registration d1 cid = Some (f candidate)).
  { unfold d1, take_seat. unfold find_registration at 1.
    rewrite registrations_update_event.
    change (find_registration (update_registration cid f d) cid = Some (f candidate)).
    rewrite find_registration_update by reflexivity. unfold cid. now rewrite Hrow. }
  assert (He : find_event d1 event_id
               = Some (Event.set_available_seats (Event.available_seats event - 1) event)).
  { unfold d1, take_seat. rewrite find_event_update by reflexivity.
    replace (find_event (update_registration cid f d) event_id)
      with (find_event d event_id) by reflexivity.
    rewrite Hev. cbn [option_map]. do 2 f_equal. lia. }
  match goal with
  | |- context [create_checkout_session ?g ?a ?b ?c] =>
    destruct (create_checkout_session g a b c) as [session|]
  end.
  - session. eexists _, _. split; [reflexivity|].
    rewrite find_registration_update by reflexivity. rewrite Hf.
    split; [reflexivity|]. split; [reflexivity|]. split; [reflexivity|].
    split; [reflexivity|]. split.
    + intros r Hr Hne. unfold update_registration, with_registrations, update_where; simpl.
      apply in_map_iff. exists r. split; [|now apply Hkeep].
      apply Z.eqb_neq in Hne. fold cid. now rewrite Hne.
    + unfold find_event at 1. rewrite events_update_registration. exact He.
  - session. eexists _, _. split; [reflexivity|].
    rewrite Hf. repeat split; try reflexivity; assumption.
Qed.

(** On a free event with a seat and somebody waiting, the allocator raises
    before the candidate changes state, and nothing is committed. *)
Lemma allocate_waitlist_on_free_event (env : Env) (event_id : Z) (d : Db)
    (event : Event.t) (candidate : Registration.t) :
  find_event d event_id = Some event ->
  0 < Event.available_seats event ->
  Event.is_free event = true ->
  first_joined (filter (on_waitlist event_id) (registrations d)) = Some candidate ->
  run (allocate_waitlist_if_possible env event_id) d
  = (d, Raise (UnboundLocalError "settings")).
Proof.
  intros Hev Hseats Hfree Hcand.
  unfold run, allocate_waitlist_if_possible.
  unfold bind at 1. unfold query at 1. cbn [working].
  rewrite Hev. destruct (Z.leb_spec (Event.available_seats event) 0); [lia|].
  now rewrite Hcand, Hfree.
Qed.

(** C5, at the failing input.  The free meetup is full and three guests
    have joined its waitlist at 100 < 200 < 300, then Alice at 400.  Alice
    withdraws: [cancel_registration] gives a seat back and calls the
    allocator, which raises [UnboundLocalError] (the route swallows it).
    The three guests are still on the waitlist and the seat is still free;
    calling the allocator again raises again.  On the paid concert the same
    queue is served as claimed: the one who joined first is [OFFERED]. *)
Theorem C5_allocation_on_a_free_event_promotes_nobody :
  let d := Sample.free_waitlist_story in
  let again := run (allocate_waitlist_if_possible (Sample.env 600) 2) d in
  let paid := run (allocate_waitlist_if_possible (Sample.env 400) 1)
                  Sample.db_paid_waitlist in
  map (fun r => (Registration.waitlist_joined_at r, Registration.status r))
      (registrations d)
  = [(Some 100, RegistrationStatus.WAITLIST);
     (Some 200, RegistrationStatus.WAITLIST);
     (Some 300, RegistrationStatus.WAITLIST);
     (Some 400, RegistrationStatus.CANCELLED)]
  /\ option_map Event.available_seats (find_event d 2) = Some 1
  /\ again = (d, Raise (UnboundLocalError "settings"))
  /\ snd paid = Ok tt
  /\ map (fun r => (Registration.waitlist_joined_at r, Registration.status r))
         (registrations (fst paid))
     = [(Some 200, RegistrationStatus.WAITLIST);
        (Some 100, RegistrationStatus.OFFERED);
        (Some 300, RegistrationStatus.WAITLIST)].
Proof. vm_compute. repeat split. Qed.

(** ** The sweep of expired offers *)

Lemma find_map_key {A} (key : A -> Z) (j : Z) (g : A -> A) (l : list A) :
  (forall x, key (g x) = key x) ->
  find (fun x => key x =? j) (map g l)
  = option_map g (find (fun x => key x =? j) l).
Proof.
  intros Hkey. induction l as [|x l IH]; simpl; [reflexivity|].
  rewrite Hkey. destruct (key x =? j); [reflexivity | exact IH].
Qed.

Lemma find_event_update_any (d : Db) (i j : Z) (f : Event.t -> Event.t) :
  (forall e, Event.id (f e) = Event.id e) ->
  find_event (update_event i f d) j
  = option_map (fun e => if Event.id e =? i then f e else e) (find_event d j).
Proof.
  intros Hid. unfold find_event, update_event, update_where. simpl.
  apply find_map_key. intros e. now destruct (Event.id e =? i).
Qed.

Lemma release_expired_offer_run (reg : Registration.t) (s : Session) :
  release_expired_offer reg s
  = (mkSession (committed s) (release_db (working s) reg), Ok tt).
Proof.
  unfold release_expired_offer, release_db, bind, query. cbn [working].
  destruct (find_event (working s) (Registration.event_id reg));
    [reflexivity | now destruct s].
Qed.

Lemma for_each_release_run (l : list Registration.t) (s : Session) :
  for_each release_expired_offer l s
  = (mkSession (committed s) (fold_left release_db l (working s)), Ok tt).
Proof.
  revert s. induction l as [|reg l IH]; intros s; simpl.
  - now destruct s.
  - unfold bind. rewrite release_expired_offer_run, IH. reflexivity.
Qed.

Lemma find_event_release (d : Db) (reg : Registration.t) (j : Z) :
  find_event (release_db d reg) j
  = option_map
      (fun e => if (Event.id e =? Registration.event_id reg)
                then Event.set_available_seats (Event.available_seats e + 1) e
                else e)
      (find_event d j).
Proof.
  unfold release_db.
  destruct (find_event d (Registration.event_id reg)) as [event|] eqn:E.
  - assert (Hid : Event.id event = Registration.event_id reg).
    { unfold find_event in E. apply find_some in E. now apply Z.eqb_eq. }
    rewrite Hid. unfold free_seat.
    now rewrite find_event_update_any by reflexivity.
  - destruct (find_event d j) as [e|] eqn:Ej; [|reflexivity]. simpl.
    destruct (Z.eqb_spec (Event.id e) (Registration.event_id reg)) as [Heq|];
      [|reflexivity].
    pose proof Ej as Hj. unfold find_event in Hj. apply find_some in Hj.
    destruct Hj as [_ Hj]. apply Z.eqb_eq in Hj.
    rewrite <- Heq, Hj in E. congruence.
Qed.

Lemma event_exists_release (d : Db) (reg : Registration.t) (j : Z) :
  event_exists (release_db d reg) j = event_exists d j.
Proof.
  unfold event_exists. rewrite find_event_release.
  now destruct (find_event d j).
Qed.

Lemma registrations_release (d : Db) (reg : Registration.t) :
  registrations (release_db d reg)
  = map (fun x => if (Registration.id x =? Registration.id reg)
                     && event_exists d (Registration.event_id reg)
                  then back_to_waitlist x else x)
        (registrations d).
Proof.
  unfold release_db, event_exists.
  destruct (find_event d (Registration.event_id reg)).
  - simpl. unfold update_where. apply map_ext. intros x.
    now rewrite andb_true_r.
  - rewrite <- (map_id (registrations d)) at 1. apply map_ext. intros x.
    now rewrite andb_false_r.
Qed.

Lemma swept_release (d : Db) (reg : Registration.t) (l : list Registration.t) (i : Z) :
  swept (release_db d reg) l i = swept d l i.
Proof.
  unfold swept. induction l as [|x l IH]; simpl; [reflexivity|].
  now rewrite event_exists_release, IH.
Qed.

(** The rows after the loop: those that the loop has reached are back on
    the waitlist, the others are as they were. *)
Lemma registrations_fold_release (l : list Registration.t) (d : Db) :
  registrations (fold_left release_db l d)
  = map (fun x => if swept d l (Registration.id x)
                  then back_to_waitlist x else x)
        (registrations d).
Proof.
  revert d. induction l as [|reg l IH]; intros d; simpl.
  - symmetry. apply map_id.
  - rewrite IH, registrations_release, map_map. apply map_ext. intros x.
    rewrite swept_release.
    rewrite (Z.eqb_sym (Registration.id reg) (Registration.id x)).
    destruct ((Registration.id x =? Registration.id reg)
              && event_exists d (Registration.event_id reg)) eqn:E; simpl.
    + now destruct (swept d l (Registration.id x)).
    + reflexivity.
Qed.

(** The seats after the loop: one more for each offer of the event that
    the loop went through. *)
Lemma find_event_fold_release (l : list Registration.t) (d : Db) (j : Z)
    (e : Event.t) :
  find_event d j = Some e ->
  find_event (fold_left release_db l d) j
  = Some (Event.set_available_seats
            (Event.available_seats e
             + Z.of_nat (List.length (filter (fun x => Registration.event_id x =? j) l)))
            e).
Proof.
  revert d e. induction l as [|reg l IH]; intros d e He; simpl.
  - rewrite He. destruct e; simpl. now rewrite Z.add_0_r.
  - assert (Hid : Event.id e = j).
    { unfold find_event in He. apply find_some in He. now apply Z.eqb_eq. }
    pose proof (find_event_release d reg j) as Hstep. rewrite He in Hstep.
    cbn [option_map] in Hstep. rewrite Hid in Hstep.
    rewrite (IH _ _ Hstep). rewrite (Z.eqb_sym j).
    destruct (Registration.event_id reg =? j); cbn [List.length].
    + rewrite Nat2Z.inj_succ. unfold Event.set_available_seats.
      cbn [Event.id Event.title Event.status Event.is_free Event.capacity
           Event.available_seats Event.start_date Event.currency
           Event.organizer_id Event.category_id].
      do 2 f_equal. lia.
    + reflexivity.
Qed.

Lemma filter_length_permutation {A} (p : A -> bool) (l l' : list A) :
  Permutation l l' -> List.length (filter p l) = List.length (filter p l').
Proof.
  induction 1; simpl; try congruence.
  - destruct (p x); simpl; congruence.
  - destruct (p x), (p y); reflexivity.
Qed.

Lemma walk_nil (order : SetOrder) : walk order [] = [].
Proof.
  apply Permutation_nil. exact (walk_permutation order []).
Qed.

Lemma expire_offers_run (env : Env) (order : SetOrder) (d : Db) :
  exists touched,
    expire_offers env order (mkSession d d)
    = (let d1 := fold_left release_db (expired_offers (now env) d) d in
       (mkSession d1 d1, Ok touched))
    /\ NoDup touched
    /\ forall i, In i touched ->
         exists x, In x (expired_offers (now env) d)
                   /\ Registration.event_id x = i
                   /\ event_exists d i = true.
Proof.
  unfold expire_offers. unfold bind at 1. unfold query at 1. cbn [working].
  unfold bind at 1. rewrite for_each_release_run. cbn [working committed].
  set (ids := filter _ (map Registration.event_id (expired_offers (now env) d))).
  exists (walk order ids). split.
  - subst ids. destruct (expired_offers (now env) d) eqn:E; reflexivity.
  - split.
    + eapply Permutation_NoDup; [apply walk_permutation|]. apply NoDup_nodup.
    + intros i Hi.
      eapply Permutation_in in Hi;
        [|apply Permutation_sym, walk_permutation].
      apply nodup_In in Hi. subst ids. apply filter_In in Hi.
      destruct Hi as [Hi He].
      apply in_map_iff in Hi. destruct Hi as (x & Hx & Hin).
      exists x. split; [exact Hin|]. split; [exact Hx|].
      unfold event_exists. destruct (find_event d i); [reflexivity|discriminate].
Qed.

Tactic Notation "session" "in" hyp(H) :=
  cbn [run bind ret raise query write commit try_pass working committed
       fst snd] in H.

Lemma not_expired_at_ext (now' : time) (i : Z) (d d' : Db) :
  registrations d' = registrations d ->
  not_expired_at now' i d -> not_expired_at now' i d'.
Proof. unfold not_expired_at. intros ->. auto. Qed.

Lemma not_expired_at_update (now' : time) (i c : Z)
    (f : Registration.t -> Registration.t) (d : Db) :
  (forall x, is_expired_offer now' x = false ->
             is_expired_offer now' (f x) = false) ->
  (forall x, Registration.id (f x) = Registration.id x) ->
  not_expired_at now' i d ->
  not_expired_at now' i (update_registration c f d).
Proof.
  intros Hf Hid H x Hx Hi.
  unfold update_registration, with_registrations, update_where in Hx.
  simpl in Hx. apply in_map_iff in Hx. destruct Hx as (y & Hy & Hin).
  destruct (Registration.id y =? c); subst x.
  - apply Hf. apply (H y Hin). now rewrite <- Hid.
  - now apply H.
Qed.

(** An allocation pass at a time less than an hour before [now'] creates
    no offer that has expired at [now']. *)
Lemma allocate_keeps_not_expired (now' : time) (i : Z) (env : Env)
    (event_id : Z) (s : Session) :
  now' <= now env + 3600 ->
  not_expired_at now' i (committed s) ->
  not_expired_at now' i (working s) ->
  not_expired_at now' i
    (committed (fst (allocate_waitlist_if_possible env event_id s)))
  /\ not_expired_at now' i
       (working (fst (allocate_waitlist_if_possible env event_id s))).
Proof.
  intros Hnow Hc Hw. destruct s as [c w]. cbn [committed working] in *.
  destruct (allocate_waitlist_if_possible env event_id (mkSession c w))
    as [s' r] eqn:E.
  cbn [fst]. unfold allocate_waitlist_if_possible in E.
  unfold bind at 1 in E. unfold query at 1 in E. cbn [working] in E.
  destruct (find_event w event_id) as [event|];
    [|injection E as <- <-; now split].
  destruct (Event.available_seats event <=? 0);
    [injection E as <- <-; now split|].
  destruct (first_joined _) as [candidate|];
    [|injection E as <- <-; now split].
  set (offer := fun r => Registration.set_offer_expires_at
                           (Some (now env + 3600))
                           (Registration.set_status
                              RegistrationStatus.OFFERED r)) in *.
  assert (Hoffer : not_expired_at now' i
            (take_seat true event_id
               (update_registration (Registration.id candidate) offer w))).
  { apply not_expired_at_ext
      with (d := update_registration (Registration.id candidate) offer w);
      [reflexivity|].
    apply not_expired_at_update; [|reflexivity|exact Hw].
    intros x _. unfold is_expired_offer, offer. simpl.
    apply Z.ltb_ge. lia. }
  destruct (Event.is_free event).
  - session in E. injection E as <- <-. cbn [committed working].
    split; [exact Hc|].
    apply not_expired_at_update; [|reflexivity|exact Hw].
    intros x Hx. exact Hx.
  - session in E. unfold try_pass in E. unfold bind at 1 in E.
    unfold query at 1 in E. cbn [working] in E.
    match type of E with
    | context [create_checkout_session ?g ?a ?b ?c] =>
      destruct (create_checkout_session g a b c) as [session|]
    end; session in E; injection E as <- <-; cbn [committed working].
    + assert (H : not_expired_at now' i
                (update_registration (Registration.id candidate)
                   (Registration.set_stripe_session_id
                      (Some (CheckoutSession.id session)))
                   (take_seat true event_id
                      (update_registration (Registration.id candidate)
                         offer w)))).
      { apply not_expired_at_update; [|reflexivity|exact Hoffer].
        intros x Hx. exact Hx. }
      now split.
    + now split.
Qed.

Lemma reallocate_keeps_not_expired (now' : time) (i : Z) (alloc_env : Z -> Env)
    (touched : list Z) (s : Session) :
  (forall ev, now' <= now (alloc_env ev) + 3600) ->
  not_expired_at now' i (committed s) ->
  not_expired_at now' i (working s) ->
  not_expired_at now' i (committed (fst (reallocate alloc_env touched s))).
Proof.
  intros Hnow. revert s. unfold reallocate.
  induction touched as [|ev l IH]; intros s Hc Hw; simpl; [exact Hc|].
  unfold bind at 1. unfold try_pass at 1.
  destruct (allocate_keeps_not_expired now' i (alloc_env ev) ev s (Hnow ev) Hc Hw)
    as [Hc' Hw'].
  destruct (allocate_waitlist_if_possible (alloc_env ev) ev s) as [s' r].
  cbn [fst] in *. now apply IH.
Qed.

Lemma in_expired_offers (now : time) (d : Db) (x : Registration.t) :
  In x (expired_offers now d)
  <-> In x (registrations d) /\ is_expired_offer now x = true.
Proof.
  unfold expired_offers. rewrite <- filter_In. split; intros H.
  - eapply Permutation_in; [|exact H].
    apply Permutation_sym, ExpirySort.Permuted_sort.
  - eapply Permutation_in; [|exact H]. apply ExpirySort.Permuted_sort.
Qed.

Lemma back_to_waitlist_not_expired (now' : time) (x : Registration.t) :
  is_expired_offer now' (back_to_waitlist x) = false.
Proof. reflexivity. Qed.

(** What one allocation pass does to the session: nothing; or, on a free
    event, a QR token written to the candidate and left uncommitted; or,
    on a paid event with a seat, the offer and the seat committed, with or
    without the identifier of a payment session. *)
Lemma allocate_cases (env : Env) (event_id : Z) (s : Session) :
  let s' := fst (allocate_waitlist_if_possible env event_id s) in
  let offer := fun r => Registration.set_offer_expires_at
                          (Some (now env + 3600))
                          (Registration.set_status
                             RegistrationStatus.OFFERED r) in
  s' = s
  \/ (exists c q,
        s' = mkSession (committed s)
               (update_registration c (Registration.set_qr_code_data q)
                  (working s)))
  \/ (exists c event,
        find_event (working s) event_id = Some event
        /\ 0 < Event.available_seats event
        /\ let w1 := take_seat true event_id
                       (update_registration c offer (working s)) in
           s' = mkSession w1 w1
           \/ exists sid,
                s' = mkSession
                       (update_registration c
                          (Registration.set_stripe_session_id sid) w1)
                       (update_registration c
                          (Registration.set_stripe_session_id sid) w1)).
Proof.
  cbv zeta. destruct s as [c w]. cbn [committed working].
  destruct (allocate_waitlist_if_possible env event_id (mkSession c w))
    as [s' r] eqn:E.
  cbn [fst]. unfold allocate_waitlist_if_possible in E.
  unfold bind at 1 in E. unfold query at 1 in E. cbn [working] in E.
  destruct (find_event w event_id) as [event|] eqn:Hev;
    [|injection E as <- <-; now left].
  destruct (Z.leb_spec (Event.available_seats event) 0) as [Hs|Hs];
    [injection E as <- <-; now left|].
  destruct (first_joined _) as [candidate|];
    [|injection E as <- <-; now left].
  destruct (Event.is_free event).
  - session in E. injection E as <- <-. right. left.
    eexists _, _. reflexivity.
  - session in E. unfold try_pass in E. unfold bind at 1 in E.
    unfold query at 1 in E. cbn [working] in E.
    right. right. exists (Registration.id candidate), event.
    split; [reflexivity|]. split; [exact Hs|].
    match type of E with
    | context [create_checkout_session ?g ?a ?b ?c] =>
      destruct (create_checkout_session g a b c) as [session|]
    end; session in E; injection E as <- <-.
    + right. eexists. reflexivity.
    + now left.
Qed.

Lemma rows_under_update (i c : Z) (inv : Registration.t -> Prop)
    (f : Registration.t -> Registration.t) (d : Db) :
  (forall x, inv x -> inv (f x)) ->
  (forall x, Registration.id (f x) = Registration.id x) ->
  rows_under i inv d -> rows_under i inv (update_registration c f d).
Proof.
  intros Hf Hid H x Hx Hi.
  unfold update_registration, with_registrations, update_where in Hx.
  simpl in Hx. apply in_map_iff in Hx. destruct Hx as (y & Hy & Hin).
  destruct (Registration.id y =? c); subst x.
  - apply Hf. apply (H y Hin). now rewrite <- Hid.
  - now apply H.
Qed.

(** An allocation pass leaves every row under [i] waiting or with an offer
    of its own making. *)
Lemma allocate_keeps_rows (alloc_env : Z -> Env) (i ev : Z) (s : Session) :
  rows_under i (waiting_or_offered_anew alloc_env) (committed s) ->
  rows_under i (waiting_or_offered_anew alloc_env) (working s) ->
  rows_under i (waiting_or_offered_anew alloc_env)
    (committed (fst (allocate_waitlist_if_possible (alloc_env ev) ev s)))
  /\ rows_under i (waiting_or_offered_anew alloc_env)
       (working (fst (allocate_waitlist_if_possible (alloc_env ev) ev s))).
Proof.
  intros Hc Hw.
  assert (Hoffer : forall c,
            rows_under i (waiting_or_offered_anew alloc_env)
              (update_registration c
                 (fun r => Registration.set_offer_expires_at
                             (Some (now (alloc_env ev) + 3600))
                             (Registration.set_status
                                RegistrationStatus.OFFERED r))
                 (working s))).
  { intros c. apply rows_under_update; [|reflexivity|exact Hw].
    intros x _. right. split; [reflexivity|]. now exists ev. }
  destruct (allocate_cases (alloc_env ev) ev s)
    as [->|[(c & q & ->)|(c & event & _ & _ & [->|(sid & ->)])]];
    cbn [committed working].
  - now split.
  - split; [exact Hc|].
    apply rows_under_update; [|reflexivity|exact Hw]. intros x H. exact H.
  - split; exact (Hoffer c).
  - assert (H : rows_under i (waiting_or_offered_anew alloc_env)
                  (update_registration c
                     (Registration.set_stripe_session_id sid)
                     (take_seat true ev
                        (update_registration c
                           (fun r => Registration.set_offer_expires_at
                                       (Some (now (alloc_env ev) + 3600))
                                       (Registration.set_status
                                          RegistrationStatus.OFFERED r))
                           (working s))))).
    { intros x Hx Hi.
      unfold update_registration, with_registrations, update_where,
        take_seat, update_event, with_events in Hx.
      simpl in Hx. rewrite map_map in Hx. apply in_map_iff in Hx.
      destruct Hx as (y & Hy & Hin).
      destruct (Registration.id y =? c) eqn:Ec.
      - cbn in Hy. rewrite Ec in Hy. subst x.
        right. split; [reflexivity|]. now exists ev.
      - rewrite Ec in Hy. subst x. exact (Hw y Hin Hi). }
    now split.
Qed.

Lemma reallocate_keeps_rows (alloc_env : Z -> Env) (i : Z) (touched : list Z)
    (s : Session) :
  rows_under i (waiting_or_offered_anew alloc_env) (committed s) ->
  rows_under i (waiting_or_offered_anew alloc_env) (working s) ->
  rows_under i (waiting_or_offered_anew alloc_env)
    (committed (fst (reallocate alloc_env touched s))).
Proof.
  revert s. unfold reallocate.
  induction touched as [|ev l IH]; intros s Hc Hw; simpl; [exact Hc|].
  unfold bind at 1. unfold try_pass at 1.
  destruct (allocate_keeps_rows alloc_env i ev s Hc Hw) as [Hc' Hw'].
  destruct (allocate_waitlist_if_possible (alloc_env ev) ev s) as [s' r].
  cbn [fst] in *. now apply IH.
Qed.

Lemma find_registration_update_any (d : Db) (c j : Z)
    (f : Registration.t -> Registration.t) :
  (forall r, Registration.id (f r) = Registration.id r) ->
  find_registration (update_registration c f d) j
  = option_map (fun r => if Registration.id r =? c then f r else r)
      (find_registration d j).
Proof.
  intros Hid. unfold find_registration, update_registration, update_where.
  simpl. apply find_map_key. intros r. now destruct (Registration.id r =? c).
Qed.

Lemma found_update (d : Db) (c j : Z) (f : Registration.t -> Registration.t) :
  (forall r, Registration.id (f r) = Registration.id r) ->
  find_registration d j <> None ->
  find_registration (update_registration c f d) j <> None.
Proof.
  intros Hid H. rewrite (find_registration_update_any d c j f Hid).
  now destruct (find_registration d j).
Qed.

(** An allocation pass neither adds nor removes a registration. *)
Lemma allocate_keeps_found (env : Env) (i ev : Z) (s : Session) :
  find_registration (committed s) i <> None ->
  find_registration (working s) i <> None ->
  find_registration
    (committed (fst (allocate_waitlist_if_possible env ev s))) i <> None
  /\ find_registration
       (working (fst (allocate_waitlist_if_possible env ev s))) i <> None.
Proof.
  intros Hc Hw.
  assert (Hoffer : forall c f,
            (forall r, Registration.id (f r) = Registration.id r) ->
            find_registration
              (take_seat true ev (update_registration c f (working s))) i
            <> None).
  { intros c f Hid. exact (found_update (working s) c i f Hid Hw). }
  destruct (allocate_cases env ev s)
    as [->|[(c & q & ->)|(c & event & _ & _ & [->|(sid & ->)])]];
    cbn [committed working].
  - now split.
  - split; [exact Hc|]. now apply found_update.
  - split; now apply Hoffer.
  - split; (apply found_update; [reflexivity|now apply Hoffer]).
Qed.

Lemma reallocate_keeps_found (alloc_env : Z -> Env) (i : Z) (touched : list Z)
    (s : Session) :
  find_registration (committed s) i <> None ->
  find_registration (working s) i <> None ->
  find_registration (committed (fst (reallocate alloc_env touched s))) i
  <> None.
Proof.
  revert s. unfold reallocate.
  induction touched as [|ev l IH]; intros s Hc Hw; simpl; [exact Hc|].
  unfold bind at 1. unfold try_pass at 1.
  destruct (allocate_keeps_found (alloc_env ev) i ev s Hc Hw) as [Hc' Hw'].
  destruct (allocate_waitlist_if_possible (alloc_env ev) ev s) as [s' r].
  cbn [fst] in *. now apply IH.
Qed.

(** An allocation pass for [ev] leaves the seats of the other events
    alone and takes at most one seat of [ev]; no change of a seat counter
    is left uncommitted. *)
Lemma allocate_seats (env : Env) (ev j : Z) (s : Session) (e : Event.t) :
  events (committed s) = events (working s) ->
  find_event (working s) j = Some e ->
  let s' := fst (allocate_waitlist_if_possible env ev s) in
  events (committed s') = events (working s')
  /\ (ev <> j -> find_event (working s') j = Some e)
  /\ (find_event (working s') j = Some e
      \/ find_event (working s') j
         = Some (Event.set_available_seats (Event.available_seats e - 1) e)).
Proof.
  intros Hsync He. cbv zeta.
  assert (Hid : Event.id e = j).
  { unfold find_event in He. apply find_some in He.
    now apply Z.eqb_eq. }
  assert (Htake : forall c f event,
            find_event (working s) ev = Some event ->
            0 < Event.available_seats event ->
            let w1 := take_seat true ev (update_registration c f (working s)) in
            (ev <> j -> find_event w1 j = Some e)
            /\ (find_event w1 j = Some e
                \/ find_event w1 j
                   = Some (Event.set_available_seats
                             (Event.available_seats e - 1) e))).
  { intros c f event Hev Hpos. cbv zeta. unfold take_seat.
    rewrite find_event_update_any by reflexivity.
    change (find_event (update_registration c f (working s)) j)
      with (find_event (working s) j).
    rewrite He. cbn [option_map]. rewrite Hid.
    destruct (Z.eqb_spec j ev) as [->|Hne].
    - rewrite Hev in He. injection He as ->.
      split; [intros H; now elim H|]. right.
      now rewrite Z.max_r by lia.
    - split; [reflexivity|now left]. }
  destruct (allocate_cases env ev s)
    as [->|[(c & q & ->)|(c & event & Hev & Hpos & [->|(sid & ->)])]];
    cbn [committed working].
  - split; [exact Hsync|]. split; [intros _; exact He|now left].
  - split; [exact Hsync|]. split; [intros _; exact He|now left].
  - split; [reflexivity|]. exact (Htake c _ event Hev Hpos).
  - split; [reflexivity|]. exact (Htake c _ event Hev Hpos).
Qed.

Lemma reallocate_cons (alloc_env : Z -> Env) (ev : Z) (l : list Z)
    (s : Session) :
  fst (reallocate alloc_env (ev :: l) s)
  = fst (reallocate alloc_env l
           (fst (allocate_waitlist_if_possible (alloc_env ev) ev s))).
Proof.
  unfold reallocate. simpl. unfold bind at 1. unfold try_pass at 1.
  now destruct (allocate_waitlist_if_possible (alloc_env ev) ev s).
Qed.

Lemma reallocate_seats (alloc_env : Z -> Env) (j : Z) (touched : list Z) :
  forall (s : Session) (e : Event.t),
    NoDup touched ->
    events (committed s) = events (working s) ->
    find_event (working s) j = Some e ->
    let s' := fst (reallocate alloc_env touched s) in
    events (committed s') = events (working s')
    /\ (~ In j touched -> find_event (working s') j = Some e)
    /\ (find_event (working s') j = Some e
        \/ find_event (working s') j
           = Some (Event.set_available_seats (Event.available_seats e - 1) e)).
Proof.
  induction touched as [|ev l IH]; intros s e Hnd Hsync He; cbv zeta.
  - split; [exact Hsync|]. split; [intros _; exact He|now left].
  - rewrite reallocate_cons.
    pose proof (allocate_seats (alloc_env ev) ev j s e Hsync He) as H.
    cbv zeta in H.
    set (s1 := fst (allocate_waitlist_if_possible (alloc_env ev) ev s)) in *.
    destruct H as (Hsync1 & Hother & Hor).
    inversion Hnd as [|? ? Hnotin Hnd']; subst.
    destruct (Z.eq_dec ev j) as [->|Hne].
    + destruct Hor as [He1|He1];
        destruct (IH s1 _ Hnd' Hsync1 He1) as (Hs & Hkeep & _);
        (split; [exact Hs|]); (split; [intros Hn; elim Hn; now left|]);
        rewrite (Hkeep Hnotin); [now left|now right].
    + destruct (IH s1 e Hnd' Hsync1 (Hother Hne)) as (Hs & Hkeep & Hor').
      split; [exact Hs|]. split; [|exact Hor'].
      intros Hn. apply Hkeep. intros Hin. apply Hn. now right.
Qed.

(** The two halves of a sweep pass, one after the other. *)
Lemma process_waitlist_offers_run (env : Env) (order : SetOrder)
    (alloc_env : Z -> Env) (d : Db) :
  let d1 := fold_left release_db (expired_offers (now env) d) d in
  exists touched,
    NoDup touched
    /\ fst (run (expire_offers env order) d) = d1
    /\ process_waitlist_offers env order alloc_env d
       = committed (fst (reallocate alloc_env touched (mkSession d1 d1))).
Proof.
  cbv zeta.
  destruct (expire_offers_run env order d) as (touched & Hrun & Hnd & _).
  cbv zeta in Hrun. exists touched. split; [exact Hnd|]. split.
  - unfold run. now rewrite Hrun.
  - unfold process_waitlist_offers, run, expire_offers_and_reallocate.
    unfold bind. rewrite Hrun.
    now destruct (reallocate alloc_env touched _) as [s' res].
Qed.
(** C6, amended.  Take an [OFFERED] registration whose deadline has passed,
    on an event that exists, in a table whose released seats fit the column
    [available_seats].  The first loop of a sweep pass and its commit put
    the registration back in [WAITLIST] with [offer_expires_at] and the
    payment session cleared, and give the event one seat for each of its
    expired offers, this one included.  The allocation passes that follow
    in the same sweep may hand a seat out again: when the sweep is over the
    registration either still waits, deadline and session cleared, or holds
    a new offer whose deadline is an hour after an allocation pass, and the
    event has the released seats or one fewer.  Whatever the allocator did
    and in whatever order the touched events were walked, a second sweep
    that starts within the hour finds no expired offer under this
    registration's identifier: nothing is restored twice. *)
Theorem C6_expired_offer_is_swept_once
    (env : Env) (order : SetOrder) (alloc_env : Z -> Env) (env' : Env)
    (d : Db) (r : Registration.t) (event : Event.t) :
  is_row d r ->
  is_expired_offer (now env) r = true ->
  find_event d (Registration.event_id r) = Some event ->
  counters_fit (now env) d ->
  (forall ev, now env' <= now (alloc_env ev) + 3600) ->
  let released := expired_on (now env) d (Registration.event_id r) in
  let d1 := fst (run (expire_offers env order) d) in
  let d2 := process_waitlist_offers env order alloc_env d in
  (find_registration d1 (Registration.id r) = Some (back_to_waitlist r)
   /\ find_event d1 (Registration.event_id r)
      = Some (Event.set_available_seats
                (Event.available_seats event + released) event)
   /\ 1 <= released)
  /\ (exists x, find_registration d2 (Registration.id r) = Some x
                /\ waiting_or_offered_anew alloc_env x)
  /\ (exists seats,
        find_event d2 (Registration.event_id r)
        = Some (Event.set_available_seats seats event)
        /\ (seats = Event.available_seats event + released
            \/ seats = Event.available_seats event + released - 1))
  /\ (forall x, In x (expired_offers (now env') d2) ->
        Registration.id x <> Registration.id r).
Proof.
  intros Hrow Hexp Hev _ Hsoon released d1 d2.
  assert (Hin : In r (registrations d)).
  { red in Hrow. unfold find_registration in Hrow.
    now apply find_some in Hrow. }
  assert (Hl : In r (expired_offers (now env) d))
    by now apply in_expired_offers.
  assert (Hswept : swept d (expired_offers (now env) d) (Registration.id r) = true).
  { unfold swept. apply existsb_exists. exists r. split; [exact Hl|].
    unfold event_exists. now rewrite Z.eqb_refl, Hev. }
  destruct (process_waitlist_offers_run env order alloc_env d)
    as (touched & Hnd & Hd1 & Hd2).
  cbv zeta in Hd1, Hd2. fold d1 in Hd1. fold d2 in Hd2.
  set (swept_db := fold_left release_db (expired_offers (now env) d) d) in *.
  set (s2 := fst (reallocate alloc_env touched (mkSession swept_db swept_db)))
    in *.
  assert (Hfound : find_registration swept_db (Registration.id r)
                   = Some (back_to_waitlist r)).
  { unfold swept_db, find_registration.
    rewrite registrations_fold_release.
    rewrite find_map_key
      by (intros x; now destruct (swept d _ (Registration.id x))).
    red in Hrow. unfold find_registration in Hrow. rewrite Hrow.
    cbn [option_map]. now rewrite Hswept. }
  assert (Hseat : find_event swept_db (Registration.event_id r)
                  = Some (Event.set_available_seats
                            (Event.available_seats event + released) event)).
  { unfold swept_db.
    rewrite (find_event_fold_release _ d _ event Hev).
    unfold released, expired_on.
    do 3 f_equal. unfold expired_offers. f_equal.
    apply filter_length_permutation, Permutation_sym,
      ExpirySort.Permuted_sort. }
  assert (Hrows : forall inv : Registration.t -> Prop,
            (forall x, inv (back_to_waitlist x)) ->
            rows_under (Registration.id r) inv swept_db).
  { intros inv Hinv x Hx Hid. unfold swept_db in Hx.
    rewrite registrations_fold_release in Hx. apply in_map_iff in Hx.
    destruct Hx as (y & Hy & _).
    destruct (swept d (expired_offers (now env) d) (Registration.id y)) eqn:E.
    - subst x. apply Hinv.
    - subst x. rewrite Hid, Hswept in E. discriminate. }
  split; [|split; [|split]].
  - rewrite Hd1. split; [exact Hfound|]. split; [exact Hseat|].
    unfold released, expired_on.
    assert (Hr : In r (filter (fun x => Registration.event_id x
                                        =? Registration.event_id r)
                         (filter (is_expired_offer (now env))
                            (registrations d)))).
    { apply filter_In. split; [|apply Z.eqb_refl].
      apply filter_In. now split. }
    destruct (filter _ (filter _ _)); [destruct Hr|].
    cbn [Datatypes.length]. lia.
  - pose proof (reallocate_keeps_rows alloc_env (Registration.id r) touched
                  (mkSession swept_db swept_db)
                  (Hrows _ (fun x => or_introl
                                       (conj eq_refl (conj eq_refl eq_refl))))
                  (Hrows _ (fun x => or_introl
                                       (conj eq_refl (conj eq_refl eq_refl)))))
      as H.
    assert (Hsome : find_registration swept_db (Registration.id r) <> None)
      by now rewrite Hfound.
    pose proof (reallocate_keeps_found alloc_env (Registration.id r) touched
                  (mkSession swept_db swept_db) Hsome Hsome) as Hf.
    fold s2 in H, Hf. rewrite <- Hd2 in H, Hf.
    destruct (find_registration d2 (Registration.id r)) as [x|] eqn:Ex;
      [|now elim Hf].
    exists x. split; [reflexivity|].
    unfold find_registration in Ex. apply find_some in Ex.
    destruct Ex as [Hx Hid]. apply (H x Hx). now apply Z.eqb_eq.
  - destruct (reallocate_seats alloc_env (Registration.event_id r) touched
                (mkSession swept_db swept_db) _ Hnd eq_refl Hseat)
      as (Hsync & _ & Hor).
    fold s2 in Hsync, Hor.
    assert (Hsame : find_event d2 (Registration.event_id r)
                    = find_event (working s2) (Registration.event_id r)).
    { rewrite Hd2. unfold find_event. now rewrite Hsync. }
    rewrite Hsame. destruct Hor as [->| ->].
    + exists (Event.available_seats event + released).
      split; [reflexivity|now left].
    + exists (Event.available_seats event + released - 1).
      split; [now destruct event|now right].
  - intros x Hx Hid. apply in_expired_offers in Hx. destruct Hx as [Hx Hxe].
    assert (Hclean : not_expired_at (now env') (Registration.id r) swept_db)
      by exact (Hrows _ (back_to_waitlist_not_expired (now env'))).
    pose proof (reallocate_keeps_not_expired (now env') (Registration.id r)
                  alloc_env touched (mkSession swept_db swept_db)
                  Hsoon Hclean Hclean) as H.
    fold s2 in H. rewrite <- Hd2 in H.
    rewrite (H x Hx Hid) in Hxe. discriminate.
Qed.

Lemma C6_expired_offer_is_swept_once_witness :
  let d1 := fst (run (expire_offers (Sample.env 4000) Sample.as_inserted)
                   Sample.db_expired_offer) in
  let d2 := process_waitlist_offers (Sample.env 4000) Sample.as_inserted
              (fun _ => Sample.env 4001) Sample.db_expired_offer in
  find_registration d1 1 = Some (back_to_waitlist Sample.offered_row)
  /\ find_event d1 1 = Some Sample.concert
  /\ (exists x, find_registration d2 1 = Some x
                /\ waiting_or_offered_anew (fun _ => Sample.env 4001) x)
  /\ (exists seats,
        find_event d2 1 = Some (Event.set_available_seats seats Sample.concert)
        /\ (seats = 1 \/ seats = 0))
  /\ (forall x, In x (expired_offers 4060 d2) -> Registration.id x <> 1).
Proof.
  destruct (C6_expired_offer_is_swept_once (Sample.env 4000)
              Sample.as_inserted
              (fun _ => Sample.env 4001) (Sample.env 4060)
              Sample.db_expired_offer Sample.offered_row
              (Event.set_available_seats 0 Sample.concert))
    as ((Hrow & Hseat & _) & Hagain & Hseats & Hsecond);
    [reflexivity | reflexivity | reflexivity
     | intros e [<-|[<-|[]]]; vm_compute; split; discriminate
     | intros ev; simpl; lia |].
  repeat split; assumption.
Defined.

(** C6 as the specification words it fails on the sample.  Alice holds an
    offer that expired at 3600 on the concert, which has no seat left, and
    Bob waits behind her.  The sweep of 4000 releases her seat and, in the
    same pass, the allocator offers it to the oldest entry of the waitlist,
    Alice herself: when the pass is over her registration is [OFFERED]
    again and the concert still has no seat. *)
Theorem C6_counterexample :
  is_row Sample.db_expired_offer Sample.offered_row
  /\ is_expired_offer (now (Sample.env 4000)) Sample.offered_row = true
  /\ counters_fit (now (Sample.env 4000)) Sample.db_expired_offer
  /\ ~ swept_to_waitlist Sample.db_expired_offer
         (process_waitlist_offers (Sample.env 4000) Sample.as_inserted
            (fun _ => Sample.env 4001) Sample.db_expired_offer)
         Sample.offered_row.
Proof.
  split; [reflexivity|]. split; [reflexivity|]. split.
  - intros e [<-|[<-|[]]]; vm_compute; split; discriminate.
  - intros (x & event & event' & Hx & Hstatus & _).
    vm_compute in Hx. injection Hx as <-. discriminate Hstatus.
Qed.

(** The whole pass on the sample: Alice's offer expires, the seat comes
    back and the allocator offers it again to the oldest entry of the
    waitlist, which is Alice, with a new deadline; Bob still waits and the
    event is full again.  A pass one minute later changes nothing. *)
Example sweep_then_offer_again :
  let d2 := process_waitlist_offers (Sample.env 4000) Sample.as_inserted
              (fun _ => Sample.env 4001) Sample.db_expired_offer in
  map (fun r => (Registration.id r, Registration.status r,
                 Registration.offer_expires_at r))
      (registrations d2)
  = [(1, RegistrationStatus.OFFERED, Some 7601);
     (2, RegistrationStatus.WAITLIST, None)]
  /\ map Event.available_seats (events d2) = [0; 0]
  /\ process_waitlist_offers (Sample.env 4060) Sample.as_inserted
       (fun _ => Sample.env 4061) d2
     = d2.
Proof. vm_compute. repeat split. Qed.

(** * Further properties of the routes and services *)

(** ** Refusals of the registration routes *)

(** X1.  [validate_and_get_ticket] never writes; it returns the ticket
    exactly when the ticket exists, belongs to the event, is active and has
    units left, and otherwise raises an HTTP error, 404 exactly when no
    ticket has that identifier. *)
Theorem validate_and_get_ticket_accepts_exactly
    (s : Session) (event_id ticket_id : Z) :
  fst (validate_and_get_ticket event_id (Some ticket_id) s) = s
  /\ (forall k,
        snd (validate_and_get_ticket event_id (Some ticket_id) s) = Ok k
        <-> acceptable_ticket (working s) event_id ticket_id k)
  /\ (forall e,
        snd (validate_and_get_ticket event_id (Some ticket_id) s) = Raise e ->
        exists code detail,
          e = HTTPException code detail
          /\ (code = 404 \/ code = 400)
          /\ (code = 404 <-> find_ticket (working s) ticket_id = None)).
Proof.
  unfold validate_and_get_ticket, bind, query, acceptable_ticket.
  destruct (find_ticket (working s) ticket_id) as [ticket|] eqn:Ef.
  - destruct (Z.eqb_spec (Ticket.event_id ticket) event_id) as [He|He];
      cbn [negb].
    + destruct (Ticket.is_active ticket) eqn:Ha; cbn [negb].
      * unfold Ticket.is_sold_out.
        destruct (Z.leb_spec (Ticket.quantity_available ticket)
                    (Ticket.quantity_sold ticket)) as [Hq|Hq]; cbn.
        -- split; [reflexivity|]. split.
           ++ intros k. split; [discriminate|].
              intros (Hk & _ & _ & Hlt). injection Hk as <-. lia.
           ++ intros e H. injection H as <-. eexists _, _.
              split; [reflexivity|]. split; [now right|].
              split; [discriminate|congruence].
        -- split; [reflexivity|]. split; [|discriminate].
           intros k. split.
           ++ intros H. injection H as <-. repeat split; assumption.
           ++ intros (Hk & _). congruence.
      * cbn. split; [reflexivity|]. split.
        -- intros k. split; [discriminate|].
           intros (Hk & _ & Hact & _). injection Hk as <-. congruence.
        -- intros e H. injection H as <-. eexists _, _.
           split; [reflexivity|]. split; [now right|].
           split; [discriminate|congruence].
    + cbn. split; [reflexivity|]. split.
      * intros k. split; [discriminate|].
        intros (Hk & Hev & _). injection Hk as <-. congruence.
      * intros e H. injection H as <-. eexists _, _.
        split; [reflexivity|]. split; [now right|].
        split; [discriminate|congruence].
  - cbn. split; [reflexivity|]. split.
    + intros k. split; [discriminate|]. intros (Hk & _). discriminate.
    + intros e H. injection H as <-. eexists _, _.
      split; [reflexivity|]. split; [now left|]. split; reflexivity.
Qed.

(** X2.  A registration request for an event that does not exist or is not
    published is refused with 404 by each of the four routes, and nothing
    is written. *)
Theorem unpublished_event_is_refused
    (env : Env) (d : Db) (event_id : Z)
    (guest_data : GuestRegistrationCreate.t)
    (registration_data : UserRegistrationCreate.t) (current_user : User.t) :
  find_published_event d event_id = None ->
  refuses (register_guest_to_event env event_id guest_data) d 404
  /\ refuses (register_user_to_event env event_id registration_data
                current_user) d 404
  /\ refuses (register_guest_to_paid_event env event_id guest_data) d 404
  /\ refuses (register_user_to_paid_event env event_id registration_data
                current_user) d 404.
Proof.
  intros H. unfold refuses, run.
  unfold register_guest_to_event, register_user_to_event,
    register_guest_to_paid_event, register_user_to_paid_event, bind, query.
  cbn [working]. rewrite H. cbn.
  repeat split; eexists; reflexivity.
Qed.

Lemma unpublished_event_is_refused_witness :
  refuses (register_guest_to_event (Sample.env 0) 99 Sample.guest_request)
          Sample.db0 404
  /\ refuses (register_user_to_event (Sample.env 0) 99 Sample.alice_request
                Sample.alice) Sample.db0 404
  /\ refuses (register_guest_to_paid_event (Sample.env 0) 99
                Sample.guest_request) Sample.db0 404
  /\ refuses (register_user_to_paid_event (Sample.env 0) 99
                Sample.alice_request Sample.alice) Sample.db0 404.
Proof.
  apply unpublished_event_is_refused. reflexivity.
Defined.

(** X3.  Each route serves one kind of event: the free routes refuse a paid
    event and the paid routes a free event, with 400 and without writing. *)
Theorem wrong_kind_of_event_is_refused
    (env : Env) (d : Db) (event_id : Z) (event : Event.t)
    (guest_data : GuestRegistrationCreate.t)
    (registration_data : UserRegistrationCreate.t) (current_user : User.t) :
  find_published_event d event_id = Some event ->
  if Event.is_free event then
    refuses (register_guest_to_paid_event env event_id guest_data) d 400
    /\ refuses (register_user_to_paid_event env event_id registration_data
                  current_user) d 400
  else
    refuses (register_guest_to_event env event_id guest_data) d 400
    /\ refuses (register_user_to_event env event_id registration_data
                  current_user) d 400.
Proof.
  intros H. unfold refuses, run.
  unfold register_guest_to_event, register_user_to_event,
    register_guest_to_paid_event, register_user_to_paid_event, bind, query.
  cbn [working]. rewrite H.
  destruct (Event.is_free event); cbn; split; eexists; reflexivity.
Qed.

Lemma wrong_kind_of_event_is_refused_witness :
  refuses (register_guest_to_event (Sample.env 0) 1 Sample.guest_request)
          Sample.db0 400
  /\ refuses (register_user_to_event (Sample.env 0) 1 Sample.alice_request
                Sample.alice) Sample.db0 400.
Proof.
  exact (wrong_kind_of_event_is_refused (Sample.env 0) Sample.db0 1
           Sample.concert Sample.guest_request Sample.alice_request
           Sample.alice eq_refl).
Defined.

(** ** Repeated requests *)

Lemma latest_created_in (l : list Registration.t) (m : Registration.t) :
  latest_created l = Some m -> In m l.
Proof.
  revert m. induction l as [|r l IH]; simpl; [discriminate|].
  intros m. destruct (latest_created l) as [m'|].
  - destruct (Registration.created_at r <? Registration.created_at m');
      intros H; injection H as <-; auto.
  - intros H; injection H as <-; auto.
Qed.

Lemma latest_created_none (l : list Registration.t) :
  latest_created l = None -> l = [].
Proof.
  destruct l as [|r l]; simpl; [reflexivity|].
  destruct (latest_created l) as [m'|]; [|discriminate].
  destruct (_ <? _); discriminate.
Qed.

(** X4.  On a free event that still has seats, a request that passes the
    ticket check and the duplicate guard is not registered: the guest route
    stops on [NameError], the account route on [UnboundLocalError], both
    before any row is written. *)
Theorem free_registration_with_seats_fails
    (env : Env) (d : Db) (event_id : Z) (event : Event.t)
    (guest_data : GuestRegistrationCreate.t)
    (registration_data : UserRegistrationCreate.t) (current_user : User.t) :
  find_published_event d event_id = Some event ->
  Event.is_free event = true ->
  0 < Event.available_seats event ->
  (acceptable_choice d event_id (GuestRegistrationCreate.ticket_id guest_data) ->
   (forall r, In r (registrations d) ->
      guest_match event_id (GuestRegistrationCreate.email guest_data) r = true ->
      Registration.status r <> RegistrationStatus.CONFIRMED) ->
   run (register_guest_to_event env event_id guest_data) d
   = (d, Raise (NameError "settings")))
  /\ (acceptable_choice d event_id
        (UserRegistrationCreate.ticket_id registration_data) ->
      (forall r, In r (registrations d) ->
         user_match event_id (User.id current_user) r = true ->
         Registration.status r <> RegistrationStatus.CONFIRMED
         /\ Registration.status r <> RegistrationStatus.PENDING) ->
      run (register_user_to_event env event_id registration_data current_user) d
      = (d, Raise (UnboundLocalError "settings"))).
Proof.
  intros Hev Hfree Hseats.
  assert (Hs : (Event.available_seats event <=? 0) = false)
    by (apply Z.leb_gt; lia).
  split; intros Hk Hnone.
  - destruct (optional_ticket_ok (mkSession d d) event_id _ Hk) as [ticket Ht].
    unfold run, register_guest_to_event.
    unfold bind at 1. unfold query at 1. cbn [working].
    rewrite Hev, Hfree. cbn [negb]. unfold bind at 1. rewrite Ht, Hs.
    replace (existsb _ (registrations d)) with false; [reflexivity|].
    symmetry. apply not_true_is_false. intros H.
    apply existsb_exists in H. destruct H as (r & Hin & Hr).
    apply andb_true_iff in Hr. destruct Hr as [Hm Hst].
    apply (Hnone r Hin Hm). unfold status_in in Hst. simpl in Hst.
    rewrite orb_false_r in Hst. now apply RegistrationStatus_eqb_eq.
  - destruct (optional_ticket_ok (mkSession d d) event_id _ Hk) as [ticket Ht].
    unfold run, register_user_to_event.
    unfold bind at 1. unfold query at 1. cbn [working].
    rewrite Hev, Hfree. cbn [negb]. unfold bind at 1. rewrite Ht, Hs.
    rewrite filter_none; [reflexivity|].
    intros r Hin. apply not_true_is_false. intros H.
    apply andb_true_iff in H. destruct H as [Hm Hst].
    destruct (Hnone r Hin Hm) as [H1 H2].
    unfold status_in in Hst. simpl in Hst. rewrite orb_false_r in Hst.
    apply orb_true_iff in Hst.
    destruct Hst as [Hst|Hst]; apply RegistrationStatus_eqb_eq in Hst; auto.
Qed.

Lemma free_registration_with_seats_fails_witness :
  run (register_guest_to_event (Sample.env 0) 2 (Sample.guest "one"))
      Sample.db_free_seat
  = (Sample.db_free_seat, Raise (NameError "settings"))
  /\ run (register_user_to_event (Sample.env 0) 2
            (UserRegistrationCreate.mk None) Sample.alice)
         Sample.db_free_seat
     = (Sample.db_free_seat, Raise (UnboundLocalError "settings")).
Proof.
  destruct (free_registration_with_seats_fails (Sample.env 0)
              Sample.db_free_seat 2 (Event.set_available_seats 1 Sample.meetup)
              (Sample.guest "one") (UserRegistrationCreate.mk None)
              Sample.alice eq_refl eq_refl) as [Hg Hu]; [simpl; lia|].
  split.
  - apply Hg; [exact I | intros r []].
  - apply Hu; [exact I | intros r []].
Defined.

(** X5.  A guest who already holds a [CONFIRMED] or [PENDING] registration
    for a paid event with seats left gets no second row: nothing is written,
    and the answer is either a 400 or the payment link of a registration of
    theirs that is still [PENDING]. *)
Theorem paid_guest_is_not_registered_twice
    (env : Env) (d : Db) (event_id tid : Z) (event : Event.t) (k : Ticket.t)
    (guest_data : GuestRegistrationCreate.t) (r : Registration.t) :
  find_published_event d event_id = Some event ->
  Event.is_free event = false ->
  0 < Event.available_seats event ->
  GuestRegistrationCreate.ticket_id guest_data = Some tid ->
  acceptable_ticket d event_id tid k ->
  In r (registrations d) ->
  guest_match event_id (GuestRegistrationCreate.email guest_data) r = true ->
  Registration.status r = RegistrationStatus.CONFIRMED
  \/ Registration.status r = RegistrationStatus.PENDING ->
  refuses (register_guest_to_paid_event env event_id guest_data) d 400
  \/ exists existing reply,
       In existing (registrations d)
       /\ guest_match event_id (GuestRegistrationCreate.email guest_data)
            existing = true
       /\ Registration.status existing = RegistrationStatus.PENDING
       /\ reuse_checkout_session (gateway env) existing = Some reply
       /\ run (register_guest_to_paid_event env event_id guest_data) d
          = (d, Ok reply).
Proof.
  intros Hev Hpaid Hseats Htid Hk Hin Hm Hst.
  assert (Hs : (Event.available_seats event <=? 0) = false)
    by (apply Z.leb_gt; lia).
  pose (dup := fun r0 =>
          guest_match event_id (GuestRegistrationCreate.email guest_data) r0
          && status_in [RegistrationStatus.CONFIRMED;
                        RegistrationStatus.PENDING] r0).
  assert (Hrun : exists res,
            run (register_guest_to_paid_event env event_id guest_data) d
            = (d, res)
            /\ match latest_created (filter dup (registrations d)) with
               | Some existing =>
                 if RegistrationStatus.eqb (Registration.status existing)
                      RegistrationStatus.CONFIRMED
                 then exists detail, res = Raise (HTTPException 400 detail)
                 else
                   match reuse_checkout_session (gateway env) existing with
                   | Some reply => res = Ok reply
                   | None =>
                     exists detail, res = Raise (HTTPException 400 detail)
                   end
               | None => True
               end).
  { destruct (latest_created (filter dup (registrations d)))
      as [existing|] eqn:El.
    - unfold run, register_guest_to_paid_event.
      unfold bind at 1. unfold query at 1. cbn [working].
      rewrite Hev, Hpaid, Htid. unfold bind at 1.
      rewrite (validate_and_get_ticket_ok (mkSession d d) event_id tid k Hk), Hs.
      fold dup. rewrite El.
      destruct (RegistrationStatus.eqb _ _).
      + eexists. split; [reflexivity|]. eexists. reflexivity.
      + destruct (reuse_checkout_session _ _).
        * eexists. split; reflexivity.
        * eexists. split; [reflexivity|]. eexists. reflexivity.
    - apply latest_created_none in El.
      assert (Hf : In r (filter dup (registrations d))).
      { apply filter_In. split; [exact Hin|]. unfold dup. rewrite Hm.
        unfold status_in. destruct Hst as [-> | ->]; reflexivity. }
      rewrite El in Hf. destruct Hf. }
  destruct Hrun as (res & Hrun & Hres). unfold refuses. rewrite Hrun.
  destruct (latest_created (filter dup (registrations d)))
    as [existing|] eqn:El.
  - apply latest_created_in in El. apply filter_In in El.
    destruct El as [Hin' Hp]. apply andb_true_iff in Hp.
    destruct Hp as [Hm' Hst'].
    destruct (RegistrationStatus.eqb (Registration.status existing)
                RegistrationStatus.CONFIRMED) eqn:Ec.
    + left. destruct Hres as [detail ->]. now exists detail.
    + destruct (reuse_checkout_session (gateway env) existing)
        as [reply|] eqn:Er.
      * right. exists existing, reply.
        split; [exact Hin'|]. split; [exact Hm'|]. split.
        -- unfold status_in in Hst'. simpl in Hst'. rewrite Ec in Hst'.
           rewrite orb_false_r in Hst'. simpl in Hst'.
           now apply RegistrationStatus_eqb_eq.
        -- split; [exact Er | now rewrite Hres].
      * left. destruct Hres as [detail ->]. now exists detail.
  - apply latest_created_none in El.
    assert (Hf : In r (filter dup (registrations d))).
    { apply filter_In. split; [exact Hin|]. unfold dup. rewrite Hm.
      unfold status_in. destruct Hst as [-> | ->]; reflexivity. }
    rewrite El in Hf. destruct Hf.
Qed.

Lemma paid_guest_is_not_registered_twice_witness :
  refuses (register_guest_to_paid_event (Sample.env 60) 1
             Sample.guest_request) Sample.db_guest_pending 400
  \/ exists existing reply,
       In existing (registrations Sample.db_guest_pending)
       /\ guest_match 1 "one@example.com" existing = true
       /\ Registration.status existing = RegistrationStatus.PENDING
       /\ reuse_checkout_session Sample.gw existing = Some reply
       /\ run (register_guest_to_paid_event (Sample.env 60) 1
                 Sample.guest_request) Sample.db_guest_pending
          = (Sample.db_guest_pending, Ok reply).
Proof.
  apply (paid_guest_is_not_registered_twice (Sample.env 60)
           Sample.db_guest_pending 1 10 Sample.concert Sample.standard
           Sample.guest_request Sample.guest_pending_row eq_refl eq_refl).
  - simpl; lia.
  - reflexivity.
  - unfold acceptable_ticket; simpl. repeat split; lia.
  - simpl. now left.
  - reflexivity.
  - now right.
Defined.

(** X6.  With seats left, a participant who already holds a [CONFIRMED]
    registration for the event is refused with 400 and nothing is written:
    so answers the account route of a paid event and the guest route of a
    free event. *)
Theorem confirmed_participant_is_refused
    (env : Env) (d : Db) (event_id : Z) (event : Event.t)
    (guest_data : GuestRegistrationCreate.t)
    (registration_data : UserRegistrationCreate.t) (current_user : User.t)
    (r : Registration.t) :
  find_published_event d event_id = Some event ->
  0 < Event.available_seats event ->
  In r (registrations d) ->
  Registration.status r = RegistrationStatus.CONFIRMED ->
  (Event.is_free event = false ->
   (exists tid k,
      UserRegistrationCreate.ticket_id registration_data = Some tid
      /\ acceptable_ticket d event_id tid k) ->
   user_match event_id (User.id current_user) r = true ->
   refuses (register_user_to_paid_event env event_id registration_data
              current_user) d 400)
  /\ (Event.is_free event = true ->
      acceptable_choice d event_id
        (GuestRegistrationCreate.ticket_id guest_data) ->
      guest_match event_id (GuestRegistrationCreate.email guest_data) r = true ->
      refuses (register_guest_to_event env event_id guest_data) d 400).
Proof.
  intros Hev Hseats Hin Hst.
  assert (Hs : (Event.available_seats event <=? 0) = false)
    by (apply Z.leb_gt; lia).
  split.
  - intros Hpaid (tid & k & Htid & Hk) Hm.
    unfold refuses, run, register_user_to_paid_event.
    unfold bind at 1. unfold query at 1. cbn [working].
    rewrite Hev, Hpaid, Htid. unfold bind at 1.
    rewrite (validate_and_get_ticket_ok (mkSession d d) event_id tid k Hk), Hs.
    replace (existsb _ (registrations d)) with true;
      [eexists; reflexivity|].
    symmetry. apply existsb_exists. exists r. split; [exact Hin|].
    rewrite Hm. unfold status_in. now rewrite Hst.
  - intros Hfree Hk Hm.
    destruct (optional_ticket_ok (mkSession d d) event_id _ Hk) as [ticket Ht].
    unfold refuses, run, register_guest_to_event.
    unfold bind at 1. unfold query at 1. cbn [working].
    rewrite Hev, Hfree. cbn [negb]. unfold bind at 1. rewrite Ht, Hs.
    replace (existsb _ (registrations d)) with true;
      [eexists; reflexivity|].
    symmetry. apply existsb_exists. exists r. split; [exact Hin|].
    rewrite Hm. unfold status_in. now rewrite Hst.
Qed.

Lemma confirmed_participant_is_refused_witness :
  refuses (register_user_to_paid_event (Sample.env 0) 1 Sample.alice_request
             Sample.alice) Sample.db_confirmed 400.
Proof.
  destruct (confirmed_participant_is_refused (Sample.env 0)
              Sample.db_confirmed 1 Sample.concert Sample.guest_request
              Sample.alice_request Sample.alice Sample.ticket_holder eq_refl)
    as [H _].
  - simpl; lia.
  - simpl. now left.
  - reflexivity.
  - apply H; [reflexivity | | reflexivity].
    exists 10, Sample.standard. split; [reflexivity|].
    unfold acceptable_ticket; simpl. repeat split; lia.
Defined.

Lemma create_pending_registration_fails (env : Env) (event : Event.t)
    (ticket : Ticket.t) (row : Registration.t) (d : Db) :
  seq_fresh d ->
  create_checkout_session (gateway env) (registration_seq d)
    (Ticket.price ticket) (Event.currency event) = None ->
  exists d' detail,
    create_pending_registration env event ticket row (mkSession d d)
    = (mkSession d' d', Raise (HTTPException 500 detail))
    /\ only_sequence_advanced d d'.
Proof.
  intros Hfresh Hgw.
  unfold create_pending_registration, add_registration. session.
  rewrite Hgw. session.
  eexists _, _. split; [reflexivity|].
  unfold only_sequence_advanced. simpl. repeat split.
  rewrite filter_app. simpl. rewrite Z.eqb_refl. simpl. rewrite app_nil_r.
  apply forallb_filter_id. apply forallb_forall. intros r Hr.
  apply negb_true_iff, Z.eqb_neq. specialize (Hfresh r Hr). lia.
Qed.

(** X7.  When the payment gateway cannot open a Checkout session, the row
    that the paid route has just inserted is deleted again: the route
    answers 500 and the registrations, events and tickets are as before the
    request; only the identifier sequence has moved. *)
Theorem failed_checkout_leaves_no_registration
    (env : Env) (d : Db) (event_id tid : Z) (event : Event.t) (k : Ticket.t)
    (guest_data : GuestRegistrationCreate.t)
    (registration_data : UserRegistrationCreate.t) (current_user : User.t) :
  find_published_event d event_id = Some event ->
  Event.is_free event = false ->
  0 < Event.available_seats event ->
  acceptable_ticket d event_id tid k ->
  seq_fresh d ->
  create_checkout_session (gateway env) (registration_seq d)
    (Ticket.price k) (Event.currency event) = None ->
  (GuestRegistrationCreate.ticket_id guest_data = Some tid ->
   (forall r, In r (registrations d) ->
      guest_match event_id (GuestRegistrationCreate.email guest_data) r = true ->
      Registration.status r <> RegistrationStatus.CONFIRMED
      /\ Registration.status r <> RegistrationStatus.PENDING) ->
   exists d' detail,
     run (register_guest_to_paid_event env event_id guest_data) d
     = (d', Raise (HTTPException 500 detail))
     /\ only_sequence_advanced d d')
  /\ (UserRegistrationCreate.ticket_id registration_data = Some tid ->
      (forall r, In r (registrations d) ->
         user_match event_id (User.id current_user) r = true ->
         Registration.status r <> RegistrationStatus.CONFIRMED) ->
      exists d' detail,
        run (register_user_to_paid_event env event_id registration_data
               current_user) d
        = (d', Raise (HTTPException 500 detail))
        /\ only_sequence_advanced d d').
Proof.
  intros Hev Hpaid Hseats Hk Hfresh Hgw.
  assert (Hs : (Event.available_seats event <=? 0) = false)
    by (apply Z.leb_gt; lia).
  split; intros Htid Hnone.
  - unfold run, register_guest_to_paid_event.
    unfold bind at 1. unfold query at 1. cbn [working].
    rewrite Hev, Hpaid, Htid. unfold bind at 1.
    rewrite (validate_and_get_ticket_ok (mkSession d d) event_id tid k Hk), Hs.
    rewrite filter_none.
    + cbn [latest_created].
      destruct (create_pending_registration_fails env event k
                  (new_registration RegistrationType.GUEST event_id None
                     (Some (Ticket.id k)) (Some guest_data)
                     RegistrationStatus.PENDING PaymentStatus.PENDING
                     (Ticket.price k) (Event.currency event) None (now env))
                  d Hfresh Hgw) as (d' & detail & -> & Hd).
      now exists d', detail.
    + intros r Hin. apply not_true_is_false. intros H.
      apply andb_true_iff in H. destruct H as [Hm Hst].
      destruct (Hnone r Hin Hm) as [H1 H2].
      unfold status_in in Hst. simpl in Hst. rewrite orb_false_r in Hst.
      apply orb_true_iff in Hst.
      destruct Hst as [Hst|Hst]; apply RegistrationStatus_eqb_eq in Hst; auto.
  - unfold run, register_user_to_paid_event.
    unfold bind at 1. unfold query at 1. cbn [working].
    rewrite Hev, Hpaid, Htid. unfold bind at 1.
    rewrite (validate_and_get_ticket_ok (mkSession d d) event_id tid k Hk), Hs.
    replace (existsb _ (registrations d)) with false.
    + destruct (create_pending_registration_fails env event k
                  (new_registration RegistrationType.USER event_id
                     (Some (User.id current_user)) (Some (Ticket.id k)) None
                     RegistrationStatus.PENDING PaymentStatus.PENDING
                     (Ticket.price k) (Event.currency event) None (now env))
                  d Hfresh Hgw) as (d' & detail & -> & Hd).
      now exists d', detail.
    + symmetry. apply not_true_is_false. intros H.
      apply existsb_exists in H. destruct H as (r & Hin & Hr).
      apply andb_true_iff in Hr. destruct Hr as [Hm Hst].
      apply (Hnone r Hin Hm). unfold status_in in Hst. simpl in Hst.
      rewrite orb_false_r in Hst. now apply RegistrationStatus_eqb_eq.
Qed.

Lemma failed_checkout_leaves_no_registration_witness :
  exists d' detail,
    run (register_user_to_paid_event (Sample.env_down 0) 1
           Sample.alice_request Sample.alice) Sample.db0
    = (d', Raise (HTTPException 500 detail))
    /\ only_sequence_advanced Sample.db0 d'.
Proof.
  destruct (failed_checkout_leaves_no_registration (Sample.env_down 0)
              Sample.db0 1 10 Sample.concert Sample.standard
              Sample.guest_request Sample.alice_request Sample.alice
              eq_refl eq_refl) as [_ H].
  - simpl; lia.
  - unfold acceptable_ticket; simpl. repeat split; lia.
  - intros r [].
  - reflexivity.
  - apply H; [reflexivity | intros r []].
Defined.

(** ** What the confirmations commit *)

(** X8.  [confirm_payment] commits only when it answers success: whenever
    it answers [success = false] (session not retrievable, not paid, no
    registration reference, registration missing) or stops on an exception,
    the database is exactly as before the call. *)
Theorem confirm_payment_commits_only_on_success
    (B : string) (env : Env) (sid : string) (d : Db) :
  match run (confirm_payment B env sid) d with
  | (d', Ok response) => success response = true \/ d' = d
  | (d', Raise _) => d' = d
  end.
Proof.
  unfold run, confirm_payment.
  destruct (retrieve (gateway env) sid) as [session|]; [|now right].
  destruct (negb _); [now right|].
  destruct (CheckoutSession.client_reference_id session) as [rid|];
    [|now right].
  unfold bind at 1. unfold query at 1. cbn [working].
  destruct (find_registration d rid) as [registration|]; [|now right].
  destruct (RegistrationStatus.eqb _ _); [now left|].
  do 4 (unfold bind at 1; unfold write at 1; cbn [working committed]).
  set (d4 := sell_ticket _ _).
  unfold bind at 1. unfold post_commission.
  unfold bind at 1. unfold query at 1. cbn [working].
  destruct (find_registration d4 rid) as [r4|],
    (hd_error (commission_settings d4)) as [cs|],
    (find_event d (Registration.event_id registration)) as [ev|];
    try destruct (CommissionSettings.is_active cs && _);
    try destruct (has_commission d4 _);
    unfold send_confirmation; try destruct (email_ok env);
    session; auto.
Qed.

(** X9.  A callback whose [Stripe-Signature] header is missing or empty,
    or whose signature does not verify, is refused with 400 whatever its
    payload, and nothing is written. *)
Theorem unsigned_callback_is_refused (env : Env) (request : WebhookRequest)
    (d : Db) :
  truthy_str (stripe_signature request) = false
  \/ verify_webhook_signature request = None ->
  refuses (stripe_webhook env request) d 400.
Proof.
  intros H. unfold refuses, run, stripe_webhook.
  destruct (truthy_str (stripe_signature request)); cbn [negb].
  - destruct H as [H|H]; [discriminate|]. rewrite H. eexists. reflexivity.
  - eexists. reflexivity.
Qed.

Lemma unsigned_callback_is_refused_witness :
  refuses (stripe_webhook (Sample.env 0)
             (mkWebhookRequest None
                (Some (checkout_session_completed Sample.paid_session))))
          Sample.db_pending 400.
Proof.
  apply unsigned_callback_is_refused. left. reflexivity.
Defined.

(** X10.  [stripe_webhook] commits only when it handles an event: a
    callback that stops on an exception, answers with an error, finds the
    payment already processed or carries an event type it ignores leaves the
    database as it was. *)
Theorem stripe_webhook_commits_only_when_handled
    (env : Env) (request : WebhookRequest) (d : Db) :
  match run (stripe_webhook env request) d with
  | (d', Raise _) => d' = d
  | (d', Ok (wh_error _)) => d' = d
  | (d', Ok wh_already_processed) => d' = d
  | (d', Ok (wh_ignored _)) => d' = d
  | (_, Ok _) => True
  end.
Proof.
  unfold run, stripe_webhook.
  destruct (truthy_str (stripe_signature request)); cbn [negb];
    [|reflexivity].
  destruct (verify_webhook_signature request)
    as [[session|session|payment_intent|event_type]|]; try reflexivity.
  - unfold webhook_completed.
    destruct (CheckoutSession.client_reference_id session) as [rid|];
      [|reflexivity].
    unfold bind at 1. unfold query at 1. cbn [working].
    destruct (find_registration d rid) as [registration|]; [|reflexivity].
    destruct (RegistrationStatus.eqb _ _); [reflexivity|].
    unfold bind at 1; unfold write at 1; cbn [working committed].
    destruct (negb (truthy_str (Registration.qr_code_data registration)));
      [reflexivity|].
    unfold bind at 1. unfold ret at 1.
    do 2 (unfold bind at 1; unfold write at 1; cbn [working committed]).
    set (d4 := sell_ticket _ _).
    unfold bind at 1. unfold post_commission.
    unfold bind at 1. unfold query at 1. cbn [working].
    destruct (find_registration d4 rid) as [r4|],
      (hd_error (commission_settings d4)) as [cs|],
      (find_event d (Registration.event_id registration)) as [ev|];
      try destruct (CommissionSettings.is_active cs && _);
      try destruct (has_commission d4 _);
      unfold send_confirmation; try destruct (email_ok env);
      session; auto.
  - unfold webhook_expired.
    destruct (CheckoutSession.client_reference_id session) as [rid|];
      [|exact I].
    unfold bind at 1. unfold query at 1. cbn [working].
    destruct (find_registration d rid); session; exact I.
  - unfold webhook_refunded.
    destruct (truthy_str payment_intent); [|exact I].
    unfold bind at 1. unfold query at 1. cbn [working].
    destruct (find _ (registrations d)) as [registration|]; [|exact I].
    unfold bind at 1; unfold write at 1; cbn [working committed].
    destruct (find_event d (Registration.event_id registration));
      [destruct (negb _)|]; session; try exact I.
    unfold bind at 1. unfold try_pass.
    match goal with
    | |- context [allocate_waitlist_if_possible ?e ?i ?s] =>
      destruct (allocate_waitlist_if_possible e i s)
    end. exact I.
Qed.

(** ** Refund callbacks *)

(** X11.  [charge.refunded] marks the registration found under the payment
    intent [REFUNDED] and gives its seat and its ticket back exactly when
    the payment was not already [REFUNDED]: a refund notified twice
    releases one seat, not two.  (Nobody is waiting for the event, so the
    allocation pass that follows the release has nothing to do.) *)
Theorem refund_callback_releases_once
    (env : Env) (request : WebhookRequest) (d : Db)
    (payment_intent : option string) (registration : Registration.t)
    (event : Event.t) :
  truthy_str (stripe_signature request) = true ->
  verify_webhook_signature request = Some (charge_refunded payment_intent) ->
  truthy_str payment_intent = true ->
  find (fun r => option_eqb String.eqb
                   (Registration.stripe_payment_intent_id r) payment_intent)
       (registrations d) = Some registration ->
  find_event d (Registration.event_id registration) = Some event ->
  (forall r, In r (registrations d) ->
     on_waitlist (Registration.event_id registration) r = false) ->
  let refunded :=
    update_registration (Registration.id registration)
      (fun r => Registration.set_payment_status PaymentStatus.REFUNDED
                  (Registration.set_status RegistrationStatus.REFUNDED r)) d in
  run (stripe_webhook env request) d
  = (if PaymentStatus.eqb (Registration.payment_status registration)
          PaymentStatus.REFUNDED
     then refunded
     else release_ticket (Registration.ticket_id registration)
            (free_seat (Registration.event_id registration) refunded),
     Ok wh_refunded).
Proof.
  intros Hsig Hverify Hpi Hfind Hev Hnone refunded.
  unfold run, stripe_webhook. rewrite Hsig, Hverify. cbn [negb].
  unfold webhook_refunded. rewrite Hpi.
  unfold bind at 1. unfold query at 1. cbn [working].
  rewrite Hfind, Hev.
  unfold bind at 1; unfold write at 1; cbn [working committed].
  fold refunded.
  destruct (PaymentStatus.eqb _ _); cbn [negb]; session; [reflexivity|].
  set (d1 := release_ticket _ _).
  assert (Hnoop : run (allocate_waitlist_if_possible env
                         (Registration.event_id registration)) d1
                  = (d1, Ok tt)).
  { apply allocate_waitlist_noop. intros ev0 _. right.
    apply filter_none. intros r Hr.
    assert (Hregs : registrations d1 = registrations refunded).
    { unfold d1, release_ticket.
      destruct (truthy_id _); [destruct (Registration.ticket_id registration)|];
        reflexivity. }
    rewrite Hregs in Hr. unfold refunded, update_registration,
      with_registrations, update_where in Hr. simpl in Hr.
    apply in_map_iff in Hr. destruct Hr as (r0 & <- & Hr0).
    destruct (Registration.id r0 =? Registration.id registration).
    - unfold on_waitlist. simpl. apply andb_false_r.
    - now apply Hnone. }
  unfold run in Hnoop.
  destruct (allocate_waitlist_if_possible env _ (mkSession d1 d1))
    as [s' r'] eqn:E.
  injection Hnoop as Hc Hr.
  unfold bind, try_pass. rewrite E. unfold ret. now rewrite Hc.
Qed.

Lemma refund_callback_releases_once_witness :
  map Event.available_seats (events Sample.db_confirmed) = [1; 0]
  /\ map Event.available_seats (events Sample.db_refunded) = [2; 0]
  /\ map Event.available_seats
       (events (fst (run (stripe_webhook (Sample.env 1) Sample.refund_notice)
                         Sample.db_refunded)))
     = [2; 0].
Proof.
  split; [reflexivity|]. split.
  - unfold Sample.db_refunded.
    rewrite (refund_callback_releases_once (Sample.env 0) Sample.refund_notice
               Sample.db_confirmed (Some "pi_1") Sample.ticket_holder
               Sample.concert eq_refl eq_refl eq_refl eq_refl eq_refl);
      [reflexivity|].
    intros r [<-|[]]; reflexivity.
  - rewrite (refund_callback_releases_once (Sample.env 1) Sample.refund_notice
               Sample.db_refunded (Some "pi_1")
               (Registration.set_payment_status PaymentStatus.REFUNDED
                  (Registration.set_status RegistrationStatus.REFUNDED
                     Sample.ticket_holder))
               (Event.set_available_seats 2 Sample.concert)
               eq_refl eq_refl eq_refl eq_refl eq_refl);
      [reflexivity|].
    intros r [<-|[]]; reflexivity.
Defined.

(** ** The allocator and the sweep, on any queue *)

Lemma first_joined_none (l : list Registration.t) :
  first_joined l = None -> l = [].
Proof.
  destruct l as [|r l]; simpl; [reflexivity|].
  destruct (first_joined l) as [m|]; [|discriminate].
  destruct (joined_before m r); discriminate.
Qed.

(** X12.  On a paid event with a free seat and somebody waiting, the
    allocator serves the waitlist in order of arrival: the registration it
    offers the seat to is a [WAITLIST] row of the event before which no
    other [WAITLIST] row of the event joined.  That row becomes [OFFERED]
    with a deadline one hour ahead and keeps its place in the queue
    ([waitlist_joined_at]); the rows with another identifier are untouched
    and the event has one seat less. *)
Theorem waitlist_is_served_in_order_of_arrival
    (env : Env) (event_id : Z) (d : Db) (event : Event.t)
    (w : Registration.t) :
  find_event d event_id = Some event ->
  0 < Event.available_seats event ->
  Event.is_free event = false ->
  (forall r, In r (registrations d) -> is_row d r) ->
  In w (registrations d) ->
  on_waitlist event_id w = true ->
  exists (d' : Db) (candidate offered : Registration.t),
    run (allocate_waitlist_if_possible env event_id) d = (d', Ok tt)
    /\ In candidate (registrations d)
    /\ on_waitlist event_id candidate = true
    /\ (forall r, In r (registrations d) -> on_waitlist event_id r = true ->
          joined_before r candidate = false)
    /\ find_registration d' (Registration.id candidate) = Some offered
    /\ Registration.status offered = RegistrationStatus.OFFERED
    /\ Registration.offer_expires_at offered = Some (now env + 3600)
    /\ Registration.waitlist_joined_at offered
       = Registration.waitlist_joined_at candidate
    /\ (forall r, In r (registrations d) ->
          Registration.id r <> Registration.id candidate ->
          In r (registrations d'))
    /\ find_event d' event_id
       = Some (Event.set_available_seats (Event.available_seats event - 1)
                 event).
Proof.
  intros Hev Hseats Hpaid Hkey Hw Hwait.
  destruct (first_joined (filter (on_waitlist event_id) (registrations d)))
    as [candidate|] eqn:Hcand.
  - destruct (first_joined_oldest _ _ Hcand) as [Hin Hmin].
    apply filter_In in Hin. destruct Hin as [Hin Hon].
    destruct (allocate_waitlist_offers_oldest env event_id d event candidate
                Hev Hseats Hpaid Hcand (Hkey _ Hin))
      as (d' & offered & Hrun & Hfind & Hst & Hexp & Hjoin & Hothers & Hseat).
    exists d', candidate, offered.
    split; [exact Hrun|]. split; [exact Hin|]. split; [exact Hon|].
    split; [|now repeat split].
    intros r Hr Hron. apply Hmin. apply filter_In. now split.
  - apply first_joined_none in Hcand.
    assert (Hf : In w (filter (on_waitlist event_id) (registrations d)))
      by (apply filter_In; now split).
    rewrite Hcand in Hf. destruct Hf.
Qed.

Lemma waitlist_is_served_in_order_of_arrival_witness :
  exists (d' : Db) (candidate offered : Registration.t),
    run (allocate_waitlist_if_possible (Sample.env 400) 1)
        Sample.db_paid_waitlist = (d', Ok tt)
    /\ In candidate (registrations Sample.db_paid_waitlist)
    /\ on_waitlist 1 candidate = true
    /\ (forall r, In r (registrations Sample.db_paid_waitlist) ->
          on_waitlist 1 r = true -> joined_before r candidate = false)
    /\ find_registration d' (Registration.id candidate) = Some offered
    /\ Registration.status offered = RegistrationStatus.OFFERED
    /\ Registration.offer_expires_at offered = Some 4000
    /\ Registration.waitlist_joined_at offered
       = Registration.waitlist_joined_at candidate
    /\ (forall r, In r (registrations Sample.db_paid_waitlist) ->
          Registration.id r <> Registration.id candidate ->
          In r (registrations d'))
    /\ find_event d' 1 = Some (Event.set_available_seats 0 Sample.concert).
Proof.
  apply (waitlist_is_served_in_order_of_arrival (Sample.env 400) 1
           Sample.db_paid_waitlist Sample.concert (Sample.waiting_paid 1 8 200)).
  - reflexivity.
  - simpl; lia.
  - reflexivity.
  - intros r [<-|[<-|[<-|[]]]]; reflexivity.
  - simpl. now left.
  - reflexivity.
Defined.

(** X13.  On a free event with a free seat and somebody waiting, the
    allocator promotes nobody: it stops on [UnboundLocalError] before the
    candidate changes state, and nothing is committed. *)
Theorem free_event_waitlist_is_never_served
    (env : Env) (event_id : Z) (d : Db) (event : Event.t)
    (w : Registration.t) :
  find_event d event_id = Some event ->
  0 < Event.available_seats event ->
  Event.is_free event = true ->
  In w (registrations d) ->
  on_waitlist event_id w = true ->
  run (allocate_waitlist_if_possible env event_id) d
  = (d, Raise (UnboundLocalError "settings")).
Proof.
  intros Hev Hseats Hfree Hw Hwait.
  destruct (first_joined (filter (on_waitlist event_id) (registrations d)))
    as [candidate|] eqn:Hcand.
  - exact (allocate_waitlist_on_free_event env event_id d event candidate
             Hev Hseats Hfree Hcand).
  - apply first_joined_none in Hcand.
    assert (Hf : In w (filter (on_waitlist event_id) (registrations d)))
      by (apply filter_In; now split).
    rewrite Hcand in Hf. destruct Hf.
Qed.

Lemma free_event_waitlist_is_never_served_witness :
  run (allocate_waitlist_if_possible (Sample.env 600) 2)
      Sample.free_waitlist_story
  = (Sample.free_waitlist_story, Raise (UnboundLocalError "settings")).
Proof.
  apply (free_event_waitlist_is_never_served (Sample.env 600) 2
           Sample.free_waitlist_story
           (Event.set_available_seats 1 Sample.meetup)
           (Registration.set_id 1
              (new_registration RegistrationType.GUEST 2 None None
                 (Some (Sample.guest "one")) RegistrationStatus.WAITLIST
                 PaymentStatus.NOT_REQUIRED 0 "EUR" (Some 100) 100))).
  - reflexivity.
  - simpl; lia.
  - reflexivity.
  - vm_compute. now left.
  - reflexivity.
Defined.

Lemma reallocate_ok (alloc_env : Z -> Env) (touched : list Z) (s : Session) :
  snd (reallocate alloc_env touched s) = Ok tt.
Proof.
  unfold reallocate. revert s.
  induction touched as [|ev l IH]; intros s; simpl; [reflexivity|].
  unfold bind at 1. unfold try_pass at 1.
  destruct (allocate_waitlist_if_possible (alloc_env ev) ev s) as [s' r].
  apply IH.
Qed.

(** X14.  A sweep pass whose released seats fit the column
    [available_seats] (each event's counter plus the number of its expired
    offers is a 32-bit integer, so that the commit of the first loop, which
    no [try] covers, goes through) never fails: whatever the allocation
    passes meet (a free event, a gateway that is down) and in whatever
    order the touched events are walked, [expire_offers_and_reallocate]
    returns normally. *)
Theorem sweep_never_fails (env : Env) (order : SetOrder)
    (alloc_env : Z -> Env) (d : Db) :
  counters_fit (now env) d ->
  snd (run (expire_offers_and_reallocate env order alloc_env) d) = Ok tt.
Proof.
  intros _.
  unfold run, expire_offers_and_reallocate. unfold bind.
  destruct (expire_offers_run env order d) as (touched & -> & _). cbv zeta.
  set (s1 := mkSession _ _).
  pose proof (reallocate_ok alloc_env touched s1) as H.
  destruct (reallocate alloc_env touched s1) as [s' r]. exact H.
Qed.

Lemma sweep_never_fails_witness :
  counters_fit 4000 Sample.db_expired_offer
  /\ snd (run (expire_offers_and_reallocate (Sample.env 4000)
                 Sample.as_inserted (fun _ => Sample.env 4001))
              Sample.db_expired_offer) = Ok tt.
Proof.
  assert (H : counters_fit (now (Sample.env 4000)) Sample.db_expired_offer).
  { intros e [<-|[<-|[]]]; vm_compute; split; discriminate. }
  split; [exact H|].
  exact (sweep_never_fails (Sample.env 4000) Sample.as_inserted
           (fun _ => Sample.env 4001) Sample.db_expired_offer H).
Defined.

(** X15.  A sweep pass that finds no [OFFERED] registration past its
    deadline writes nothing, commits nothing and calls the allocator for no
    event. *)
Theorem sweep_without_expired_offer_is_a_no_op
    (env : Env) (order : SetOrder) (alloc_env : Z -> Env) (d : Db) :
  (forall r, In r (registrations d) -> is_expired_offer (now env) r = false) ->
  run (expire_offers_and_reallocate env order alloc_env) d = (d, Ok tt).
Proof.
  intros H.
  assert (Hnil : expired_offers (now env) d = []).
  { unfold expired_offers. now rewrite (filter_none _ _ H). }
  unfold run, expire_offers_and_reallocate, expire_offers, bind, query.
  cbn [working]. rewrite Hnil. cbn [map filter]. rewrite walk_nil.
  reflexivity.
Qed.

Lemma sweep_without_expired_offer_is_a_no_op_witness :
  run (expire_offers_and_reallocate (Sample.env 3000) Sample.as_inserted
         (fun _ => Sample.env 3001)) Sample.db_expired_offer
  = (Sample.db_expired_offer, Ok tt).
Proof.
  apply sweep_without_expired_offer_is_a_no_op.
  intros r [<-|[<-|[]]]; reflexivity.
Defined.

(** X16.  The first half of a sweep pass touches the expired offers only:
    a registration whose identifier is not that of an expired offer is
    still in the table as it was, an event none of whose offers has expired
    keeps its seat counter, and the tickets are as before. *)
Theorem sweep_touches_expired_offers_only
    (env : Env) (order : SetOrder) (d : Db) :
  let d1 := fst (run (expire_offers env order) d) in
  (forall x, In x (registrations d) ->
     (forall y, In y (registrations d) ->
        is_expired_offer (now env) y = true ->
        Registration.id y <> Registration.id x) ->
     In x (registrations d1))
  /\ (forall j e, find_event d j = Some e ->
        expired_on (now env) d j = 0 -> find_event d1 j = Some e)
  /\ tickets d1 = tickets d.
Proof.
  intros d1.
  destruct (expire_offers_run env order d) as (touched & Hrun & _).
  cbv zeta in Hrun.
  assert (Hd1 : d1 = fold_left release_db (expired_offers (now env) d) d).
  { unfold d1, run. now rewrite Hrun. }
  rewrite Hd1. clear Hd1 Hrun d1. split; [|split].
  - intros x Hx Hfresh. rewrite registrations_fold_release.
    apply in_map_iff. exists x. split; [|exact Hx].
    replace (swept d (expired_offers (now env) d) (Registration.id x))
      with false; [reflexivity|].
    symmetry. apply not_true_is_false. intros Hs. unfold swept in Hs.
    apply existsb_exists in Hs. destruct Hs as (y & Hy & Hid).
    apply andb_true_iff in Hid. destruct Hid as [Hid _].
    apply Z.eqb_eq in Hid. apply in_expired_offers in Hy.
    destruct Hy as [Hy Hexp]. exact (Hfresh y Hy Hexp Hid).
  - intros j e He Hnone.
    rewrite (find_event_fold_release _ d j e He).
    replace (Z.of_nat _) with (expired_on (now env) d j).
    + rewrite Hnone, Z.add_0_r. now destruct e.
    + unfold expired_on, expired_offers. f_equal.
      apply filter_length_permutation, ExpirySort.Permuted_sort.
  - generalize (expired_offers (now env) d). intros l. revert d.
    induction l as [|reg l IH]; intros d; simpl; [reflexivity|].
    rewrite IH. unfold release_db.
    now destruct (find_event d (Registration.event_id reg)).
Qed.

(** ** Scans, one after the other *)

Lemma find_map_pred {A} (p : A -> bool) (g : A -> A) (l : list A) :
  (forall x, p (g x) = p x) ->
  find p (map g l) = option_map g (find p l).
Proof.
  intros Hp. induction l as [|x l IH]; simpl; [reflexivity|].
  rewrite Hp. destruct (p x); [reflexivity | exact IH].
Qed.

Lemma by_token_update (token : string) (d : Db) (registration : Registration.t)
    (f : Registration.t -> Registration.t) :
  (forall r, Registration.qr_code_data (f r) = Registration.qr_code_data r) ->
  by_token token d = Some registration ->
  by_token token (update_registration (Registration.id registration) f d)
  = Some (f registration).
Proof.
  intros Hf H. unfold by_token, update_registration, with_registrations,
    update_where. cbn [registrations].
  rewrite find_map_pred.
  - unfold by_token in H. rewrite H. cbn [option_map].
    now rewrite Z.eqb_refl.
  - intros x. destruct (Registration.id x =? _); [now rewrite Hf | reflexivity].
Qed.

(** One scan, followed down to the row that the next scan of the token
    will find. *)
Lemma scan_step (env : Env) (token : string) (d : Db) :
  match by_token token d with
  | None =>
    fst (run (verify_qr_code env token) d) = d
    /\ admits (snd (run (verify_qr_code env token) d)) = false
  | Some registration =>
    if RegistrationStatus.eqb (Registration.status registration)
         RegistrationStatus.CONFIRMED
    then
      exists scanned,
        by_token token (fst (run (verify_qr_code env token) d)) = Some scanned
        /\ Registration.status scanned = Registration.status registration
        /\ (if Registration.scanned_count registration =? 0
            then Registration.scanned_count scanned = 1
            else Registration.scanned_count scanned
                 = Registration.scanned_count registration + 1
                 /\ admits (snd (run (verify_qr_code env token) d)) = false)
    else
      fst (run (verify_qr_code env token) d) = d
      /\ admits (snd (run (verify_qr_code env token) d)) = false
  end.
Proof.
  destruct (run (verify_qr_code env token) d) as [d' r] eqn:E.
  cbn [fst snd]. unfold run, verify_qr_code in E.
  unfold bind at 1 in E. unfold query at 1 in E. cbn [working] in E.
  fold (by_token token d) in E.
  destruct (by_token token d) as [registration|] eqn:Hf.
  2:{ cbn in E. injection E as <- <-. now split. }
  destruct (RegistrationStatus.eqb (Registration.status registration)
              RegistrationStatus.CONFIRMED); cbn [negb] in E.
  2:{ cbn in E. injection E as <- <-. now split. }
  destruct (Registration.scanned_count registration =? 0);
    [|destruct (Registration.scanned_count registration =? 1)];
    session in E; unfold scan_response in E;
    try destruct (Registration.first_scan_at registration);
    destruct (find_event d (Registration.event_id registration));
    session in E; injection E as <- <-;
    eexists; (split; [apply by_token_update; [reflexivity | exact Hf]|]);
    (split; [reflexivity|]); try reflexivity; now split.
Qed.

Lemma scan_of_spent_token (env : Env) (token : string) (d : Db) :
  spent token d ->
  admits (snd (run (verify_qr_code env token) d)) = false
  /\ spent token (fst (run (verify_qr_code env token) d)).
Proof.
  unfold spent at 1. intros H. pose proof (scan_step env token d) as Hs.
  destruct (by_token token d) as [registration|] eqn:Hf.
  - destruct (RegistrationStatus.eqb (Registration.status registration)
                RegistrationStatus.CONFIRMED) eqn:Hst.
    + apply RegistrationStatus_eqb_eq in Hst.
      destruct H as [H|H]; [congruence|].
      destruct Hs as (scanned & Hby & _ & Hcount).
      destruct (Z.eqb_spec (Registration.scanned_count registration) 0);
        [lia|].
      destruct Hcount as [Hcount Hadm]. split; [exact Hadm|].
      unfold spent. rewrite Hby. right. lia.
    + destruct Hs as [-> Hadm]. split; [exact Hadm|].
      unfold spent. rewrite Hf. left. now apply RegistrationStatus_eqb_neq.
  - destruct Hs as [-> Hadm]. split; [exact Hadm|].
    unfold spent. now rewrite Hf.
Qed.

Lemma scan_that_admits (env : Env) (token : string) (d : Db) :
  admits (snd (run (verify_qr_code env token) d)) = true ->
  spent token (fst (run (verify_qr_code env token) d)).
Proof.
  intros Hadm. pose proof (scan_step env token d) as Hs.
  destruct (by_token token d) as [registration|] eqn:Hf.
  - destruct (RegistrationStatus.eqb (Registration.status registration)
                RegistrationStatus.CONFIRMED) eqn:Hst.
    + destruct Hs as (scanned & Hby & _ & Hcount).
      unfold spent. rewrite Hby. right.
      destruct (Registration.scanned_count registration =? 0); [lia|].
      destruct Hcount as [_ H]. congruence.
    + destruct Hs as [_ H]. congruence.
  - destruct Hs as [_ H]. congruence.
Qed.

Lemma scans_of_spent_token (envs : list Env) (token : string) (d : Db) :
  spent token d -> filter admits (scans envs token d) = [].
Proof.
  revert d. induction envs as [|env rest IH]; intros d H; simpl;
    [reflexivity|].
  destruct (scan_of_spent_token env token d H) as [Ha Hs].
  destruct (run (verify_qr_code env token) d) as [d' r]. cbn [fst snd] in *.
  simpl. rewrite Ha. now apply IH.
Qed.

(** X17.  A QR token admits at most once: among the answers of any
    sequence of scans of one token, whatever the database they start from
    and whenever they happen, at most one says [valid]; and none does when
    the token is unknown, or its registration is not [CONFIRMED] or has
    already been scanned. *)
Theorem a_token_admits_at_most_once
    (envs : list Env) (token : string) (d : Db) :
  (List.length (filter admits (scans envs token d)) <= 1)%nat
  /\ (spent token d -> filter admits (scans envs token d) = []).
Proof.
  split; [|apply scans_of_spent_token].
  revert d. induction envs as [|env rest IH]; intros d; simpl; [lia|].
  pose proof (scan_that_admits env token d) as Hadm.
  destruct (run (verify_qr_code env token) d) as [d' r]. cbn [fst snd] in *.
  simpl. destruct (admits r).
  - rewrite (scans_of_spent_token rest token d' (Hadm eq_refl)). simpl. lia.
  - apply IH.
Qed.

(** X18.  A scan writes nothing but what it records about the scan: the
    events (so the seat counters), the tickets and the commissions are as
    before, and so is every registration apart from [scanned_count],
    [first_scan_at] and [last_scan_at]; no row is added or removed. *)
Theorem scan_writes_scan_fields_only (env : Env) (token : string) (d : Db) :
  let d' := fst (run (verify_qr_code env token) d) in
  events d' = events d
  /\ tickets d' = tickets d
  /\ commission_transactions d' = commission_transactions d
  /\ map without_scans (registrations d')
     = map without_scans (registrations d).
Proof.
  assert (Hmap : forall i f,
            (forall r, without_scans (f r) = without_scans r) ->
            map without_scans (registrations (update_registration i f d))
            = map without_scans (registrations d)).
  { intros i f Hf. unfold update_registration, with_registrations,
      update_where. cbn [registrations]. rewrite map_map.
    apply map_ext. intros r. now destruct (Registration.id r =? i). }
  cbv zeta.
  destruct (run (verify_qr_code env token) d) as [d' r] eqn:E.
  cbn [fst]. unfold run, verify_qr_code in E.
  unfold bind at 1 in E. unfold query at 1 in E. cbn [working] in E.
  destruct (find _ (registrations d)) as [registration|].
  2:{ cbn in E. injection E as <- <-. now repeat split. }
  destruct (negb _).
  1:{ cbn in E. injection E as <- <-. now repeat split. }
  destruct (Registration.scanned_count registration =? 0);
    [|destruct (Registration.scanned_count registration =? 1)];
    session in E; unfold scan_response in E;
    try destruct (Registration.first_scan_at registration);
    destruct (find_event d (Registration.event_id registration));
    session in E; injection E as <- <-;
    (split; [reflexivity|]); (split; [reflexivity|]);
    (split; [reflexivity|]); apply Hmap; reflexivity.
Qed.

(** ** Cancellation *)

(** X19.  The guards of [cancel_registration], each refusing without a
    write: 404 for an unknown registration; 403 for a registration of
    somebody else, guest registrations included (they have no [user_id]);
    400 for a registration already [CANCELLED]; 400 less than 24 hours
    before the event starts; 500, the registration staying as it is, when
    the payment was made and the gateway refuses the refund. *)
Theorem cancel_registration_is_guarded
    (env : Env) (registration_id : Z) (current_user : User.t) (d : Db) :
  (find_registration d registration_id = None ->
   refuses (cancel_registration env registration_id current_user) d 404)
  /\ (forall registration,
        find_registration d registration_id = Some registration ->
        (Registration.user_id registration <> Some (User.id current_user) ->
         refuses (cancel_registration env registration_id current_user) d 403)
        /\ (Registration.user_id registration = Some (User.id current_user) ->
            (Registration.status registration = RegistrationStatus.CANCELLED ->
             refuses (cancel_registration env registration_id current_user)
               d 400)
            /\ (forall event,
                  Registration.status registration
                  <> RegistrationStatus.CANCELLED ->
                  find_event d (Registration.event_id registration)
                  = Some event ->
                  (Event.start_date event - now env < 86400 ->
                   refuses (cancel_registration env registration_id
                              current_user) d 400)
                  /\ (forall payment_intent,
                        86400 <= Event.start_date event - now env ->
                        Registration.payment_status registration
                        = PaymentStatus.PAID ->
                        Registration.stripe_payment_intent_id registration
                        = Some payment_intent ->
                        truthy_str (Some payment_intent) = true ->
                        create_refund (gateway env) payment_intent = false ->
                        refuses (cancel_registration env registration_id
                                   current_user) d 500)))).
Proof.
  unfold refuses, run, cancel_registration, bind, query. cbn [working].
  split.
  - intros ->. eexists. reflexivity.
  - intros registration ->. split.
    + intros Hu.
      replace (option_eqb Z.eqb (Registration.user_id registration)
                 (Some (User.id current_user))) with false.
      * eexists. reflexivity.
      * symmetry. apply not_true_is_false. intros H. apply Hu.
        destruct (Registration.user_id registration) as [u|];
          [|discriminate]. simpl in H. apply Z.eqb_eq in H. now subst.
    + intros ->. cbn [option_eqb]. rewrite Z.eqb_refl. cbn [negb]. split.
      * intros ->. eexists. reflexivity.
      * intros event Hst ->. apply RegistrationStatus_eqb_neq in Hst.
        rewrite Hst. split.
        -- intros Hlate. apply Z.ltb_lt in Hlate. rewrite Hlate.
           eexists. reflexivity.
        -- intros payment_intent Hearly Hpaid Hpi Htruthy Hrefund.
           apply Z.ltb_ge in Hearly. rewrite Hearly, Hpaid, Hpi, Htruthy.
           cbn [PaymentStatus.eqb andb]. rewrite Hrefund.
           eexists. reflexivity.
Qed.

Lemma cancel_registration_is_guarded_witness :
  refuses (cancel_registration (Sample.env 950000) 1 Sample.alice)
          Sample.db_confirmed 400
  /\ refuses (cancel_registration (Sample.env 0) 1 Sample.bob)
             Sample.db_confirmed 403
  /\ refuses (cancel_registration (Sample.env_down 0) 1 Sample.alice)
             Sample.db_confirmed 500.
Proof.
  split; [|split].
  - destruct (cancel_registration_is_guarded (Sample.env 950000) 1
                Sample.alice Sample.db_confirmed) as [_ H].
    destruct (H Sample.ticket_holder eq_refl) as [_ Hown].
    destruct (Hown eq_refl) as [_ Hev].
    destruct (Hev Sample.concert) as [Hlate _];
      [discriminate | reflexivity |].
    apply Hlate. simpl. lia.
  - destruct (cancel_registration_is_guarded (Sample.env 0) 1
                Sample.bob Sample.db_confirmed) as [_ H].
    destruct (H Sample.ticket_holder eq_refl) as [Hother _].
    apply Hother. discriminate.
  - destruct (cancel_registration_is_guarded (Sample.env_down 0) 1
                Sample.alice Sample.db_confirmed) as [_ H].
    destruct (H Sample.ticket_holder eq_refl) as [_ Hown].
    destruct (Hown eq_refl) as [_ Hev].
    destruct (Hev Sample.concert) as [_ Hrefund];
      [discriminate | reflexivity |].
    apply (Hrefund "pi_1"); try reflexivity. simpl. lia.
Defined.

(** X20.  [cancel_registration] commits all or nothing, and only for the
    owner: when it raises, whatever the reason, the database is as before;
    it returns normally (also when the allocation pass that follows the
    commit fails) only for a registration of the caller that was not
    [CANCELLED], on an event that starts at least 24 hours later. *)
Theorem cancel_registration_is_atomic
    (env : Env) (registration_id : Z) (current_user : User.t) (d : Db) :
  match run (cancel_registration env registration_id current_user) d with
  | (d', Raise _) => d' = d
  | (d', Ok _) =>
    exists registration event,
      find_registration d registration_id = Some registration
      /\ Registration.user_id registration = Some (User.id current_user)
      /\ Registration.status registration <> RegistrationStatus.CANCELLED
      /\ find_event d (Registration.event_id registration) = Some event
      /\ 86400 <= Event.start_date event - now env
  end.
Proof.
  unfold run, cancel_registration. unfold bind at 1. unfold query at 1.
  cbn [working].
  destruct (find_registration d registration_id) as [registration|];
    [|reflexivity].
  destruct (option_eqb Z.eqb (Registration.user_id registration)
              (Some (User.id current_user))) eqn:Hu; cbn [negb];
    [|reflexivity].
  destruct (RegistrationStatus.eqb (Registration.status registration)
              RegistrationStatus.CANCELLED) eqn:Hst; [reflexivity|].
  destruct (find_event d (Registration.event_id registration))
    as [event|] eqn:Hev; [|reflexivity].
  destruct (Z.ltb_spec (Event.start_date event - now env) 86400) as [Hl|Hl];
    [reflexivity|].
  assert (Hok : exists registration0 event0,
            Some registration = Some registration0
            /\ Registration.user_id registration0 = Some (User.id current_user)
            /\ Registration.status registration0
               <> RegistrationStatus.CANCELLED
            /\ find_event d (Registration.event_id registration0)
               = Some event0
            /\ 86400 <= Event.start_date event0 - now env).
  { exists registration, event. split; [reflexivity|]. split.
    - destruct (Registration.user_id registration) as [u|]; [|discriminate].
      simpl in Hu. apply Z.eqb_eq in Hu. now subst.
    - split; [now apply RegistrationStatus_eqb_neq|]. now split. }
  destruct (PaymentStatus.eqb _ _ && truthy_str _);
    [destruct (match Registration.stripe_payment_intent_id registration with
               | Some pi => create_refund (gateway env) pi
               | None => false
               end); [|reflexivity]|];
    session; unfold try_pass;
    match goal with
    | |- context [allocate_waitlist_if_possible ?e ?i ?s] =>
      destruct (allocate_waitlist_if_possible e i s)
    end; exact Hok.
Qed.

(** A cancellation that passes the guards while nobody else waits for the
    event, as one write. *)
Lemma cancel_registration_run
    (env : Env) (current_user : User.t) (d : Db)
    (registration : Registration.t) (event : Event.t) :
  is_row d registration ->
  Registration.user_id registration = Some (User.id current_user) ->
  Registration.status registration <> RegistrationStatus.CANCELLED ->
  find_event d (Registration.event_id registration) = Some event ->
  86400 <= Event.start_date event - now env ->
  (forall payment_intent,
     Registration.stripe_payment_intent_id registration = Some payment_intent ->
     create_refund (gateway env) payment_intent = true) ->
  (forall r, In r (registrations d) ->
     on_waitlist (Registration.event_id registration) r = true ->
     Registration.id r = Registration.id registration) ->
  run (cancel_registration env (Registration.id registration) current_user) d
  = (release_ticket (Registration.ticket_id registration)
       (free_seat (Registration.event_id registration)
          (update_registration (Registration.id registration)
             (cancelled_as registration) d)),
     Ok tt).
Proof.
  intros Hrow Hu Hst Hev Hearly Hrefund Hnone.
  assert (Hid : Event.id event = Registration.event_id registration).
  { unfold find_event in Hev. apply find_some in Hev. now apply Z.eqb_eq. }
  set (g := cancelled_as registration).
  rewrite <- Hid.
  set (d1 := release_ticket (Registration.ticket_id registration)
               (free_seat (Event.id event)
                  (update_registration (Registration.id registration) g d))).
  assert (Hregs : registrations d1
                  = registrations
                      (update_registration (Registration.id registration) g d)).
  { unfold d1, release_ticket.
    destruct (truthy_id _); [destruct (Registration.ticket_id registration)|];
      reflexivity. }
  assert (Hnoop : run (allocate_waitlist_if_possible env (Event.id event)) d1
                  = (d1, Ok tt)).
  { apply allocate_waitlist_noop. intros ev0 _. right.
    apply filter_none. intros r Hr. rewrite Hregs in Hr.
    unfold update_registration, with_registrations, update_where in Hr.
    simpl in Hr. apply in_map_iff in Hr. destruct Hr as (r0 & <- & Hr0).
    rewrite Hid.
    destruct (Z.eqb_spec (Registration.id r0) (Registration.id registration))
      as [Heq|Hne].
    - unfold on_waitlist, g, cancelled_as.
      destruct (PaymentStatus.eqb _ _ && truthy_str _); simpl;
        apply andb_false_r.
    - apply not_true_is_false. intros Hw. now apply Hne, Hnone. }
  unfold run, cancel_registration. unfold bind at 1. unfold query at 1.
  cbn [working]. red in Hrow. rewrite Hrow, Hu. cbn [option_eqb].
  rewrite Z.eqb_refl. cbn [negb].
  apply RegistrationStatus_eqb_neq in Hst. rewrite Hst, Hev.
  apply Z.ltb_ge in Hearly. rewrite Hearly. unfold run in Hnoop.
  assert (Hg : (if PaymentStatus.eqb (Registration.payment_status registration)
                     PaymentStatus.PAID
                   && truthy_str
                        (Registration.stripe_payment_intent_id registration)
                then
                  if match Registration.stripe_payment_intent_id registration
                     with
                     | Some pi => create_refund (gateway env) pi
                     | None => false
                     end
                  then
                    write (update_registration (Registration.id registration)
                             (fun r => Registration.set_payment_status
                                         PaymentStatus.REFUNDED
                                         (Registration.set_status
                                            RegistrationStatus.REFUNDED r)))
                  else raise (HTTPException 500
                                "Erreur lors du remboursement Stripe")
                else
                  write (update_registration (Registration.id registration)
                           (Registration.set_status
                              RegistrationStatus.CANCELLED)))
               = write (update_registration (Registration.id registration) g)).
  { unfold g, cancelled_as.
    destruct (PaymentStatus.eqb _ _ && truthy_str _) eqn:Er; [|reflexivity].
    apply andb_true_iff in Er. destruct Er as [_ Er].
    destruct (Registration.stripe_payment_intent_id registration) as [pi|];
      [|discriminate]. now rewrite (Hrefund pi eq_refl). }
  rewrite Hg. session. fold d1. unfold try_pass.
  destruct (allocate_waitlist_if_possible env (Event.id event)
              (mkSession d1 d1)) as [s' r'].
  injection Hnoop as Hc _. now rewrite Hc.
Qed.

Lemma cancelled_as_id (registration r : Registration.t) :
  Registration.id (cancelled_as registration r) = Registration.id r.
Proof.
  unfold cancelled_as. now destruct (PaymentStatus.eqb _ _ && truthy_str _).
Qed.

Lemma registrations_release_ticket (tid : option Z) (d : Db) :
  registrations (release_ticket tid d) = registrations d
  /\ events (release_ticket tid d) = events d.
Proof.
  unfold release_ticket. destruct (truthy_id tid); [destruct tid|]; now split.
Qed.

(** X21.  A cancellation that passes the guards, when nobody else waits
    for the event: the registration becomes [REFUNDED] (payment [REFUNDED])
    if it was paid and the gateway made the refund, [CANCELLED] otherwise;
    the event gets one seat more, whatever the state the registration was
    in and whatever the capacity, as long as the new counter fits the
    32-bit column [available_seats], and the ticket one sale less, not
    below zero. *)
Theorem cancel_registration_releases_a_seat
    (env : Env) (current_user : User.t) (d : Db)
    (registration : Registration.t) (event : Event.t) :
  is_row d registration ->
  Registration.user_id registration = Some (User.id current_user) ->
  Registration.status registration <> RegistrationStatus.CANCELLED ->
  find_event d (Registration.event_id registration) = Some event ->
  86400 <= Event.start_date event - now env ->
  (forall payment_intent,
     Registration.stripe_payment_intent_id registration = Some payment_intent ->
     create_refund (gateway env) payment_intent = true) ->
  (forall r, In r (registrations d) ->
     on_waitlist (Registration.event_id registration) r = true ->
     Registration.id r = Registration.id registration) ->
  int4 (Event.available_seats event + 1) ->
  let refunded :=
    PaymentStatus.eqb (Registration.payment_status registration)
      PaymentStatus.PAID
    && truthy_str (Registration.stripe_payment_intent_id registration) in
  exists d' cancelled,
    run (cancel_registration env (Registration.id registration) current_user) d
    = (d', Ok tt)
    /\ find_registration d' (Registration.id registration) = Some cancelled
    /\ Registration.status cancelled
       = (if refunded then RegistrationStatus.REFUNDED
          else RegistrationStatus.CANCELLED)
    /\ Registration.payment_status cancelled
       = (if refunded then PaymentStatus.REFUNDED
          else Registration.payment_status registration)
    /\ find_event d' (Registration.event_id registration)
       = Some (Event.set_available_seats (Event.available_seats event + 1)
                 event)
    /\ tickets d'
       = tickets (release_ticket (Registration.ticket_id registration) d).
Proof.
  intros Hrow Hu Hst Hev Hearly Hrefund Hnone _ refunded.
  eexists _, (cancelled_as registration registration).
  split; [exact (cancel_registration_run env current_user d registration
                   event Hrow Hu Hst Hev Hearly Hrefund Hnone)|].
  set (d0 := free_seat (Registration.event_id registration)
               (update_registration (Registration.id registration)
                  (cancelled_as registration) d)).
  destruct (registrations_release_ticket
              (Registration.ticket_id registration) d0) as [Hregs Hevents].
  split.
  { unfold find_registration. rewrite Hregs.
    change (find_registration
              (update_registration (Registration.id registration)
                 (cancelled_as registration) d)
              (Registration.id registration)
            = Some (cancelled_as registration registration)).
    rewrite find_registration_update by apply cancelled_as_id.
    red in Hrow. now rewrite Hrow. }
  split; [unfold cancelled_as; fold refunded; now destruct refunded|].
  split; [unfold cancelled_as; fold refunded; now destruct refunded|].
  split.
  - unfold find_event. rewrite Hevents.
    change (find_event (free_seat (Registration.event_id registration) d)
              (Registration.event_id registration)
            = Some (Event.set_available_seats
                      (Event.available_seats event + 1) event)).
    unfold free_seat. rewrite find_event_update by reflexivity.
    now rewrite Hev.
  - unfold release_ticket.
    destruct (truthy_id _); [destruct (Registration.ticket_id registration)|];
      reflexivity.
Qed.

Lemma cancel_registration_releases_a_seat_witness :
  exists d' cancelled,
    run (cancel_registration (Sample.env 10) 1 Sample.alice) Sample.db_pending
    = (d', Ok tt)
    /\ find_registration d' 1 = Some cancelled
    /\ Registration.status cancelled = RegistrationStatus.CANCELLED
    /\ Registration.payment_status cancelled = PaymentStatus.PENDING
    /\ find_event d' 1 = Some (Event.set_available_seats 2 Sample.concert)
    /\ tickets d' = tickets (release_ticket (Some 10) Sample.db_pending).
Proof.
  apply (cancel_registration_releases_a_seat (Sample.env 10) Sample.alice
           Sample.db_pending Sample.pending_row Sample.concert).
  - reflexivity.
  - reflexivity.
  - discriminate.
  - reflexivity.
  - simpl. lia.
  - intros payment_intent H. discriminate H.
  - intros r [<-|[]] H. reflexivity.
  - split; discriminate.
Defined.

(** ** Commission rows *)

Lemma post_commission_one_each (guarded : bool) (rid : Z)
    (ev : option Event.t) (s : Session) :
  one_commission_each (working s) ->
  committed (fst (post_commission guarded rid ev s)) = committed s
  /\ one_commission_each (working (fst (post_commission guarded rid ev s))).
Proof.
  intros H. unfold post_commission, bind, query.
  destruct (find_registration (working s) rid) as [registration|];
    [|now split].
  destruct (hd_error (commission_settings (working s))) as [cs|];
    [|now split].
  destruct (CommissionSettings.is_active cs && _); [|now split].
  destruct ev as [ev|].
  - destruct (has_commission (working s) (Registration.id registration))
      eqn:Hc; [now split|].
    unfold write. cbn [fst committed working]. split; [reflexivity|].
    unfold one_commission_each, add_commission_transaction,
      with_commission_transactions. cbn [commission_transactions].
    rewrite map_app. cbn [map].
    eapply Permutation_NoDup; [apply Permutation_cons_append|].
    constructor; [|exact H].
    cbn [commission_transaction_for CommissionTransaction.registration_id].
    intros Hin. apply in_map_iff in Hin. destruct Hin as (c & Hid & Hin).
    unfold has_commission in Hc.
    destruct (find _ (commission_transactions (working s))) eqn:Hf;
      [discriminate|].
    apply (find_none _ _ Hf) in Hin. apply Z.eqb_neq in Hin. now apply Hin.
  - destruct guarded; [destruct (has_commission _ _)|]; now split.
Qed.

Lemma allocate_commission_frame (env : Env) (event_id : Z) (s : Session) :
  commission_transactions (working s) = commission_transactions (committed s) ->
  commission_transactions
    (committed (fst (allocate_waitlist_if_possible env event_id s)))
  = commission_transactions (committed s).
Proof.
  intros H. destruct s as [c w]. cbn [committed working] in *.
  destruct (allocate_waitlist_if_possible env event_id (mkSession c w))
    as [s' r] eqn:E.
  cbn [fst]. unfold allocate_waitlist_if_possible in E.
  unfold bind at 1 in E. unfold query at 1 in E. cbn [working] in E.
  destruct (find_event w event_id) as [event|];
    [|injection E as <- <-; reflexivity].
  destruct (Event.available_seats event <=? 0);
    [injection E as <- <-; reflexivity|].
  destruct (first_joined _) as [candidate|];
    [|injection E as <- <-; reflexivity].
  destruct (Event.is_free event).
  - session in E. injection E as <- <-. reflexivity.
  - session in E. unfold try_pass in E. unfold bind at 1 in E.
    unfold query at 1 in E. cbn [working] in E.
    match type of E with
    | context [create_checkout_session ?g ?a ?b ?c] =>
      destruct (create_checkout_session g a b c) as [session|]
    end; session in E; injection E as <- <-; cbn [committed]; exact H.
Qed.

Lemma confirm_payment_one_each (B : string) (env : Env) (sid : string)
    (d : Db) :
  one_commission_each d ->
  one_commission_each (fst (run (confirm_payment B env sid) d)).
Proof.
  intros H.
  destruct (run (confirm_payment B env sid) d) as [d' res] eqn:E.
  cbn [fst]. unfold run, confirm_payment in E.
  destruct (retrieve (gateway env) sid) as [session|];
    [|injection E as <- <-; exact H].
  destruct (negb _); [injection E as <- <-; exact H|].
  destruct (CheckoutSession.client_reference_id session) as [rid|];
    [|injection E as <- <-; exact H].
  unfold bind at 1 in E. unfold query at 1 in E. cbn [working] in E.
  destruct (find_registration d rid) as [registration|];
    [|injection E as <- <-; exact H].
  destruct (RegistrationStatus.eqb _ _); [injection E as <- <-; exact H|].
  do 4 (unfold bind at 1 in E; unfold write at 1 in E;
        cbn [working committed] in E).
  unfold bind at 1 in E.
  match type of E with
  | context [post_commission true rid ?ev (mkSession d ?w)] =>
    set (event := ev) in E; set (d4 := w) in E
  end.
  assert (H4 : one_commission_each d4).
  { unfold d4, sell_ticket.
    destruct (truthy_id _); [destruct (Registration.ticket_id registration)|];
      exact H. }
  destruct (post_commission_one_each true rid event (mkSession d d4) H4)
    as [Hc Hw].
  destruct (post_commission true rid event (mkSession d d4)) as [s5 [[]|e]].
  - cbn [fst committed working] in Hc, Hw.
    unfold bind at 1 in E. unfold commit at 1 in E.
    cbn [working committed] in E. unfold bind at 1 in E.
    unfold send_confirmation in E.
    destruct event; [destruct (email_ok env)|]; session in E;
      injection E as <- <-; exact Hw.
  - cbn [fst committed] in Hc. injection E as <- <-. now rewrite Hc.
Qed.

Lemma stripe_webhook_one_each (env : Env) (request : WebhookRequest)
    (d : Db) :
  one_commission_each d ->
  one_commission_each (fst (run (stripe_webhook env request) d)).
Proof.
  intros H.
  destruct (run (stripe_webhook env request) d) as [d' res] eqn:E.
  cbn [fst]. unfold run, stripe_webhook in E.
  destruct (truthy_str (stripe_signature request)); cbn [negb] in E;
    [|injection E as <- <-; exact H].
  destruct (verify_webhook_signature request)
    as [[session|session|payment_intent|event_type]|];
    try (injection E as <- <-; exact H).
  - unfold webhook_completed in E.
    destruct (CheckoutSession.client_reference_id session) as [rid|];
      [|injection E as <- <-; exact H].
    unfold bind at 1 in E. unfold query at 1 in E. cbn [working] in E.
    destruct (find_registration d rid) as [registration|];
      [|injection E as <- <-; exact H].
    destruct (RegistrationStatus.eqb _ _); [injection E as <- <-; exact H|].
    unfold bind at 1 in E; unfold write at 1 in E;
      cbn [working committed] in E.
    destruct (negb (truthy_str (Registration.qr_code_data registration)));
      [injection E as <- <-; exact H|].
    unfold bind at 1 in E. unfold ret at 1 in E.
    do 2 (unfold bind at 1 in E; unfold write at 1 in E;
          cbn [working committed] in E).
    unfold bind at 1 in E.
    match type of E with
    | context [post_commission false rid ?ev (mkSession d ?w)] =>
      set (event := ev) in E; set (d4 := w) in E
    end.
    assert (H4 : one_commission_each d4).
    { unfold d4, sell_ticket.
      destruct (truthy_id _);
        [destruct (Registration.ticket_id registration)|]; exact H. }
    destruct (post_commission_one_each false rid event (mkSession d d4) H4)
      as [Hc Hw].
    destruct (post_commission false rid event (mkSession d d4))
      as [s5 [[]|e]].
    + cbn [fst committed working] in Hc, Hw.
      unfold bind at 1 in E. unfold commit at 1 in E.
      cbn [working committed] in E. unfold bind at 1 in E.
      unfold send_confirmation in E.
      destruct event; [destruct (email_ok env)|]; session in E;
        injection E as <- <-; exact Hw.
    + cbn [fst committed] in Hc. injection E as <- <-. now rewrite Hc.
  - unfold webhook_expired in E.
    destruct (CheckoutSession.client_reference_id session) as [rid|];
      [|injection E as <- <-; exact H].
    unfold bind at 1 in E. unfold query at 1 in E. cbn [working] in E.
    destruct (find_registration d rid); session in E;
      injection E as <- <-; exact H.
  - unfold webhook_refunded in E.
    destruct (truthy_str payment_intent); [|injection E as <- <-; exact H].
    unfold bind at 1 in E. unfold query at 1 in E. cbn [working] in E.
    destruct (find _ (registrations d)) as [registration|];
      [|injection E as <- <-; exact H].
    unfold bind at 1 in E; unfold write at 1 in E;
      cbn [working committed] in E.
    destruct (find_event d (Registration.event_id registration));
      [destruct (negb _)|]; session in E;
      try (injection E as <- <-; exact H).
    unfold bind at 1 in E. unfold try_pass in E.
    match type of E with
    | context [allocate_waitlist_if_possible ?e ?i ?s] =>
      pose proof (allocate_commission_frame e i s eq_refl) as Hframe;
      destruct (allocate_waitlist_if_possible e i s) as [s' r']
    end.
    cbn [fst committed] in Hframe. unfold ret in E. injection E as <- <-.
    unfold one_commission_each. rewrite Hframe.
    unfold release_ticket.
    destruct (truthy_id _); [destruct (Registration.ticket_id registration)|];
      exact H.
Qed.

(** X22.  No registration is charged commission twice: if every
    registration has at most one commission row, that is still so after
    any call of [confirm_payment] and after any callback handled by
    [stripe_webhook], whatever they are called with and however often. *)
Theorem no_registration_is_charged_twice
    (B : string) (env : Env) (sid : string) (request : WebhookRequest)
    (d : Db) :
  one_commission_each d ->
  one_commission_each (fst (run (confirm_payment B env sid) d))
  /\ one_commission_each (fst (run (stripe_webhook env request) d)).
Proof.
  intros H. split;
    [now apply confirm_payment_one_each | now apply stripe_webhook_one_each].
Qed.

Lemma no_registration_is_charged_twice_witness :
  let d1 :=
    fst (run (confirm_payment Sample.BACKEND_URL (Sample.env 60) "cs_1")
             Sample.db_pending) in
  one_commission_each
    (fst (run (confirm_payment Sample.BACKEND_URL (Sample.env 61) "cs_1") d1))
  /\ one_commission_each
       (fst (run (stripe_webhook (Sample.env 61) Sample.completed) d1)).
Proof.
  apply no_registration_is_charged_twice.
  apply (no_registration_is_charged_twice Sample.BACKEND_URL (Sample.env 60)
           "cs_1" Sample.completed Sample.db_pending).
  constructor.
Defined.

(** ** The confirmed registration *)

(** The mail step of a confirmation, as a write on the row. *)
Lemma confirm_payment_row (B : string) (env : Env) (sid : string) (d : Db)
    (session : CheckoutSession.t) (registration : Registration.t)
    (event : Event.t) :
  retrieve (gateway env) sid = Some session ->
  CheckoutSession.payment_status session = "paid" ->
  CheckoutSession.client_reference_id session
  = Some (Registration.id registration) ->
  is_row d registration ->
  Registration.status registration <> RegistrationStatus.CONFIRMED ->
  find_event d (Registration.event_id registration) = Some event ->
  exists (d' : Db) (response : ConfirmPaymentResponse),
    run (confirm_payment B env sid) d = (d', Ok response)
    /\ find_registration d' (Registration.id registration)
       = Some (if email_ok env
               then Registration.set_email_sent_at (Some (now env))
                      (Registration.set_email_sent true
                         (confirmed_row B env session registration))
               else confirmed_row B env session registration)
    /\ cp_qr_code_url response
       = Registration.qr_code_url (confirmed_row B env session registration)
    /\ cp_email_sent response = Some (email_ok env).
Proof.
  intros Hget Hpaid Href Hrow Hst Hev.
  apply RegistrationStatus_eqb_neq in Hst.
  unfold run, confirm_payment. rewrite Hget, Hpaid, Href.
  rewrite String.eqb_refl. cbn [negb].
  unfold bind at 1. unfold query at 1. cbn [working].
  red in Hrow. rewrite Hrow, Hst, Hev.
  set (rid := Registration.id registration).
  do 4 (unfold bind at 1; unfold write at 1; cbn [working committed]).
  set (d4 := sell_ticket _ _).
  assert (Hr4 : find_registration d4 rid
                = Some (confirmed_row B env session registration)).
  { unfold d4.
    destruct (sell_ticket_frame (Registration.ticket_id registration)
                (take_seat true (Registration.event_id registration)
                   (update_registration rid (with_qr_code B env registration)
                      (update_registration rid (mark_paid session) d))))
      as (_ & _ & _ & Hregs & _).
    unfold find_registration at 1. rewrite Hregs.
    change (find_registration
              (update_registration rid (with_qr_code B env registration)
                 (update_registration rid (mark_paid session) d)) rid
            = Some (confirmed_row B env session registration)).
    rewrite !find_registration_update
      by (intros; first [apply with_qr_code_id | apply mark_paid_id]).
    unfold rid. now rewrite Hrow. }
  destruct (post_commission_run true rid event (mkSession d d4) _ Hr4)
    as (w' & Hpost & Hsame & _).
  unfold bind at 1. rewrite Hpost. cbn [working committed] in *.
  destruct Hsame as (_ & _ & _ & _ & Hrg & _).
  assert (Hr' : find_registration w' rid
                = Some (confirmed_row B env session registration)).
  { unfold find_registration. rewrite Hrg. exact Hr4. }
  unfold bind at 1. unfold commit at 1. cbn [working committed].
  unfold bind at 1. unfold send_confirmation.
  destruct (email_ok env); session.
  - eexists _, _. split; [reflexivity|].
    cbn [cp_qr_code_url cp_email_sent].
    rewrite find_registration_update by reflexivity. rewrite Hr'.
    now repeat split.
  - eexists _, _. split; [reflexivity|].
    cbn [cp_qr_code_url cp_email_sent]. rewrite Hr'. now repeat split.
Qed.

(** X23.  What a confirmation through [confirm_payment] leaves on the
    registration besides its status: a QR token that was already there is
    kept with its link, otherwise the generated token and its link under
    [BACKEND_URL] are stored; the link is the one returned to the client;
    [email_sent] is raised exactly when the mail went out; the Checkout
    session is recorded; the amount and the scan counter are as before. *)
Theorem confirmation_keeps_an_existing_token
    (B : string) (env : Env) (sid : string) (d : Db)
    (session : CheckoutSession.t) (registration : Registration.t)
    (event : Event.t) :
  retrieve (gateway env) sid = Some session ->
  CheckoutSession.payment_status session = "paid" ->
  CheckoutSession.client_reference_id session
  = Some (Registration.id registration) ->
  is_row d registration ->
  Registration.status registration <> RegistrationStatus.CONFIRMED ->
  find_event d (Registration.event_id registration) = Some event ->
  exists (d' : Db) (response : ConfirmPaymentResponse) (r' : Registration.t),
    run (confirm_payment B env sid) d = (d', Ok response)
    /\ find_registration d' (Registration.id registration) = Some r'
    /\ Registration.qr_code_data r'
       = (if truthy_str (Registration.qr_code_data registration)
          then Registration.qr_code_data registration
          else Some (fst (qr_code env)))
    /\ Registration.qr_code_url r'
       = (if truthy_str (Registration.qr_code_data registration)
          then Registration.qr_code_url registration
          else Some (backend_url B (snd (qr_code env))))
    /\ cp_qr_code_url response = Registration.qr_code_url r'
    /\ Registration.email_sent r'
       = (email_ok env || Registration.email_sent registration)
    /\ cp_email_sent response = Some (email_ok env)
    /\ Registration.stripe_session_id r' = Some (CheckoutSession.id session)
    /\ Registration.amount_paid r' = Registration.amount_paid registration
    /\ Registration.scanned_count r' = Registration.scanned_count registration.
Proof.
  intros Hget Hpaid Href Hrow Hst Hev.
  destruct (confirm_payment_row B env sid d session registration event
              Hget Hpaid Href Hrow Hst Hev)
    as (d' & response & Hrun & Hr' & Hurl & Hmail).
  eexists d', response, _. split; [exact Hrun|]. split; [exact Hr'|].
  rewrite Hurl, Hmail. unfold confirmed_row, with_qr_code, mark_paid.
  destruct (email_ok env),
    (truthy_str (Registration.qr_code_data registration)),
    (truthy_str (CheckoutSession.payment_intent session));
    cbn; repeat split.
Qed.

Lemma confirmation_keeps_an_existing_token_witness :
  exists (d' : Db) (response : ConfirmPaymentResponse) (r' : Registration.t),
    run (confirm_payment Sample.BACKEND_URL (Sample.env_qr 60 "77c1") "cs_1")
        Sample.db_cancelled = (d', Ok response)
    /\ find_registration d' 1 = Some r'
    /\ Registration.qr_code_data r' = Some "3f2a"
    /\ Registration.qr_code_url r'
       = Some "http://localhost:8000/uploads/qrcodes/3f2a.png"
    /\ cp_qr_code_url response = Registration.qr_code_url r'
    /\ Registration.email_sent r' = false
    /\ cp_email_sent response = Some false
    /\ Registration.stripe_session_id r' = Some "cs_1"
    /\ Registration.amount_paid r' = 50%float
    /\ Registration.scanned_count r' = 0.
Proof.
  apply (confirmation_keeps_an_existing_token Sample.BACKEND_URL
           (Sample.env_qr 60 "77c1") "cs_1" Sample.db_cancelled
           Sample.paid_session Sample.cancelled_row Sample.concert);
    try reflexivity.
  discriminate.
Defined.

(** X24.  [confirm_payment] does not look at the seat counter: a paid
    session is confirmed also when the event shows no seat left, and the
    counter is then written as 0, never below.  The commit goes through
    when the registration already has a QR token or the generated one is
    held by no registration ([qr_code_data] is [UNIQUE]), and the sale
    added to the ticket fits the column [quantity_sold]. *)
Theorem confirmation_on_a_full_event
    (B : string) (env : Env) (sid : string) (d : Db)
    (session : CheckoutSession.t) (registration : Registration.t)
    (event : Event.t) :
  retrieve (gateway env) sid = Some session ->
  CheckoutSession.payment_status session = "paid" ->
  CheckoutSession.client_reference_id session
  = Some (Registration.id registration) ->
  is_row d registration ->
  Registration.status registration <> RegistrationStatus.CONFIRMED ->
  find_event d (Registration.event_id registration) = Some event ->
  Event.available_seats event <= 0 ->
  truthy_str (Registration.qr_code_data registration) = true
  \/ fresh_token env d ->
  sale_fits d registration ->
  exists (d' : Db) (response : ConfirmPaymentResponse) (r' : Registration.t),
    run (confirm_payment B env sid) d = (d', Ok response)
    /\ success response = true
    /\ find_registration d' (Registration.id registration) = Some r'
    /\ Registration.status r' = RegistrationStatus.CONFIRMED
    /\ find_event d' (Registration.event_id registration)
       = Some (Event.set_available_seats 0 event).
Proof.
  intros Hget Hpaid Href Hrow Hst Hev Hfull _ _.
  destruct (confirm_payment_confirms B env sid d session registration event
              Hget Hpaid Href Hrow Hst Hev)
    as (d' & response & r' & Hrun & Hok & Hevents & _ & _ & Hr' & Hs & _).
  exists d', response, r'. repeat split; try assumption.
  unfold find_event. rewrite Hevents.
  change (find_event (take_seat true (Registration.event_id registration) d)
            (Registration.event_id registration)
          = Some (Event.set_available_seats 0 event)).
  unfold take_seat. rewrite find_event_update by reflexivity.
  rewrite Hev. cbn [option_map]. do 2 f_equal. lia.
Qed.

Lemma confirmation_on_a_full_event_witness :
  exists (d' : Db) (response : ConfirmPaymentResponse) (r' : Registration.t),
    run (confirm_payment Sample.BACKEND_URL (Sample.env_qr 60 "77c1") "cs_2")
        Sample.db_full_pending = (d', Ok response)
    /\ success response = true
    /\ find_registration d' 2 = Some r'
    /\ Registration.status r' = RegistrationStatus.CONFIRMED
    /\ find_event d' 1
       = Some (Event.set_available_seats 0
                 (Event.set_available_seats 0 Sample.concert)).
Proof.
  apply (confirmation_on_a_full_event Sample.BACKEND_URL
           (Sample.env_qr 60 "77c1")
           "cs_2" Sample.db_full_pending Sample.paid_session_2
           Sample.bob_pending_row
           (Event.set_available_seats 0 Sample.concert));
    try reflexivity.
  - discriminate.
  - right. intros r [<-|[<-|[]]]; discriminate.
  - intros k [<-|[]] _. split; discriminate.
Defined.

(** X25.  A confirmation posts no commission when there are no commission
    settings, when they are switched off, when the amount paid is not
    positive, or when the registration already has a commission row. *)
Theorem confirmation_without_commission
    (B : string) (env : Env) (sid : string) (d : Db)
    (session : CheckoutSession.t) (registration : Registration.t)
    (event : Event.t) :
  retrieve (gateway env) sid = Some session ->
  CheckoutSession.payment_status session = "paid" ->
  CheckoutSession.client_reference_id session
  = Some (Registration.id registration) ->
  is_row d registration ->
  Registration.status registration <> RegistrationStatus.CONFIRMED ->
  find_event d (Registration.event_id registration) = Some event ->
  commission_settings d = []
  \/ (exists cs rest, commission_settings d = cs :: rest
                      /\ CommissionSettings.is_active cs = false)
  \/ (0 <? Registration.amount_paid registration)%float = false
  \/ has_commission d (Registration.id registration) = true ->
  commission_transactions (fst (run (confirm_payment B env sid) d))
  = commission_transactions d.
Proof.
  intros Hget Hpaid Href Hrow Hst Hev Hno.
  destruct (confirm_payment_confirms B env sid d session registration event
              Hget Hpaid Href Hrow Hst Hev)
    as (d' & response & r' & Hrun & _ & _ & _ & Hcomm & _).
  rewrite Hrun. cbn [fst]. rewrite Hcomm.
  destruct (confirmed_row_facts B env session registration)
    as (Hid & _ & _ & Hamount & _).
  unfold commission_due. rewrite Hid, Hamount.
  destruct Hno as [H|[(cs & rest & H & Hoff)|[H|H]]].
  - rewrite H. cbn. apply app_nil_r.
  - rewrite H. cbn [hd_error]. rewrite Hoff. cbn. apply app_nil_r.
  - destruct (hd_error (commission_settings d)); [|apply app_nil_r].
    rewrite H, andb_false_r. apply app_nil_r.
  - rewrite H. destruct (hd_error (commission_settings d));
      [|apply app_nil_r].
    cbn [negb]. rewrite andb_false_r. apply app_nil_r.
Qed.

Lemma confirmation_without_commission_witness :
  commission_transactions
    (fst (run (confirm_payment Sample.BACKEND_URL (Sample.env 60) "cs_1")
              Sample.db_no_commission))
  = [].
Proof.
  apply (confirmation_without_commission Sample.BACKEND_URL (Sample.env 60)
           "cs_1" Sample.db_no_commission Sample.paid_session
           Sample.pending_row Sample.concert); try reflexivity.
  - discriminate.
  - now left.
Defined.

(** ** The list of my registrations *)

Lemma dict_get_set_same {V} (k : Z) (v : V) (m : list (Z * V)) :
  dict_get k (dict_set k v m) = Some v.
Proof.
  induction m as [|[k' v'] m IH]; simpl.
  - now rewrite Z.eqb_refl.
  - destruct (k' =? k) eqn:E; simpl; now rewrite E.
Qed.

Lemma dict_get_set_other {V} (k j : Z) (v : V) (m : list (Z * V)) :
  j <> k -> dict_get j (dict_set k v m) = dict_get j m.
Proof.
  intros Hne. induction m as [|[k' v'] m IH]; simpl.
  - destruct (Z.eqb_spec k j); [congruence | reflexivity].
  - destruct (Z.eqb_spec k' k) as [->|Hk]; simpl.
    + destruct (Z.eqb_spec k j); [congruence | reflexivity].
    + now rewrite IH.
Qed.

Lemma dict_get_in {V} (k : Z) (v : V) (m : list (Z * V)) :
  dict_get k m = Some v -> In (k, v) m.
Proof.
  induction m as [|[k' v'] m IH]; simpl; [discriminate|].
  destruct (Z.eqb_spec k' k) as [->|Hk].
  - intros H; injection H as ->. now left.
  - intros H. right. now apply IH.
Qed.

Lemma dict_get_none {V} (k : Z) (m : list (Z * V)) :
  dict_get k m = None -> ~ In k (map fst m).
Proof.
  induction m as [|[k' v'] m IH]; simpl; [tauto|].
  destruct (Z.eqb_spec k' k) as [->|Hk]; [discriminate|].
  intros H [Heq|Hin]; [congruence | now apply IH].
Qed.

Lemma dict_set_present {V} (k : Z) (v v0 : V) (m : list (Z * V)) :
  dict_get k m = Some v0 -> map fst (dict_set k v m) = map fst m.
Proof.
  induction m as [|[k' v'] m IH]; simpl; [discriminate|].
  destruct (Z.eqb_spec k' k) as [->|Hk]; simpl; [reflexivity|].
  intros H. now rewrite IH.
Qed.

Lemma dict_set_absent {V} (k : Z) (v : V) (m : list (Z * V)) :
  dict_get k m = None -> dict_set k v m = m ++ [(k, v)].
Proof.
  induction m as [|[k' v'] m IH]; simpl; [reflexivity|].
  destruct (Z.eqb_spec k' k) as [->|Hk]; [discriminate|].
  intros H. now rewrite IH.
Qed.

Lemma dict_set_in {V} (k j : Z) (v w : V) (m : list (Z * V)) :
  In (j, w) (dict_set k v m) -> (j = k /\ w = v) \/ In (j, w) m.
Proof.
  induction m as [|[k' v'] m IH]; simpl.
  - intros [H|[]]. injection H as <- <-. now left.
  - destruct (Z.eqb_spec k' k) as [->|Hk]; simpl.
    + intros [H|H]; [injection H as <- <-; now left | right; now right].
    + intros [H|H]; [right; now left|].
      destruct (IH H) as [Hl|Hr]; [now left | right; now right].
Qed.

Lemma best_so_far_ext (d : Db) (seen seen' : Registration.t -> Prop)
    (m : list (Z * RegistrationResponse)) :
  (forall r, seen r <-> seen' r) ->
  best_so_far d seen m -> best_so_far d seen' m.
Proof.
  intros Hext (Ha & Hb & Hc). split; [exact Ha|]. split.
  - intros k v Hin. destruct (Hb k v Hin) as (r & Hr & Hv).
    exists r. split; [now apply Hext | exact Hv].
  - intros r Hr. apply Hc. now apply Hext.
Qed.

Lemma keep_best_step (d : Db) (seen : Registration.t -> Prop)
    (m : list (Z * RegistrationResponse)) (x : Registration.t) :
  best_so_far d seen m ->
  (forall r, seen r ->
     Registration.created_at x <= Registration.created_at r) ->
  best_so_far d (fun r => seen r \/ r = x) (keep_best d m x).
Proof.
  intros (Ha & Hb & Hc) Hlate.
  assert (Hreplace :
            (forall r v, seen r ->
               Registration.event_id r = Registration.event_id x ->
               dict_get (Registration.event_id x) m = Some v ->
               _prio v < _prio (reg_dict d x)) ->
            best_so_far d (fun r => seen r \/ r = x)
              (dict_set (Registration.event_id x) (reg_dict d x) m)).
  { intros Hlower. split; [|split].
    - destruct (dict_get (Registration.event_id x) m) as [v0|] eqn:Hg.
      + now rewrite (dict_set_present _ _ v0 _ Hg).
      + rewrite (dict_set_absent _ _ _ Hg), map_app. cbn [map fst].
        eapply Permutation_NoDup; [apply Permutation_cons_append|].
        constructor; [now apply dict_get_none | exact Ha].
    - intros k v Hin. apply dict_set_in in Hin.
      destruct Hin as [[-> ->]|Hin].
      + exists x. split; [now right | now split].
      + destruct (Hb k v Hin) as (r & Hr & Hv). exists r.
        split; [now left | exact Hv].
    - intros r [Hr| ->].
      + destruct (Z.eq_dec (Registration.event_id r) (Registration.event_id x))
          as [Heq|Hne].
        * rewrite Heq, dict_get_set_same. exists (reg_dict d x).
          split; [reflexivity|].
          destruct (Hc r Hr) as (v & Hg & Hle & _). rewrite Heq in Hg.
          pose proof (Hlower r v Hr Heq Hg). split; lia.
        * rewrite dict_get_set_other by exact Hne. now apply Hc.
      + rewrite dict_get_set_same. exists (reg_dict d x).
        split; [reflexivity|]. split; [lia|]. intros _. cbn [reg_dict row]. lia. }
  unfold keep_best. cbv zeta.
  destruct (dict_get (Registration.event_id x) m) as [existing|] eqn:Hg.
  - destruct (Z.ltb_spec (_prio existing) (_prio (reg_dict d x))) as [Hlt|Hge].
    + apply Hreplace. intros r v _ _ Hv. injection Hv as <-. exact Hlt.
    + split; [exact Ha|]. split.
      * intros k v Hin. destruct (Hb k v Hin) as (r & Hr & Hv). exists r.
        split; [now left | exact Hv].
      * intros r [Hr| ->]; [now apply Hc|].
        exists existing. split; [exact Hg|]. split; [exact Hge|].
        intros _. apply dict_get_in in Hg.
        destruct (Hb _ _ Hg) as (r0 & Hr0 & -> & _). cbn [reg_dict row].
        now apply Hlate.
  - apply Hreplace. intros r v Hr Heq Hv. discriminate Hv.
Qed.

Lemma keep_best_fold (d : Db) (l : list Registration.t)
    (seen : Registration.t -> Prop) (m : list (Z * RegistrationResponse)) :
  best_so_far d seen m ->
  StronglySorted (fun a b => is_true (RecentFirst.leb a b)) l ->
  (forall p x, seen p -> In x l ->
     Registration.created_at x <= Registration.created_at p) ->
  best_so_far d (fun r => seen r \/ In r l) (fold_left (keep_best d) l m).
Proof.
  revert seen m. induction l as [|x l IH]; intros seen m Hinv Hsorted Hlate.
  - simpl. apply (best_so_far_ext d seen); [|exact Hinv].
    intros r. simpl. tauto.
  - simpl. apply StronglySorted_inv in Hsorted.
    destruct Hsorted as [Hsorted Hall].
    apply (best_so_far_ext d (fun r => (seen r \/ r = x) \/ In r l)).
    { intros r. simpl. intuition congruence. }
    apply IH.
    + apply keep_best_step; [exact Hinv|].
      intros r Hr. apply Hlate; [exact Hr | now left].
    + exact Hsorted.
    + intros p y [Hp| ->] Hy.
      * apply Hlate; [exact Hp | now right].
      * rewrite Forall_forall in Hall. specialize (Hall y Hy).
        unfold RecentFirst.leb, is_true in Hall. now apply Z.leb_le.
Qed.

Lemma get_my_registrations_best (current_user : User.t) (d : Db) :
  exists m,
    get_my_registrations current_user d = map snd m
    /\ best_so_far d (my_active current_user d) m.
Proof.
  unfold get_my_registrations. cbv zeta. eexists. split; [reflexivity|].
  apply (best_so_far_ext d
           (fun r => False
                     \/ In r (RecentSort.sort
                                (filter (is_mine current_user)
                                   (registrations d))))).
  - intros r. unfold my_active. rewrite <- filter_In. split.
    + intros [[]|H]. eapply Permutation_in; [|exact H].
      apply Permutation_sym, RecentSort.Permuted_sort.
    + intros H. right. eapply Permutation_in; [|exact H].
      apply RecentSort.Permuted_sort.
  - apply keep_best_fold.
    + split; [constructor|]. split; [intros k v []|intros r []].
    + apply RecentSort.StronglySorted_sort.
      intros a b c. unfold RecentFirst.leb, is_true. rewrite !Z.leb_le. lia.
    + intros p x [].
Qed.

(** X26.  [get_my_registrations] answers with one entry for each event
    for which the user holds a registration that is neither [CANCELLED]
    nor [REFUNDED], and with nothing else: no event appears twice, every
    entry is such a registration of the user with its event and ticket,
    and every such event has its entry. *)
Theorem my_registrations_list_each_event_once
    (current_user : User.t) (d : Db) :
  let result := get_my_registrations current_user d in
  NoDup (map (fun x => Registration.event_id (row x)) result)
  /\ (forall x, In x result ->
        my_active current_user d (row x) /\ x = reg_dict d (row x))
  /\ (forall r, my_active current_user d r ->
        exists x, In x result
                  /\ Registration.event_id (row x) = Registration.event_id r).
Proof.
  cbv zeta. destruct (get_my_registrations_best current_user d)
    as (m & -> & Ha & Hb & Hc).
  split; [|split].
  - rewrite map_map.
    replace (map (fun x => Registration.event_id (row (snd x))) m)
      with (map fst m); [exact Ha|].
    apply map_ext_in. intros [k v] Hin.
    destruct (Hb k v Hin) as (r & _ & -> & <-). reflexivity.
  - intros x Hin. apply in_map_iff in Hin. destruct Hin as ([k v] & <- & Hin).
    destruct (Hb k v Hin) as (r & Hr & -> & _). cbn [snd reg_dict row].
    now split.
  - intros r Hr. destruct (Hc r Hr) as (v & Hg & _).
    apply dict_get_in in Hg. exists v. split.
    + apply in_map_iff. now exists (Registration.event_id r, v).
    + destruct (Hb _ _ Hg) as (r0 & _ & -> & Heq). exact Heq.
Qed.

(** X27.  The entry that [get_my_registrations] shows for an event is the
    best of the user's registrations for it: none of them has a higher
    priority ([CONFIRMED] over [PENDING] and [OFFERED], these over
    [WAITLIST]), and none with the same priority is more recent. *)
Theorem my_registrations_show_the_best_one
    (current_user : User.t) (d : Db) (x : RegistrationResponse)
    (r : Registration.t) :
  In x (get_my_registrations current_user d) ->
  my_active current_user d r ->
  Registration.event_id r = Registration.event_id (row x) ->
  _prio (reg_dict d r) <= _prio x
  /\ (_prio (reg_dict d r) = _prio x ->
      Registration.created_at r <= Registration.created_at (row x)).
Proof.
  destruct (get_my_registrations_best current_user d)
    as (m & -> & Ha & Hb & Hc).
  intros Hin Hr Hev. apply in_map_iff in Hin.
  destruct Hin as ([k v] & <- & Hin). cbn [snd] in *.
  destruct (Hc r Hr) as (v' & Hg & Hle & Hrecent).
  apply dict_get_in in Hg.
  assert (Hk : k = Registration.event_id r).
  { destruct (Hb k v Hin) as (r0 & _ & -> & <-). now rewrite Hev. }
  subst k.
  assert (Hsame : v' = v).
  { clear - Ha Hg Hin. induction m as [|[k0 v0] m IH]; [destruct Hin|].
    simpl in Ha. inversion Ha as [|? ? Hnot Hnd]; subst.
    destruct Hg as [Hg|Hg], Hin as [Hin|Hin].
    - congruence.
    - injection Hg as -> ->. exfalso. apply Hnot.
      apply in_map_iff. now exists (Registration.event_id r, v).
    - injection Hin as -> ->. exfalso. apply Hnot.
      apply in_map_iff. now exists (Registration.event_id r, v').
    - now apply IH. }
  subst v'. now split.
Qed.

Lemma my_registrations_show_the_best_one_witness :
  _prio (reg_dict Sample.db_two_requests Sample.pending_row)
  <= _prio (reg_dict Sample.db_two_requests Sample.ticket_holder_2)
  /\ (_prio (reg_dict Sample.db_two_requests Sample.pending_row)
      = _prio (reg_dict Sample.db_two_requests Sample.ticket_holder_2) ->
      Registration.created_at Sample.pending_row
      <= Registration.created_at
           (row (reg_dict Sample.db_two_requests Sample.ticket_holder_2))).
Proof.
  apply (my_registrations_show_the_best_one Sample.alice
           Sample.db_two_requests).
  - vm_compute. now left.
  - split; [simpl; now left | reflexivity].
  - reflexivity.
Defined.

(** ** Notifications *)

Lemma find_app_none {A} (p : A -> bool) (l l' : list A) :
  find p l = None -> find p (l ++ l') = find p l'.
Proof.
  induction l as [|x l IH]; simpl; [reflexivity|].
  destruct (p x); [discriminate | exact IH].
Qed.

Lemma same_reference_spec (user_id : Z) (notification_type : string)
    (reference_id : option Z) (n : Notification.t) :
  same_reference user_id notification_type reference_id n = true
  <-> notification_ref n = (user_id, notification_type, reference_id).
Proof.
  unfold same_reference, notification_ref.
  rewrite !andb_true_iff, Z.eqb_eq, String.eqb_eq.
  destruct (Notification.reference_id n) as [a|], reference_id as [b|];
    simpl; try rewrite Z.eqb_eq; split;
    try (intros [[-> ->] H]; congruence);
    try (intros H; injection H as -> -> ->; auto);
    try (intros H; discriminate H); try (intros [_ H]; discriminate H).
  intros H; injection H as -> ->. auto.
Qed.

(** X28.  [_create_inapp_notification_if_missing] keeps one notification
    for each user, type and reference: after the call a notification with
    that reference exists; a call for a reference that has one already,
    whatever its title, body and data, changes nothing, so calling twice is
    as calling once; and if no reference was notified twice before the
    call, none is after it (the unique constraint [uq_notification_ref]
    cannot be violated, also for a [NULL] reference). *)
Theorem one_notification_for_each_reference
    (now now' : time) (user_id : Z)
    (notification_type title body title' body' : string)
    (reference_id : option Z) (data data' : option string) (b : Inbox) :
  let b1 :=
    _create_inapp_notification_if_missing now user_id notification_type
      title body reference_id data b in
  (exists n, In n (notifications b1)
             /\ notification_ref n = (user_id, notification_type, reference_id))
  /\ _create_inapp_notification_if_missing now' user_id notification_type
       title' body' reference_id data' b1 = b1
  /\ (uq_notification_ref b -> uq_notification_ref b1)
  /\ notification_preferences b1 = notification_preferences b.
Proof.
  cbv zeta.
  remember (_create_inapp_notification_if_missing now user_id
              notification_type title body reference_id data b) as b1 eqn:Hb1.
  unfold _create_inapp_notification_if_missing in Hb1.
  destruct (find (same_reference user_id notification_type reference_id)
              (notifications b)) as [n|] eqn:Hf; subst b1.
  - split; [|split; [|split]].
    + exists n. apply find_some in Hf. destruct Hf as [Hin Hn].
      split; [exact Hin | now apply same_reference_spec].
    + unfold _create_inapp_notification_if_missing. now rewrite Hf.
    + auto.
    + reflexivity.
  - split; [|split; [|split]].
    + eexists. split; [apply in_or_app; right; now left | reflexivity].
    + unfold _create_inapp_notification_if_missing.
      cbn [notifications]. rewrite (find_app_none _ _ _ Hf). cbn [find].
      unfold same_reference at 1.
      cbn [Notification.user_id Notification.notification_type
           Notification.reference_id].
      rewrite Z.eqb_refl, String.eqb_refl.
      replace (option_eqb Z.eqb reference_id reference_id) with true;
        [reflexivity|].
      destruct reference_id; simpl; [now rewrite Z.eqb_refl | reflexivity].
    + unfold uq_notification_ref. cbn [notifications]. intros Hnd.
      rewrite map_app. cbn [map].
      eapply Permutation_NoDup; [apply Permutation_cons_append|].
      constructor; [|exact Hnd].
      intros Hin. apply in_map_iff in Hin. destruct Hin as (n & Hn & Hin).
      apply (find_none _ _ Hf) in Hin.
      apply not_true_iff_false in Hin. apply Hin.
      now apply same_reference_spec.
    + reflexivity.
Qed.

(** X29.  [_get_or_create_notification_preferences] returns the
    preferences row of the user, creating it with every notification
    switched on when the user has none; asking again returns the same row
    and writes nothing; no user ever gets a second row, and the
    notifications are not touched. *)
Theorem preferences_are_created_once
    (now now' : time) (user_id : Z) (b : Inbox) :
  let b1 := fst (_get_or_create_notification_preferences now user_id b) in
  let prefs := snd (_get_or_create_notification_preferences now user_id b) in
  NotificationPreferences.user_id prefs = user_id
  /\ In prefs (notification_preferences b1)
  /\ _get_or_create_notification_preferences now' user_id b1 = (b1, prefs)
  /\ (~ In user_id (map NotificationPreferences.user_id
                      (notification_preferences b)) ->
      NotificationPreferences.new_registration prefs = true
      /\ NotificationPreferences.event_reminder prefs = true
      /\ notification_preferences b1 = notification_preferences b ++ [prefs])
  /\ (one_preferences_row_each b -> one_preferences_row_each b1)
  /\ notifications b1 = notifications b.
Proof.
  cbv zeta.
  remember (_get_or_create_notification_preferences now user_id b)
    as res eqn:Hres.
  unfold _get_or_create_notification_preferences in Hres.
  destruct (find (fun p => NotificationPreferences.user_id p =? user_id)
              (notification_preferences b)) as [p|] eqn:Hf; subst res.
  - cbn [fst snd]. pose proof (find_some _ _ Hf) as [Hin Hp].
    apply Z.eqb_eq in Hp.
    split; [exact Hp|]. split; [exact Hin|]. split.
    + unfold _get_or_create_notification_preferences. now rewrite Hf.
    + split; [|split; [auto | reflexivity]].
      intros Hnot. exfalso. apply Hnot. apply in_map_iff. now exists p.
  - cbn [fst snd notification_preferences notifications].
    split; [reflexivity|]. split; [apply in_or_app; right; now left|].
    split.
    + unfold _get_or_create_notification_preferences.
      cbn [notification_preferences]. rewrite (find_app_none _ _ _ Hf). cbn [find].
      cbn [NotificationPreferences.user_id]. now rewrite Z.eqb_refl.
    + split; [intros _; now repeat split|]. split; [|reflexivity].
      unfold one_preferences_row_each. cbn [notification_preferences].
      intros Hnd. rewrite map_app. cbn [map].
      eapply Permutation_NoDup; [apply Permutation_cons_append|].
      constructor; [|exact Hnd].
      cbn [NotificationPreferences.user_id].
      intros Hin. apply in_map_iff in Hin. destruct Hin as (q & Hq & Hin).
      apply (find_none _ _ Hf) in Hin. apply Z.eqb_neq in Hin. now apply Hin.
Qed.

(** ** A confirmation followed by a cancellation *)

Lemma in_update_registration (i : Z) (f : Registration.t -> Registration.t)
    (d : Db) (x : Registration.t) :
  In x (registrations (update_registration i f d)) ->
  (exists y, In y (registrations d) /\ Registration.id y = i /\ x = f y)
  \/ (In x (registrations d) /\ Registration.id x <> i).
Proof.
  unfold update_registration, with_registrations, update_where.
  cbn [registrations]. intros H. apply in_map_iff in H.
  destruct H as (y & Hy & Hin).
  destruct (Z.eqb_spec (Registration.id y) i); subst x;
    [left; now exists y | now right].
Qed.

(** The rows after a confirmation: the confirmed one, and the others as
    they were. *)
Lemma confirm_payment_rows (B : string) (env : Env) (sid : string) (d : Db)
    (session : CheckoutSession.t) (registration : Registration.t)
    (event : Event.t) :
  retrieve (gateway env) sid = Some session ->
  CheckoutSession.payment_status session = "paid" ->
  CheckoutSession.client_reference_id session
  = Some (Registration.id registration) ->
  is_row d registration ->
  Registration.status registration <> RegistrationStatus.CONFIRMED ->
  find_event d (Registration.event_id registration) = Some event ->
  forall x, In x (registrations (fst (run (confirm_payment B env sid) d))) ->
            Registration.status x = RegistrationStatus.CONFIRMED
            \/ In x (registrations d).
Proof.
  intros Hget Hpaid Href Hrow Hst Hev.
  apply RegistrationStatus_eqb_neq in Hst.
  unfold run, confirm_payment. rewrite Hget, Hpaid, Href.
  rewrite String.eqb_refl. cbn [negb].
  unfold bind at 1. unfold query at 1. cbn [working].
  pose proof Hrow as Hrow'. red in Hrow'. rewrite Hrow', Hst, Hev.
  set (rid := Registration.id registration).
  do 4 (unfold bind at 1; unfold write at 1; cbn [working committed]).
  set (d2 := update_registration rid (with_qr_code B env registration)
               (update_registration rid (mark_paid session) d)).
  set (d4 := sell_ticket _ _).
  assert (Hregs4 : registrations d4 = registrations d2).
  { unfold d4.
    now destruct (sell_ticket_frame (Registration.ticket_id registration)
                    (take_seat true (Registration.event_id registration) d2))
      as (_ & _ & _ & Hregs & _). }
  assert (Hr4 : find_registration d4 rid
                = Some (confirmed_row B env session registration)).
  { unfold find_registration at 1. rewrite Hregs4.
    change (find_registration d2 rid
            = Some (confirmed_row B env session registration)).
    unfold d2. rewrite !find_registration_update
      by (intros; first [apply with_qr_code_id | apply mark_paid_id]).
    unfold rid. now rewrite Hrow'. }
  assert (Hrows2 : forall x, In x (registrations d2) ->
            (Registration.status x = RegistrationStatus.CONFIRMED
             /\ Registration.id x = rid)
            \/ (In x (registrations d) /\ Registration.id x <> rid)).
  { intros x Hx. unfold d2 in Hx. apply in_update_registration in Hx.
    destruct Hx as [(y & Hy & Hid & ->)|[Hx Hne]].
    - apply in_update_registration in Hy.
      destruct Hy as [(z & Hz & Hidz & ->)|[_ Hne]]; [|contradiction].
      left. rewrite with_qr_code_id, mark_paid_id. split; [|exact Hidz].
      unfold with_qr_code, mark_paid.
      now destruct (negb _), (truthy_str (CheckoutSession.payment_intent _)).
    - apply in_update_registration in Hx.
      destruct Hx as [(z & Hz & Hidz & ->)|Hx]; [|now right].
      rewrite mark_paid_id in Hne. contradiction. }
  destruct (post_commission_run true rid event (mkSession d d4) _ Hr4)
    as (w' & Hpost & Hsame & _).
  unfold bind at 1. rewrite Hpost. cbn [working committed] in *.
  destruct Hsame as (_ & _ & _ & _ & Hrg & _).
  unfold bind at 1. unfold commit at 1. cbn [working committed].
  unfold bind at 1. unfold send_confirmation.
  destruct (email_ok env); session.
  - intros x Hx. apply in_update_registration in Hx.
    destruct Hx as [(y & Hy & Hid & ->)|[Hx Hne]].
    + rewrite Hrg, Hregs4 in Hy.
      destruct (Hrows2 y Hy) as [[Hc _]|[_ Hne]]; [now left | contradiction].
    + rewrite Hrg, Hregs4 in Hx.
      destruct (Hrows2 x Hx) as [[Hc _]|[Hin _]]; [now left | now right].
  - intros x Hx. rewrite Hrg, Hregs4 in Hx.
    destruct (Hrows2 x Hx) as [[Hc _]|[Hin _]]; [now left | now right].
Qed.

(** X30.  A confirmation followed by the cancellation of the same
    registration gives back what the confirmation took: if the event had a
    seat left and nobody waits for it, then after [confirm_payment] and
    [cancel_registration] (the refund being made) the event row and the
    ticket row are exactly as before the confirmation, and the registration
    is [REFUNDED] with payment status [REFUNDED]. *)
Theorem confirmation_then_cancellation_restores_the_counters
    (B : string) (env env' : Env) (sid : string) (d : Db)
    (session : CheckoutSession.t) (registration : Registration.t)
    (event : Event.t) (tid : Z) (k : Ticket.t) (current_user : User.t) :
  retrieve (gateway env) sid = Some session ->
  CheckoutSession.payment_status session = "paid" ->
  CheckoutSession.client_reference_id session
  = Some (Registration.id registration) ->
  truthy_str (CheckoutSession.payment_intent session) = true ->
  is_row d registration ->
  Registration.status registration <> RegistrationStatus.CONFIRMED ->
  Registration.user_id registration = Some (User.id current_user) ->
  find_event d (Registration.event_id registration) = Some event ->
  1 <= Event.available_seats event ->
  Registration.ticket_id registration = Some tid ->
  tid <> 0 ->
  find_ticket d tid = Some k ->
  0 <= Ticket.quantity_sold k ->
  86400 <= Event.start_date event - now env' ->
  (forall payment_intent, create_refund (gateway env') payment_intent = true) ->
  (forall r, In r (registrations d) ->
     on_waitlist (Registration.event_id registration) r = true ->
     Registration.id r = Registration.id registration) ->
  let d1 := fst (run (confirm_payment B env sid) d) in
  let d2 :=
    fst (run (cancel_registration env' (Registration.id registration)
                current_user) d1) in
  find_event d2 (Registration.event_id registration) = Some event
  /\ find_ticket d2 tid = Some k
  /\ option_map Registration.status
       (find_registration d2 (Registration.id registration))
     = Some RegistrationStatus.REFUNDED
  /\ option_map Registration.payment_status
       (find_registration d2 (Registration.id registration))
     = Some PaymentStatus.REFUNDED.
Proof.
  intros Hget Hpaid Href Hpi Hrow Hst Hu Hev Hseat Htid Htid0 Hk Hsold
    Hearly Hrefund Hnone d1 d2.
  destruct (confirm_payment_row B env sid d session registration event
              Hget Hpaid Href Hrow Hst Hev)
    as (d' & response & Hrun & Hr1 & _).
  destruct (seat_taken_at_confirmation B env sid d session registration event
              Hget Hpaid Href Hrow Hst Hev) as [Hev1 Htickets1].
  pose proof (confirm_payment_rows B env sid d session registration event
                Hget Hpaid Href Hrow Hst Hev) as Hrows1.
  fold d1 in Hev1, Htickets1, Hrows1.
  assert (Hd1 : d' = d1) by (unfold d1; now rewrite Hrun).
  rewrite Hd1 in Hr1. clear Hd1 Hrun d'.
  set (r1 := if email_ok env
             then Registration.set_email_sent_at (Some (now env))
                    (Registration.set_email_sent true
                       (confirmed_row B env session registration))
             else confirmed_row B env session registration) in *.
  assert (Hfacts : Registration.id r1 = Registration.id registration
                   /\ Registration.user_id r1
                      = Registration.user_id registration
                   /\ Registration.status r1 = RegistrationStatus.CONFIRMED
                   /\ Registration.event_id r1
                      = Registration.event_id registration
                   /\ Registration.ticket_id r1
                      = Registration.ticket_id registration
                   /\ Registration.payment_status r1 = PaymentStatus.PAID
                   /\ Registration.stripe_payment_intent_id r1
                      = CheckoutSession.payment_intent session).
  { unfold r1, confirmed_row, with_qr_code, mark_paid. rewrite Hpi.
    destruct (email_ok env), (negb _); repeat split. }
  destruct Hfacts as (Hid1 & Hu1 & Hst1 & Heid1 & Htid1 & Hpay1 & Hint1).
  set (event1 := Event.set_available_seats
                   (Z.max 0 (Event.available_seats event - 1)) event) in *.
  assert (Hcancel :
            run (cancel_registration env' (Registration.id r1) current_user) d1
            = (release_ticket (Registration.ticket_id r1)
                 (free_seat (Registration.event_id r1)
                    (update_registration (Registration.id r1)
                       (cancelled_as r1) d1)),
               Ok tt)).
  { apply (cancel_registration_run env' current_user d1 r1 event1).
    - red. now rewrite Hid1.
    - now rewrite Hu1.
    - rewrite Hst1. discriminate.
    - now rewrite Heid1.
    - exact Hearly.
    - intros pi _. apply Hrefund.
    - intros r Hr Hw. rewrite Hid1. rewrite Heid1 in Hw.
      destruct (Hrows1 r Hr) as [Hc|Hin]; [|now apply Hnone].
      unfold on_waitlist in Hw. rewrite Hc in Hw. simpl in Hw.
      rewrite andb_false_r in Hw. discriminate. }
  rewrite Hid1 in Hcancel at 1.
  assert (Hd2 : d2 = release_ticket (Registration.ticket_id r1)
                       (free_seat (Registration.event_id r1)
                          (update_registration (Registration.id r1)
                             (cancelled_as r1) d1))).
  { unfold d2. now rewrite Hcancel. }
  rewrite Hd2. clear Hd2 Hcancel d2.
  set (d0 := free_seat (Registration.event_id r1)
               (update_registration (Registration.id r1) (cancelled_as r1) d1)).
  destruct (registrations_release_ticket (Registration.ticket_id r1) d0)
    as [Hregs Hevents].
  assert (Hr2 : find_registration (release_ticket (Registration.ticket_id r1) d0)
                  (Registration.id registration)
                = Some (cancelled_as r1 r1)).
  { unfold find_registration. rewrite Hregs.
    change (find_registration
              (update_registration (Registration.id r1) (cancelled_as r1) d1)
              (Registration.id registration) = Some (cancelled_as r1 r1)).
    rewrite <- Hid1.
    rewrite find_registration_update by apply cancelled_as_id.
    rewrite Hid1, Hr1. reflexivity. }
  assert (Hrefunded : PaymentStatus.eqb (Registration.payment_status r1)
                        PaymentStatus.PAID
                      && truthy_str (Registration.stripe_payment_intent_id r1)
                      = true).
  { now rewrite Hpay1, Hint1, Hpi. }
  split; [|split].
  - unfold find_event. rewrite Hevents.
    change (find_event (free_seat (Registration.event_id r1) d1)
              (Registration.event_id registration) = Some event).
    rewrite Heid1. unfold free_seat.
    rewrite find_event_update by reflexivity. rewrite Hev1.
    cbn [option_map]. unfold event1, Event.set_available_seats.
    destruct event; simpl in *. do 2 f_equal. lia.
  - rewrite Htid1, Htid. unfold release_ticket.
    cbn [truthy_id]. apply Z.eqb_neq in Htid0. rewrite Htid0. cbn [negb].
    rewrite find_ticket_update by reflexivity.
    replace (find_ticket d0 tid)
      with (find_ticket (sell_ticket (Registration.ticket_id registration) d)
              tid)
      by (unfold find_ticket; now rewrite <- Htickets1).
    rewrite Htid. unfold sell_ticket. cbn [truthy_id]. rewrite Htid0.
    cbn [negb]. rewrite find_ticket_update by reflexivity. rewrite Hk.
    cbn [option_map]. unfold Ticket.set_quantity_sold.
    destruct k; simpl in *. do 2 f_equal. lia.
  - rewrite Hr2. unfold cancelled_as. rewrite Hrefunded. now split.
Qed.

Lemma confirmation_then_cancellation_restores_the_counters_witness :
  let d1 :=
    fst (run (confirm_payment Sample.BACKEND_URL (Sample.env 60) "cs_1")
             Sample.db_pending) in
  let d2 := fst (run (cancel_registration (Sample.env 120) 1 Sample.alice) d1) in
  find_event d2 1 = Some Sample.concert
  /\ find_ticket d2 10 = Some Sample.standard
  /\ option_map Registration.status (find_registration d2 1)
     = Some RegistrationStatus.REFUNDED
  /\ option_map Registration.payment_status (find_registration d2 1)
     = Some PaymentStatus.REFUNDED.
Proof.
  apply (confirmation_then_cancellation_restores_the_counters
           Sample.BACKEND_URL (Sample.env 60) (Sample.env 120) "cs_1"
           Sample.db_pending Sample.paid_session Sample.pending_row
           Sample.concert 10 Sample.standard Sample.alice);
    try reflexivity; try discriminate.
  intros r [<-|[]] H. reflexivity.
Defined.
